(** * TikTok downloader API: the extraction pipeline of [src/api/app.py]

    A shallow embedding of [extract_video_id], the three provider adapters
    [download_v1], [download_v2], [download_v3] and the orchestrator
    [download_video], together with the properties of the specification
    that concern them.

    Conventions of the embedding.
    - A Python [str] is the Rocq [string] of its UTF-8 encoding, and a
      [bytes] object is the [string] of its bytes.  The three regular
      expressions are modelled on ASCII text, where the class [\d] is the
      range [0-9] (on other text Python's [\d] also matches the decimal
      digits of other scripts): every property that depends on what the
      patterns match carries the hypothesis that the URL is ASCII,
      [is_ascii].
    - A Python function that prints, logs, talks to the network and may
      raise is a computation of the monad [M]: it threads the chronological
      trace of observable events and ends in [Return v] or [Raise e].
    - The outside world (HTTP servers, the HTML selector library, Python's
      formatting of tracebacks and dictionaries) is a record [World] of
      oracles; every theorem quantifies over it.
    - Python resolves a global name when the statement that mentions it
      runs.  The functions are therefore parametrised by the set [ns] of
      names bound in the module namespace; [module_bindings] is the set
      that [app.py] really binds, and [with_logger] is that set with the
      name [logger] added, bound to a logging object whose methods record
      their message and return. *)

From Stdlib Require Import String Ascii List ZArith Lia Bool DecimalString.
Import ListNotations.
Local Open Scope list_scope.
Local Open Scope string_scope.

(** ** Python strings *)

Module PyStr.

(** The one-character string holding a double quote. *)
Definition dq : string := String (ascii_of_nat 34) EmptyString.

(** [str(n)] for an integer. *)
Definition str_of_Z (z : Z) : string := NilZero.string_of_int (Z.to_int z).

(** [sub in s]. *)
Fixpoint contains (sub s : string) : bool :=
  if prefix sub s then true
  else match s with
       | String _ s' => contains sub s'
       | EmptyString => false
       end.

(** [s[n:]]. *)
Fixpoint skip (n : nat) (s : string) : string :=
  match n, s with
  | S n', String _ s' => skip n' s'
  | _, _ => s
  end.

(** A byte [10xxxxxx]: it continues the character begun before it. *)
Definition is_continuation (c : ascii) : bool :=
  match c with Ascii _ _ _ _ _ _ b6 b7 => b7 && negb b6 end.

(** [s[:n]]: the first [n] characters of [s], each of them one byte or a
    leading byte with the continuation bytes that follow it. *)
Fixpoint slice_to (n : nat) (s : string) : string :=
  match s with
  | EmptyString => EmptyString
  | String c s' =>
      if is_continuation c then String c (slice_to n s')
      else match n with
           | 0 => EmptyString
           | S n' => String c (slice_to n' s')
           end
  end.

(** Truth value of a string: empty is false. *)
Definition truthy (s : string) : bool :=
  match s with EmptyString => false | String _ _ => true end.

(** Longest prefix of [s] whose characters satisfy [p], and the rest. *)
Fixpoint span (p : ascii -> bool) (s : string) : string * string :=
  match s with
  | String c s' =>
      if p c then let (a, b) := span p s' in (String c a, b)
      else (EmptyString, s)
  | EmptyString => (EmptyString, EmptyString)
  end.

Fixpoint all (p : ascii -> bool) (s : string) : bool :=
  match s with
  | String c s' => p c && all p s'
  | EmptyString => true
  end.

(** Every character of [s] is an ASCII character (a byte below 128). *)
Definition is_ascii (s : string) : bool :=
  all (fun c => match c with Ascii _ _ _ _ _ _ _ b7 => negb b7 end) s.

(** [true] when [s] is empty or its first character fails [p]. *)
Definition stops (p : ascii -> bool) (s : string) : bool :=
  match s with
  | String c _ => negb (p c)
  | EmptyString => true
  end.

End PyStr.
Import PyStr.

(** ** The three regular expressions of [extract_video_id] *)

Module Re.

Definition in_range (lo hi c : ascii) : bool :=
  (lo <=? c)%char && (c <=? hi)%char.

(** [\d] on ASCII text *)
Definition is_digit (c : ascii) : bool := in_range "0" "9" c.

(** [[A-Za-z0-9_.]] *)
Definition is_handle_char (c : ascii) : bool :=
  in_range "A" "Z" c || in_range "a" "z" c || in_range "0" "9" c
  || (c =? "_")%char || (c =? ".")%char.

(** [[/=]] *)
Definition is_sep (c : ascii) : bool := (c =? "/")%char || (c =? "=")%char.

(** [re.search] on ASCII text: the match at the leftmost position where
    the pattern, given as a matcher anchored at the start of its argument,
    matches.  None of the three patterns matches the empty string. *)
Fixpoint search {A : Type} (m : string -> option A) (s : string) : option A :=
  match m s with
  | Some a => Some a
  | None => match s with
            | String _ s' => search m s'
            | EmptyString => None
            end
  end.

(** [@([A-Za-z0-9_.]+)] anchored; the result is [group(0)]. *)
Definition username_at (s : string) : option string :=
  match s with
  | String "@" rest =>
      match fst (span is_handle_char rest) with
      | EmptyString => None
      | h => Some (String "@" h)
      end
  | _ => None
  end.

(** [/(video|photo)/(\d+)] anchored; the result is
    [(group(1), group(2))]. *)
Definition content_type_at (s : string) : option (string * string) :=
  if prefix "/video/" s then
    match fst (span is_digit (skip 7 s)) with
    | EmptyString => None
    | d => Some ("video", d)
    end
  else if prefix "/photo/" s then
    match fst (span is_digit (skip 7 s)) with
    | EmptyString => None
    | d => Some ("photo", d)
    end
  else None.

(** [[/=](\d{15,})] anchored; the result is [group(1)]. *)
Definition alt_video_id_at (s : string) : option string :=
  match s with
  | String c rest =>
      if is_sep c then
        let d := fst (span is_digit rest) in
        if (15 <=? String.length d)%nat then Some d else None
      else None
  | EmptyString => None
  end.

(** A bounded check that runs: no match starts before position [n]. *)
Definition none_before {A : Type} (m : string -> option A) (s : string)
    (n : nat) : bool :=
  forallb (fun k => match m (skip k s) with None => true | Some _ => false end)
          (seq 0 n).

(** [re.search(username_pattern, url)] *)
Definition username_pattern : string -> option string := search username_at.
(** [re.search(content_type_pattern, url)] *)
Definition content_type_pattern : string -> option (string * string) :=
  search content_type_at.
(** [re.search(r"[/=](\d{15,})", url)] *)
Definition alt_video_id_pattern : string -> option string :=
  search alt_video_id_at.

End Re.

(** ** Exceptions, events, responses *)

(** The exceptions that can travel through the pipeline.  [PyError] is any
    other subclass of [Exception] (a transport error of [requests], a JSON
    decoding error, an [AttributeError] ...), carried with its [str(e)]. *)
Inductive exn : Type :=
| NameError (name : string)
| HTTPException (status_code : Z) (detail : string)
| PyError (text : string).

(** [str(e)].  For an [HTTPException] it is the text that Starlette
    gives, ["<status_code>: <detail>"]; the code only writes it to the log. *)
Definition str_exn (e : exn) : string :=
  match e with
  | NameError n => "name '" ++ n ++ "' is not defined"
  | HTTPException s d => str_of_Z s ++ ": " ++ d
  | PyError t => t
  end.

Definition is_HTTPException (e : exn) : bool :=
  match e with HTTPException _ _ => true | _ => false end.

Inductive level : Type := DEBUG | WARNING | ERROR.

(** What a run of the pipeline does that can be observed from outside. *)
Inductive event : Type :=
| Stdout (line : string)
| Log (lvl : level) (msg : string)
| RequestsGet (url : string)
| SessionGet (url : string)
| SessionPost (url : string) (data : list (string * string)).

(** A value decoded by [response.json()]. *)
#[warnings="-register-all"]
Inductive json : Type :=
| JNull
| JBool (b : bool)
| JInt (z : Z)
| JFloat (nonzero : bool)
| JStr (s : string)
| JArr (l : list json)
| JObj (kv : list (string * json)).

(** A [requests.Response], with the attributes the code reads. *)
Record Response : Type := {
  r_status_code : Z;
  r_url : string;
  r_text : string;
  r_content : string + string;     (* [.content]; [inl t]: reading the body raises *)
  r_json : string + json;            (* [inl t]: [.json()] raises, [str(e) = t] *)
  r_content_type : option string;    (* [headers.get('Content-Type')] *)
  r_content_length : option string;  (* [headers.get('Content-Length')] *)
  r_headers_repr : string            (* [str(dict(headers))] *)
}.

(** The result handed to the web framework. *)
Record StreamingResponse : Type := {
  body : string;
  media_type : string;
  headers : list (string * string)
}.

(** The environment.  A network call answers from the history of events
    so far (servers and sessions are stateful) with a response or with an
    exception, given by its text.  A query of the selector library gives
    the list of its results or raises: the library refuses to run a CSS or
    XPath query on a document that it has taken for JSON. *)
Record World : Type := {
  requests_get : list event -> string -> string + Response;
  session_get : list event -> string -> string + Response;
  session_post :
    list event -> string -> list (string * string) -> string + Response;
  css : string -> string -> string + list string;
      (* query, document: [Selector(text=document).css(query).getall()];
         [inl t]: the call raises, [str(e) = t] *)
  xpath : string -> string -> string + list string;
      (* the same for [.xpath(query)] *)
  format_exc : option exn -> string;        (* [traceback.format_exc()] *)
  repr_json : json -> string;               (* [str(v)] of a decoded value *)
  selector_type_error : json -> string      (* text of [Selector(text=v)]'s
                                               TypeError when [v] is no str *)
}.

(** ** The monad of the pipeline *)

Inductive result (A : Type) : Type :=
| Return (a : A)
| Raise (e : exn).
Arguments Return {A} a.
Arguments Raise {A} e.

Definition M (A : Type) : Type := list event -> result A * list event.

Definition ret {A} (a : A) : M A := fun t => (Return a, t).
Definition raise {A} (e : exn) : M A := fun t => (Raise e, t).
Definition bind {A B} (m : M A) (k : A -> M B) : M B :=
  fun t => match m t with
           | (Return a, t') => k a t'
           | (Raise e, t') => (Raise e, t')
           end.
Definition emit (ev : event) : M unit := fun t => (Return tt, (t ++ [ev])%list).

(** [try: body except Exception as e: handler(e)] *)
Definition try_except {A} (body : M A) (handler : exn -> M A) : M A :=
  fun t => match body t with
           | (Return a, t') => (Return a, t')
           | (Raise e, t') => handler e t'
           end.

Declare Scope py_scope.
Delimit Scope py_scope with py.
Notation "x <- c1 ;; c2" := (bind c1 (fun x => c2))
  (at level 61, c1 at next level, right associativity) : py_scope.
Notation "' pat <- c1 ;; c2" :=
  (bind c1 (fun x => match x with pat => c2 end))
  (at level 61, pat pattern, c1 at next level, right associativity) : py_scope.
Notation "c1 ;; c2" := (bind c1 (fun _ => c2))
  (at level 61, right associativity) : py_scope.
Local Open Scope py_scope.

(** [print(line)] *)
Definition print (line : string) : M unit := emit (Stdout line).

(** ** The module namespace *)

(** The global names that [app.py] binds, by import, assignment or [def],
    in the order of the file. *)
Definition module_bindings : list string :=
  [ "FastAPI"; "HTTPException"; "Query"; "Security"; "Depends";
    "StreamingResponse"; "APIKeyHeader"; "requests"; "Selector"; "re"; "io";
    "os"; "uuid"; "traceback"; "load_dotenv"; "app"; "API_KEY";
    "api_key_header"; "get_api_key"; "headers"; "download_video";
    "extract_video_id"; "download_v1"; "download_v2"; "download_v3" ].

(** The same module with a logging object bound to the name [logger]. *)
Definition with_logger : list string := "logger" :: module_bindings.

(** Lookup of a global name at run time.  A name that the module does not
    bind is looked up among the builtins next, and [logger] is not one of
    them: when this is [false] for [logger], the reference raises
    [NameError]. *)
Definition name_bound (ns : list string) (n : string) : bool :=
  existsb (String.eqb n) ns.

(** ** Values of Python *)

(** Truth value of the result of [.get()]: [None] and the empty string are
    false. *)
Definition truthy_opt (v : option string) : bool :=
  match v with Some s => truthy s | None => false end.

(** The string held by a variable known not to be [None]. *)
Definition the (v : option string) : string :=
  match v with Some s => s | None => EmptyString end.

(** [d.get(key, default)] on the two response headers that are read. *)
Definition get_or (v : option string) (default : string) : string :=
  match v with Some s => s | None => default end.

(** [str(last_error)], where [last_error] may still be [None]. *)
Definition str_opt_exn (e : option exn) : string :=
  match e with Some e => str_exn e | None => "None" end.

Definition type_name (j : json) : string :=
  match j with
  | JNull => "NoneType" | JBool _ => "bool" | JInt _ => "int"
  | JFloat _ => "float" | JStr _ => "str" | JArr _ => "list"
  | JObj _ => "dict"
  end.

Definition truthy_json (j : json) : bool :=
  match j with
  | JNull => false
  | JBool b => b
  | JInt z => negb (z =? 0)%Z
  | JFloat nonzero => nonzero
  | JStr s => truthy s
  | JArr l => match l with [] => false | _ => true end
  | JObj kv => match kv with [] => false | _ => true end
  end.

Fixpoint assoc {V : Type} (key : string) (kv : list (string * V)) : option V :=
  match kv with
  | [] => None
  | (k, v) :: kv' => if (k =? key)%string then Some v else assoc key kv'
  end.

(** A dict display [{k1: v1, k2: v2, ...}]: a repeated key keeps its first
    position and takes the last value. *)
Fixpoint dict_set (kv : list (string * string)) (k v : string)
  : list (string * string) :=
  match kv with
  | [] => [(k, v)]
  | (k', v') :: kv' =>
      if (k' =? k)%string then (k', v) :: kv' else (k', v') :: dict_set kv' k v
  end.

Definition py_dict (items : list (string * string)) : list (string * string) :=
  fold_left (fun d kv => dict_set d (fst kv) (snd kv)) items [].

(** ** Selectors and addresses of the three backends *)

Definition v1_token_selector : string :=
  "input[name=" ++ dq ++ "token" ++ dq ++ "]::attr(value)".
Definition v1_link_selector : string :=
  ".downtmate-right.is-desktop-only.right a::attr(href)".

Definition v2_token_a_path : string :=
  "//*[@id=" ++ dq ++ "link_url" ++ dq ++ "]/@name".
Definition v2_token_b_path : string :=
  "//*[@id=" ++ dq ++ "submit-form" ++ dq ++ "]/div/div[1]/input[2]/@name".
Definition v2_token_b_value_path : string :=
  "//*[@id=" ++ dq ++ "submit-form" ++ dq ++ "]/div/div[1]/input[2]/@value".
Definition selectors_to_try : list string :=
  [ "/html/body/div[2]/div/div[2]/div[2]/a[1]/@href";
    "//div[contains(@class, " ++ dq ++ "row" ++ dq
      ++ ")]//a[contains(text(), " ++ dq ++ "Download" ++ dq ++ ")]/@href";
    "//a[contains(@href, " ++ dq ++ ".mp4" ++ dq ++ ")]/@href" ].

Definition v3_prefix_selector : string :=
  "input[name=" ++ dq ++ "prefix" ++ dq ++ "]::attr(value)".
Definition v3_link_selector : string := "div.tk-down-link a::attr(href)".
Definition v3_alt_link_selector : string :=
  "a[href*=" ++ dq ++ ".mp4" ++ dq ++ "]::attr(href)".

(** How the loop over the methods of [download_video] ends. *)
Inductive loop_exit : Type :=
| Returned (r : StreamingResponse)
| Exhausted (last_error : option exn).

(** ** The functions of [app.py] *)

Section Pipeline.

(** The names bound in the module namespace, and the outside world. *)
Variable ns : list string.
Variable w : World.

(** [logger.debug(msg)], [logger.warning(msg)], [logger.error(msg)]: the
    global name [logger] is looked up first; unbound, the statement
    raises [NameError]; bound, the call records the message. *)
Definition logger (lvl : level) (msg : string) : M unit :=
  if name_bound ns "logger" then emit (Log lvl msg)
  else raise (NameError "logger").

(** [requests.get(u, headers=headers, allow_redirects=True)] *)
Definition requests_get_ (u : string) : M Response :=
  fun t => match requests_get w t u with
           | inr r => (Return r, (t ++ [RequestsGet u])%list)
           | inl msg => (Raise (PyError msg), (t ++ [RequestsGet u])%list)
           end.

(** [s.get(u, headers=headers)] on the session of an adapter *)
Definition s_get (u : string) : M Response :=
  fun t => match session_get w t u with
           | inr r => (Return r, (t ++ [SessionGet u])%list)
           | inl msg => (Raise (PyError msg), (t ++ [SessionGet u])%list)
           end.

(** [s.post(u, headers=headers, data=data)] *)
Definition s_post (u : string) (data : list (string * string)) : M Response :=
  fun t => match session_post w t u data with
           | inr r => (Return r, (t ++ [SessionPost u data])%list)
           | inl msg => (Raise (PyError msg), (t ++ [SessionPost u data])%list)
           end.

(** [response.content] *)
Definition content_ (r : Response) : M string :=
  match r_content r with
  | inr bytes => ret bytes
  | inl msg => raise (PyError msg)
  end.

(** [response.json()] *)
Definition json_ (r : Response) : M json :=
  match r_json r with
  | inr j => ret j
  | inl msg => raise (PyError msg)
  end.

(** [response_json.get(key)]: only a dict has the method; a missing key
    gives [None]. *)
Definition json_get (j : json) (key : string) : M json :=
  match j with
  | JObj kv => ret (match assoc key kv with Some v => v | None => JNull end)
  | _ => raise (PyError ("'" ++ type_name j
                         ++ "' object has no attribute 'get'"))
  end.

(** [selector.css(query).getall()] on [selector = Selector(text=doc)];
    [.get()] is the first element of the list, or [None]. *)
Definition css_ (query doc : string) : M (list string) :=
  match css w query doc with
  | inr found => ret found
  | inl msg => raise (PyError msg)
  end.

(** [selector.xpath(query).getall()] *)
Definition xpath_ (query doc : string) : M (list string) :=
  match xpath w query doc with
  | inr found => ret found
  | inl msg => raise (PyError msg)
  end.

(** [Selector(text=v)]: the document, when [v] is a string. *)
Definition Selector_of_json (v : json) : M string :=
  match v with
  | JStr doc => ret doc
  | _ => raise (PyError (selector_type_error w v))
  end.

(** Lines 84-93 of [extract_video_id]: a short link is replaced by the
    address its redirections end at. *)
Definition follow_redirect (url : string) : M string :=
  if contains "vm.tiktok.com" url || contains "vt.tiktok.com" url then
    print "Detected shortened URL, following redirect..." ;;
    try_except
      (response <- requests_get_ url ;;
       let url := r_url response in
       print ("Redirected to: " ++ url) ;;
       ret url)
      (fun e =>
         logger ERROR ("Error following redirect: " ++ str_exn e) ;;
         raise (HTTPException 400
                  ("Failed to follow redirect: " ++ str_exn e)))
  else ret url.

(** Lines 95-136 of [extract_video_id]: the standard patterns, the
    alternative pattern, and the two errors. *)
Definition match_patterns (url : string) : M (string * string * string) :=
  let username_match := Re.username_pattern url in
  let content_type_match := Re.content_type_pattern url in
  early <-
    (if match username_match, content_type_match with
        | Some _, Some _ => false
        | _, _ => true
        end
     then
       logger WARNING "Standard pattern failed, trying alternative patterns..." ;;
       match Re.alt_video_id_pattern url with
       | Some video_id =>
           print ("Found video ID using alternative pattern: " ++ video_id) ;;
           username <-
             match username_match with
             | Some u => ret u
             | None =>
                 let username := "@user" in
                 logger WARNING
                   ("Couldn't extract username, using placeholder: "
                    ++ username) ;;
                 ret username
             end ;;
           ret (Some (username, video_id, "video"))
       | None => ret None
       end
     else ret None) ;;
  match early with
  | Some triple => ret triple
  | None =>
      match username_match with
      | None =>
          logger ERROR ("Could not extract username from URL: " ++ url) ;;
          raise (HTTPException 400 "Could not extract username from URL")
      | Some username =>
          print ("Extracted username: " ++ username) ;;
          match content_type_match with
          | None =>
              logger ERROR ("Could not extract video ID from URL: " ++ url) ;;
              raise (HTTPException 400 "Could not extract video ID from URL")
          | Some (content_type, video_id) =>
              print ("Extracted content type: " ++ content_type
                     ++ ", video ID: " ++ video_id) ;;
              ret (username, video_id, content_type)
          end
      end
  end.

(** [extract_video_id], lines 80-136; the result is
    [(username, video_id, content_type)]. *)
Definition extract_video_id (url : string) : M (string * string * string) :=
  print ("Extracting video ID from URL: " ++ url) ;;
  url <- follow_redirect url ;;
  match_patterns url.

(** The check shared by the three adapters, lines 154-156, 266-268 and
    386-388. *)
Definition only_videos (content_type : string) : M unit :=
  if negb (content_type =? "video")%string then
    logger WARNING ("Content type " ++ content_type
                    ++ " is not supported, only videos") ;;
    raise (HTTPException 400 "Only video downloads are supported")
  else ret tt.

(** The check of the fetched media, shared by the three adapters: lines
    219-226, 338-345 and 453-460.  It gives [content_length]. *)
Definition check_video_content (response : Response) : M string :=
  let content_type := get_or (r_content_type response) EmptyString in
  (if negb (contains "video" content_type)
      && negb (contains "octet-stream" content_type)
   then
     logger WARNING ("Unexpected content type in response: " ++ content_type) ;;
     logger DEBUG ("Response headers: " ++ r_headers_repr response)
   else ret tt) ;;
  let content_length := get_or (r_content_length response) "0" in
  logger DEBUG ("Video content length: " ++ content_length ++ " bytes") ;;
  ret content_length.

(** The [except Exception as e] clause that closes each adapter, lines
    240-246, 357-363 and 472-478; [v] is the tag of the adapter. *)
Definition adapter_handler (v : string) (e : exn) : M StreamingResponse :=
  match e with
  | HTTPException _ detail =>
      logger ERROR ("HTTP exception in " ++ v ++ " method: " ++ detail) ;;
      raise e
  | _ =>
      logger ERROR ("Error in " ++ v ++ " method: " ++ str_exn e) ;;
      logger DEBUG ("Traceback: " ++ format_exc w (Some e)) ;;
      raise (HTTPException 500
               ("Error downloading video (" ++ v ++ "): " ++ str_exn e))
  end.

Definition content_disposition (video_id : string) : string * string :=
  ("Content-Disposition",
   "attachment; filename=" ++ dq ++ "tiktok_" ++ video_id ++ ".mp4" ++ dq).

(** Link extraction of [download_v1], lines 200-208: one selector. *)
Definition v1_find_link (response_data : string) : M string :=
  download_links <- css_ v1_link_selector response_data ;;
  match download_links with
  | [] =>
      logger ERROR "Could not find download link in tmate.cc response" ;;
      logger DEBUG ("Response data: " ++ slice_to 500 response_data) ;;
      raise (HTTPException 500 "Could not find download link")
  | download_link :: _ =>
      logger DEBUG ("Found download link: " ++ download_link) ;;
      ret download_link
  end.

(** [download_v1], lines 138-246. *)
Definition download_v1 (url : string) : M StreamingResponse :=
  print ("Starting v1 download method for URL: " ++ url) ;;
  try_except
    ('(_, video_id, content_type) <- extract_video_id url ;;
     only_videos content_type ;;
     logger DEBUG "Making initial request to tmate.cc" ;;
     response <- s_get "https://tmate.cc/" ;;
     (if negb (r_status_code response =? 200)%Z then
        logger ERROR ("Initial request to tmate.cc failed with status code: "
                      ++ str_of_Z (r_status_code response)) ;;
        raise (HTTPException (r_status_code response)
                 ("tmate.cc initial request failed with status "
                  ++ str_of_Z (r_status_code response)))
      else ret tt) ;;
     found <- css_ v1_token_selector (r_text response) ;;
     let token := hd_error found in
     (if negb (truthy_opt token) then
        logger ERROR "Could not retrieve token from tmate.cc" ;;
        raise (HTTPException 500 "Could not retrieve token from tmate.cc")
      else ret tt) ;;
     logger DEBUG ("Obtained token: " ++ the token) ;;
     let data := py_dict [("url", url); ("token", the token)] in
     logger DEBUG ("Submitting URL to tmate.cc: " ++ url) ;;
     response <- s_post "https://tmate.cc/action" data ;;
     (if negb (r_status_code response =? 200)%Z then
        logger ERROR ("tmate.cc action request failed with status code: "
                      ++ str_of_Z (r_status_code response)) ;;
        raise (HTTPException (r_status_code response)
                 ("tmate.cc action request failed with status "
                  ++ str_of_Z (r_status_code response)))
      else ret tt) ;;
     response_json <-
       try_except (json_ response)
         (fun e =>
            logger ERROR ("Failed to parse JSON response: " ++ str_exn e) ;;
            logger DEBUG ("Response content: "
                          ++ slice_to 500 (r_text response)) ;;
            raise (HTTPException 500
                     ("Invalid JSON response from tmate.cc: " ++ str_exn e))) ;;
     response_data <- json_get response_json "data" ;;
     (if negb (truthy_json response_data) then
        logger ERROR "Invalid response from tmate.cc (no data field)" ;;
        logger DEBUG ("Response JSON: " ++ repr_json w response_json) ;;
        raise (HTTPException 500
                 "Invalid response from tmate.cc (no data field)")
      else ret tt) ;;
     response_data <- Selector_of_json response_data ;;
     download_link <- v1_find_link response_data ;;
     logger DEBUG "Downloading video content" ;;
     video_response <- s_get download_link ;;
     (if negb (r_status_code video_response =? 200)%Z then
        logger ERROR ("Failed to download video with status code: "
                      ++ str_of_Z (r_status_code video_response)) ;;
        raise (HTTPException (r_status_code video_response)
                 ("Failed to download video from tmate.cc with status "
                  ++ str_of_Z (r_status_code video_response)))
      else ret tt) ;;
     content_length <- check_video_content video_response ;;
     print ("Successfully downloaded video using v1 method, returning "
            ++ content_length ++ " bytes") ;;
     video <- content_ video_response ;;
     action_body <- content_ response ;;
     ret {| body := video;
            media_type := "video/mp4";
            headers :=
              [ content_disposition video_id;
                ("Content-Length",
                 str_of_Z (Z.of_nat (String.length action_body)));
                ("Accept-Ranges", "bytes") ] |})
    (adapter_handler "v1").

(** The loop over [selectors_to_try] of [download_v2], lines 318-322; it
    gives the value of [download_link] when the loop is left. *)
Fixpoint try_selectors (doc : string) (paths : list string)
    (download_link : option string) : M (option string) :=
  match paths with
  | [] => ret download_link
  | selector_path :: paths' =>
      found <- xpath_ selector_path doc ;;
      let download_link := hd_error found in
      if truthy_opt download_link then
        logger DEBUG ("Found download link using selector " ++ selector_path
                      ++ ": " ++ the download_link) ;;
        ret download_link
      else try_selectors doc paths' download_link
  end.

(** Link extraction of [download_v2], lines 310-327. *)
Definition v2_find_link (response_text : string) : M string :=
  download_link <- try_selectors response_text selectors_to_try None ;;
  (if negb (truthy_opt download_link) then
     logger ERROR "Could not find download link in musicaldown.com response" ;;
     logger DEBUG ("Response content: " ++ slice_to 500 response_text) ;;
     raise (HTTPException 500 "Could not find download link")
   else ret tt) ;;
  ret (the download_link).

(** [download_v2], lines 248-363. *)
Definition download_v2 (url : string) : M StreamingResponse :=
  print ("Starting v2 download method for URL: " ++ url) ;;
  try_except
    ('(_, video_id, content_type) <- extract_video_id url ;;
     only_videos content_type ;;
     logger DEBUG "Making initial request to musicaldown.com" ;;
     r <- s_get "https://musicaldown.com/en" ;;
     (if negb (r_status_code r =? 200)%Z then
        logger ERROR
          ("Initial request to musicaldown.com failed with status code: "
           ++ str_of_Z (r_status_code r)) ;;
        raise (HTTPException (r_status_code r)
                 ("musicaldown.com initial request failed with status "
                  ++ str_of_Z (r_status_code r)))
      else ret tt) ;;
     found_a <- xpath_ v2_token_a_path (r_text r) ;;
     let token_a := hd_error found_a in
     found_b <- xpath_ v2_token_b_path (r_text r) ;;
     let token_b := hd_error found_b in
     found_b_value <- xpath_ v2_token_b_value_path (r_text r) ;;
     let token_b_value := hd_error found_b_value in
     (if negb (truthy_opt token_a) || negb (truthy_opt token_b)
         || negb (truthy_opt token_b_value)
      then
        logger ERROR "Could not retrieve tokens from musicaldown.com" ;;
        logger DEBUG ("HTML content: " ++ slice_to 500 (r_text r)) ;;
        raise (HTTPException 500
                 "Could not retrieve tokens from musicaldown.com")
      else ret tt) ;;
     logger DEBUG ("Obtained tokens: " ++ the token_a ++ ", "
                   ++ the token_b ++ "=" ++ the token_b_value) ;;
     let data := py_dict [ (the token_a, url);
                           (the token_b, the token_b_value);
                           ("verify", "1") ] in
     logger DEBUG ("Submitting URL to musicaldown.com: " ++ url) ;;
     response <- s_post "https://musicaldown.com/download" data ;;
     (if negb (r_status_code response =? 200)%Z then
        logger ERROR
          ("musicaldown.com download request failed with status code: "
           ++ str_of_Z (r_status_code response)) ;;
        raise (HTTPException (r_status_code response)
                 ("musicaldown.com download request failed with status "
                  ++ str_of_Z (r_status_code response)))
      else ret tt) ;;
     download_link <- v2_find_link (r_text response) ;;
     logger DEBUG ("Downloading video from: " ++ download_link) ;;
     response <- s_get download_link ;;
     (if negb (r_status_code response =? 200)%Z then
        logger ERROR ("Failed to download video with status code: "
                      ++ str_of_Z (r_status_code response)) ;;
        raise (HTTPException (r_status_code response)
                 ("Failed to download video from musicaldown.com with status "
                  ++ str_of_Z (r_status_code response)))
      else ret tt) ;;
     content_length <- check_video_content response ;;
     print ("Successfully downloaded video using v2 method, returning "
            ++ content_length ++ " bytes") ;;
     video <- content_ response ;;
     ret {| body := video;
            media_type := "video/mp4";
            headers := [ content_disposition video_id ] |})
    (adapter_handler "v2").

(** Link extraction of [download_v3], lines 429-442: two selectors. *)
Definition v3_find_link (response_text : string) : M string :=
  download_links <- css_ v3_link_selector response_text ;;
  download_links <-
    match download_links with
    | [] =>
        logger ERROR "Could not find download link in tiktokio.com response" ;;
        download_links <- css_ v3_alt_link_selector response_text ;;
        match download_links with
        | [] =>
            logger ERROR
              "Could not find download link with alternative selector" ;;
            logger DEBUG ("Response content: " ++ response_text) ;;
            raise (HTTPException 500 "Could not find download link")
        | _ :: _ => ret download_links
        end
    | _ :: _ => ret download_links
    end ;;
  let download_link := hd EmptyString download_links in
  logger DEBUG ("Found download link: " ++ download_link) ;;
  ret download_link.

(** [download_v3], lines 365-478. *)
Definition download_v3 (url : string) : M StreamingResponse :=
  print ("Starting v3 download method for URL: " ++ url) ;;
  try_except
    ('(_, video_id, content_type) <- extract_video_id url ;;
     only_videos content_type ;;
     logger DEBUG "Making initial request to tiktokio.com" ;;
     r <- s_get "https://tiktokio.com/" ;;
     (if negb (r_status_code r =? 200)%Z then
        logger ERROR
          ("Initial request to tiktokio.com failed with status code: "
           ++ str_of_Z (r_status_code r)) ;;
        raise (HTTPException (r_status_code r)
                 ("tiktokio.com initial request failed with status "
                  ++ str_of_Z (r_status_code r)))
      else ret tt) ;;
     found <- css_ v3_prefix_selector (r_text r) ;;
     let prefix := hd_error found in
     (if negb (truthy_opt prefix) then
        logger ERROR "Could not retrieve prefix from tiktokio.com" ;;
        logger DEBUG ("HTML content: " ++ slice_to 500 (r_text r)) ;;
        raise (HTTPException 500
                 "Could not retrieve prefix from tiktokio.com")
      else ret tt) ;;
     logger DEBUG ("Obtained prefix: " ++ the prefix) ;;
     let data := py_dict [("prefix", the prefix); ("vid", url)] in
     logger DEBUG ("Submitting URL to tiktokio.com API: " ++ url) ;;
     response <- s_post "https://tiktokio.com/api/v1/tk-htmx" data ;;
     (if negb (r_status_code response =? 200)%Z then
        logger ERROR ("tiktokio.com API request failed with status code: "
                      ++ str_of_Z (r_status_code response)) ;;
        raise (HTTPException (r_status_code response)
                 ("tiktokio.com API request failed with status "
                  ++ str_of_Z (r_status_code response)))
      else ret tt) ;;
     logger DEBUG ("API response content: "
                   ++ slice_to 500 (r_text response)) ;;
     download_link <- v3_find_link (r_text response) ;;
     logger DEBUG ("Downloading video from: " ++ download_link) ;;
     response <- s_get download_link ;;
     (if negb (r_status_code response =? 200)%Z then
        logger ERROR ("Failed to download video with status code: "
                      ++ str_of_Z (r_status_code response)) ;;
        raise (HTTPException (r_status_code response)
                 ("Failed to download video from tiktokio.com with status "
                  ++ str_of_Z (r_status_code response)))
      else ret tt) ;;
     content_length <- check_video_content response ;;
     print ("Successfully downloaded video using v3 method, returning "
            ++ content_length ++ " bytes") ;;
     video <- content_ response ;;
     ret {| body := video;
            media_type := "video/mp4";
            headers := [ content_disposition video_id ] |})
    (adapter_handler "v3").

(** The loop of [download_video], lines 62-68, over any list of methods,
    each given with its [__name__]. *)
Fixpoint try_methods (methods : list (string * (string -> M StreamingResponse)))
    (url : string) (last_error : option exn) : M loop_exit :=
  match methods with
  | [] => ret (Exhausted last_error)
  | (name, method) :: methods' =>
      attempt <-
        try_except
          (print ("Trying download method: " ++ name) ;;
           response <- method url ;;
           ret (inl response))
          (fun e =>
             logger WARNING ("Method " ++ name ++ " failed: " ++ str_exn e) ;;
             ret (inr e)) ;;
      match attempt with
      | inl response => ret (Returned response)
      | inr e => try_methods methods' url (Some e)
      end
  end.

(** What follows the loop, lines 70-78. *)
Definition all_failed (url : string) (last_error : option exn)
  : M StreamingResponse :=
  logger ERROR ("All download methods failed for URL: " ++ url) ;;
  match last_error with
  | Some (HTTPException status_code detail) =>
      raise (HTTPException status_code detail)
  | _ =>
      let error_details :=
        "All download methods failed. Last error: "
        ++ str_opt_exn last_error in
      logger ERROR error_details ;;
      logger DEBUG ("Traceback: " ++ format_exc w None) ;;
      raise (HTTPException 500 error_details)
  end.

Definition methods : list (string * (string -> M StreamingResponse)) :=
  [ ("download_v2", download_v2);
    ("download_v3", download_v3);
    ("download_v1", download_v1) ].

(** [download_video], lines 51-78, for a request whose API key has been
    accepted. *)
Definition download_video (url : string) : M StreamingResponse :=
  print ("Received download request for URL: " ++ url) ;;
  out <- try_methods methods url None ;;
  match out with
  | Returned response => ret response
  | Exhausted last_error => all_failed url last_error
  end.

End Pipeline.


(** ** Notions used to state the properties *)

(** Every value that [m] can return satisfies [P]. *)
Definition returns_only {A : Type} (P : A -> Prop) (m : M A) : Prop :=
  forall t a t', m t = (Return a, t') -> P a.

(** [m] only adds events at the end of the trace. *)
Definition appends {A : Type} (m : M A) : Prop :=
  forall t r t', m t = (r, t') -> exists l, t' = (t ++ l)%list.

(** How the search of a list of selector candidates ends: a candidate
    yields a link, no candidate yields one, or the selector library raises
    at a candidate. *)
Inductive search_outcome : Type :=
| Found (candidate link : string)
| NotFound
| Refused (msg : string).

(** Link extraction as the specification words it: an ordered list of
    selector candidates, the first one whose probe yields a match wins.
    A probe that raises ends the search. *)
Fixpoint first_candidate (probe : string -> string + option string)
    (candidates : list string) : search_outcome :=
  match candidates with
  | [] => NotFound
  | c :: candidates' =>
      match probe c with
      | inl msg => Refused msg
      | inr (Some link) => Found c link
      | inr None => first_candidate probe candidates'
      end
  end.

(** A candidate of [download_v1] and [download_v3] matches when
    [.getall()] is a non-empty list; the link is its first element. *)
Definition css_probe (w : World) (doc : string) (candidate : string)
  : string + option string :=
  match css w candidate doc with
  | inl msg => inl msg
  | inr found => inr (hd_error found)
  end.

(** A candidate of [download_v2] matches when [.get()] is a non-empty
    string. *)
Definition xpath_probe (w : World) (doc : string) (candidate : string)
  : string + option string :=
  match xpath w candidate doc with
  | inl msg => inl msg
  | inr found =>
      inr (match hd_error found with
           | Some link => if truthy link then Some link else None
           | None => None
           end)
  end.

(** The outcome of link extraction for a list of candidates. *)
Definition link_or_failure (found : search_outcome) : result string :=
  match found with
  | Found _ link => Return link
  | NotFound => Raise (HTTPException 500 "Could not find download link")
  | Refused msg => Raise (PyError msg)
  end.

(** What C8 asks of a response for the identifier [video_id]. *)
Definition names_the_file (video_id : string) (r : StreamingResponse) : Prop :=
  media_type r = "video/mp4" /\
  assoc "Content-Disposition" (headers r)
  = Some ("attachment; filename=" ++ dq ++ ("tiktok_" ++ video_id ++ ".mp4")
          ++ dq).

(** ** Worlds and requests used as examples *)

(** A response with a status and a body that is no JSON. *)
Definition page (status : Z) (url text : string) : Response :=
  {| r_status_code := status;
     r_url := url;
     r_text := text;
     r_content := inr text;
     r_json := inl "Expecting value: line 1 column 1 (char 0)";
     r_content_type := Some "text/html";
     r_content_length := None;
     r_headers_repr := "{'Content-Type': 'text/html'}" |}.

(** No network and empty documents. *)
Definition offline : World :=
  {| requests_get := fun _ _ => inl "Connection refused";
     session_get := fun _ _ => inl "Connection refused";
     session_post := fun _ _ _ => inl "Connection refused";
     css := fun _ _ => inr [];
     xpath := fun _ _ => inr [];
     format_exc := fun _ => "Traceback (most recent call last): ...";
     repr_json := fun _ => "{...}";
     selector_type_error := fun _ => "text argument should be of type str" |}.

(** Every address redirects to [target]; nothing else answers. *)
Definition redirecting (target : string) : World :=
  {| requests_get := fun _ _ => inr (page 200 target "<html></html>");
     session_get := fun _ _ => inl "Connection refused";
     session_post := fun _ _ _ => inl "Connection refused";
     css := fun _ _ => inr [];
     xpath := fun _ _ => inr [];
     format_exc := fun _ => "Traceback (most recent call last): ...";
     repr_json := fun _ => "{...}";
     selector_type_error := fun _ => "text argument should be of type str" |}.

Definition standard_url : string :=
  "https://www.tiktok.com/@someuser/video/7123456789012345678".
Definition short_url : string := "https://vm.tiktok.com/ZMabc123/".
Definition photo_url : string :=
  "https://www.tiktok.com/@someuser/photo/7123456789012345678".
Definition two_handles_url : string :=
  "https://www.tiktok.com/@first/@second/video/7123456789012345678".
Definition bare_video_url : string :=
  "https://www.tiktok.com/video/7123456789012345678".
Definition bare_photo_url : string :=
  "https://www.tiktok.com/photo/7123456789012345678".
Definition short_id_url : string := "https://www.tiktok.com/video/12345".
Definition dashed_id_url : string :=
  "https://www.tiktok.com/share/item-7123456789012345678".
Definition query_id_url : string :=
  "https://www.tiktok.com/share?item_id=7123456789012345678&lang=en".


Definition media_url : string := "https://cdn.example/v.mp4".

Definition video_file : Response :=
  {| r_status_code := 200;
     r_url := media_url;
     r_text := "MP4DATA";
     r_content := inr "MP4DATA";
     r_json := inl "Expecting value: line 1 column 1 (char 0)";
     r_content_type := Some "video/mp4";
     r_content_length := Some "7";
     r_headers_repr := "{'Content-Type': 'video/mp4', 'Content-Length': '7'}" |}.

Definition links_page : Response :=
  {| r_status_code := 200;
     r_url := "https://backend.example/action";
     r_text := "links";
     r_content := inr "links";
     r_json := inr (JObj [("data", JStr "links")]);
     r_content_type := Some "text/html";
     r_content_length := None;
     r_headers_repr := "{'Content-Type': 'text/html'}" |}.

(** Every backend answers.  On the page of links the most specific
    selector of [download_v2] and of [download_v3] finds nothing and a
    later candidate finds the link. *)
Definition happy : World :=
  {| requests_get := fun _ _ => inl "Connection refused";
     session_get := fun _ u =>
       if (u =? media_url)%string then inr video_file
       else inr (page 200 u "landing");
     session_post := fun _ _ _ => inr links_page;
     css := fun q doc =>
       if (doc =? "landing")%string then inr ["tok"]
       else if (q =? v3_link_selector)%string then inr []
       else inr [media_url];
     xpath := fun q doc =>
       if (doc =? "landing")%string then inr ["tok"]
       else if (q =? nth 2 selectors_to_try EmptyString)%string
            then inr [media_url] else inr [];
     format_exc := fun _ => "Traceback (most recent call last): ...";
     repr_json := fun _ => "{...}";
     selector_type_error := fun _ => "text argument should be of type str" |}.

(** As [offline], but the first backend answers 503. *)
Definition blocked : World :=
  {| requests_get := fun _ _ => inl "Connection refused";
     session_get := fun _ u =>
       if (u =? "https://musicaldown.com/en")%string
       then inr (page 503 u "Service Unavailable")
       else inl "Connection refused";
     session_post := fun _ _ _ => inl "Connection refused";
     css := fun _ _ => inr [];
     xpath := fun _ _ => inr [];
     format_exc := fun _ => "Traceback (most recent call last): ...";
     repr_json := fun _ => "{...}";
     selector_type_error := fun _ => "text argument should be of type str" |}.

(** The markup of the page of links has drifted: the one selector of
    [download_v1] finds nothing, any other selector finds the link. *)
Definition drifted : World :=
  {| requests_get := fun _ _ => inl "Connection refused";
     session_get := fun _ u =>
       if (u =? media_url)%string then inr video_file
       else inr (page 200 u "landing");
     session_post := fun _ _ _ => inr links_page;
     css := fun q doc =>
       if (doc =? "landing")%string then inr ["tok"]
       else if (q =? v1_link_selector)%string then inr []
       else inr [media_url];
     xpath := fun _ _ => inr [media_url];
     format_exc := fun _ => "Traceback (most recent call last): ...";
     repr_json := fun _ => "{...}";
     selector_type_error := fun _ => "text argument should be of type str" |}.

(** As [happy], but the first backend answers 503. *)
Definition first_backend_down : World :=
  {| requests_get := requests_get happy;
     session_get := fun t u =>
       if (u =? "https://musicaldown.com/en")%string
       then inr (page 503 u "Service Unavailable")
       else session_get happy t u;
     session_post := session_post happy;
     css := css happy;
     xpath := xpath happy;
     format_exc := format_exc happy;
     repr_json := repr_json happy;
     selector_type_error := selector_type_error happy |}.

(** The responses of the three adapters in the world [happy]. *)
Definition happy_response : StreamingResponse :=
  {| body := "MP4DATA";
     media_type := "video/mp4";
     headers := [ content_disposition "7123456789012345678" ] |}.

Definition happy_response_v1 : StreamingResponse :=
  {| body := "MP4DATA";
     media_type := "video/mp4";
     headers := [ content_disposition "7123456789012345678";
                  ("Content-Length", "5");
                  ("Accept-Ranges", "bytes") ] |}.


(** The three attempts of [download_video] for [standard_url] in the world
    [offline], each started where the orchestrator starts it. *)
Definition offline_error (v : string) : exn :=
  HTTPException 500 ("Error downloading video (" ++ v ++ "): Connection refused").

Definition offline_v2_run : result StreamingResponse * list event :=
  download_v2 with_logger offline standard_url
    [ Stdout ("Received download request for URL: " ++ standard_url);
      Stdout "Trying download method: download_v2" ].

Definition offline_v3_run : result StreamingResponse * list event :=
  download_v3 with_logger offline standard_url
    (snd offline_v2_run
     ++ [ Log WARNING ("Method download_v2 failed: "
                       ++ str_exn (offline_error "v2"));
          Stdout "Trying download method: download_v3" ])%list.

Definition offline_v1_run : result StreamingResponse * list event :=
  download_v1 with_logger offline standard_url
    (snd offline_v3_run
     ++ [ Log WARNING ("Method download_v3 failed: "
                       ++ str_exn (offline_error "v3"));
          Stdout "Trying download method: download_v1" ])%list.


(** ** The API key: lines 22-36 and the dependency of line 53 *)

(** Lines 22-26, run when the module is loaded; [env] is
    [os.getenv("API_KEY")].  The texts are the UTF-8 bytes of the source. *)
Definition load_API_KEY (env : option string) : M string :=
  if negb (truthy_opt env) then
    raise (PyError
             "❌ ERROR: API_KEY no está definida. La API no puede arrancar.")
  else
    print "✅ API_KEY cargada correctamente" ;;
    ret (the env).

(** [get_api_key], lines 30-36; [API_KEY] is the module constant. *)
Definition get_api_key (API_KEY api_key_header : string) : M string :=
  if negb (api_key_header =? API_KEY)%string then
    raise (HTTPException 403 "Could not validate API key")
  else ret api_key_header.

(** The endpoint [/download], lines 28-30 and 51-54.  The framework
    resolves the dependencies of the route from the inside out: first the
    security scheme [APIKeyHeader(name="X-API-Key")] of line 28, which is
    library code that reads the header of the request and either raises or
    gives its value; then [get_api_key] on that value; and it runs the body
    of [download_video] when [get_api_key] has returned.  [scheme] is the
    evaluation of the security scheme on the request at hand. *)
Definition download_endpoint (ns : list string) (w : World)
    (scheme : M string) (API_KEY url : string) : M StreamingResponse :=
  api_key_header <- scheme ;;
  api_key <- get_api_key API_KEY api_key_header ;;
  download_video ns w url.

(** ** Further notions used to state the properties *)

(** Every event that [m] adds to the trace satisfies [P]. *)
Definition emits {A : Type} (P : event -> Prop) (m : M A) : Prop :=
  forall t r t', m t = (r, t') ->
  exists l, t' = (t ++ l)%list /\ Forall P l.

(** A line on the standard output, or the GET that resolves the short link
    [url]: no log record, no request of a session. *)
Definition printed_or_redirect (url : string) (e : event) : Prop :=
  match e with
  | Stdout _ => True
  | RequestsGet u => u = url
  | _ => False
  end.

(** A line on the standard output or a log record: no request. *)
Definition no_request (e : event) : Prop :=
  match e with
  | Stdout _ | Log _ _ => True
  | _ => False
  end.

(** What an adapter whose form goes to [action] may do for the URL [url]:
    print, log, resolve [url] when it is a short link, fetch pages with
    its session, and post to [action] only. *)
Definition posts_only_to (url action : string) (e : event) : Prop :=
  match e with
  | Stdout _ | Log _ _ | SessionGet _ => True
  | RequestsGet u => u = url
  | SessionPost u _ => u = action
  end.

(** A handle as extraction returns it: [@] and a non-empty run of
    [[A-Za-z0-9_.]]. *)
Definition well_formed_handle (handle : string) : Prop :=
  exists h, handle = "@" ++ h /\ h <> EmptyString /\
            all Re.is_handle_char h = true.

(** An identifier as extraction returns it: a non-empty run of digits. *)
Definition well_formed_id (video_id : string) : Prop :=
  video_id <> EmptyString /\ all Re.is_digit video_id = true.


(** A page on which the first anchor that the link selectors of
    [download_v1] and [download_v3] find has an empty [href]. *)
Definition empty_href : World :=
  {| requests_get := requests_get offline;
     session_get := session_get offline;
     session_post := session_post offline;
     css := fun _ _ => inr [EmptyString; media_url];
     xpath := fun _ _ => inr [EmptyString; media_url];
     format_exc := format_exc offline;
     repr_json := repr_json offline;
     selector_type_error := selector_type_error offline |}.


(** The landing pages answer 200 and hold none of the fields that the
    adapters look for. *)
Definition tokens_gone : World :=
  {| requests_get := requests_get offline;
     session_get := fun _ u => inr (page 200 u "landing");
     session_post := session_post offline;
     css := fun _ _ => inr [];
     xpath := fun _ _ => inr [];
     format_exc := format_exc offline;
     repr_json := repr_json offline;
     selector_type_error := selector_type_error offline |}.


(** As [happy], but the backends of [download_v2] and [download_v3] answer
    503: only the backend of [download_v1] works. *)
Definition only_tmate_up : World :=
  {| requests_get := requests_get happy;
     session_get := fun t u =>
       if ((u =? "https://musicaldown.com/en")
           || (u =? "https://tiktokio.com/"))%string
       then inr (page 503 u "Service Unavailable")
       else session_get happy t u;
     session_post := session_post happy;
     css := css happy;
     xpath := xpath happy;
     format_exc := format_exc happy;
     repr_json := repr_json happy;
     selector_type_error := selector_type_error happy |}.


(** The answer of a backend that sends JSON where markup is expected. *)
Definition json_answer : Response :=
  {| r_status_code := 200;
     r_url := "https://backend.example/action";
     r_text := "{}";
     r_content := inr "{}";
     r_json := inr (JObj [("data", JStr "{}")]);
     r_content_type := Some "application/json";
     r_content_length := None;
     r_headers_repr := "{'Content-Type': 'application/json'}" |}.

(** Every page is JSON, and the selector library refuses every query. *)
Definition json_pages : World :=
  {| requests_get := requests_get offline;
     session_get := fun _ _ => inr json_answer;
     session_post := fun _ _ _ => inr json_answer;
     css := fun _ _ => inl "Cannot use css on a Selector of type 'json'";
     xpath := fun _ _ => inl "Cannot use xpath on a Selector of type 'json'";
     format_exc := format_exc offline;
     repr_json := repr_json offline;
     selector_type_error := selector_type_error offline |}.

(** The landing pages are markup, but the answer to the form is JSON all
    through: the selector library refuses to query it. *)
Definition json_in_answer : World :=
  {| requests_get := requests_get offline;
     session_get := session_get happy;
     session_post := fun _ _ _ => inr json_answer;
     css := fun q doc =>
       if (doc =? "{}")%string
       then inl "Cannot use css on a Selector of type 'json'"
       else css happy q doc;
     xpath := fun q doc =>
       if (doc =? "{}")%string
       then inl "Cannot use xpath on a Selector of type 'json'"
       else xpath happy q doc;
     format_exc := format_exc offline;
     repr_json := repr_json offline;
     selector_type_error := selector_type_error offline |}.





(** * Properties *)

Local Arguments String.append : simpl never.

(** ** Strings *)

Lemma append_nil_l (s : string) : EmptyString ++ s = s.
Proof. reflexivity. Qed.

Lemma append_cons (c : ascii) (a b : string) :
  String c a ++ b = String c (a ++ b).
Proof. reflexivity. Qed.

Lemma append_assoc (a b c : string) : (a ++ b) ++ c = a ++ (b ++ c).
Proof.
  induction a as [|x a IH]; [reflexivity|].
  now rewrite !append_cons, IH.
Qed.

Lemma length_append (a b : string) :
  String.length (a ++ b) = String.length a + String.length b.
Proof.
  induction a as [|x a IH]; [reflexivity|].
  rewrite append_cons. simpl. now rewrite IH.
Qed.

Lemma skip_append (a b : string) : skip (String.length a) (a ++ b) = b.
Proof.
  induction a as [|x a IH]; [now destruct b|].
  rewrite append_cons. exact IH.
Qed.

Lemma span_append (p : ascii -> bool) (a b : string) :
  all p a = true -> stops p b = true -> span p (a ++ b) = (a, b).
Proof.
  intros Ha Hb. induction a as [|x a IH].
  - rewrite append_nil_l. destruct b as [|y b]; [reflexivity|].
    simpl in *. apply negb_true_iff in Hb. now rewrite Hb.
  - simpl in Ha. apply andb_true_iff in Ha as [Hx Ha].
    rewrite append_cons. simpl. now rewrite Hx, (IH Ha).
Qed.

Lemma span_fst_all (p : ascii -> bool) (s : string) :
  all p (fst (span p s)) = true.
Proof.
  induction s as [|c s IH]; [reflexivity|].
  simpl. destruct (p c) eqn:Hc; [|reflexivity].
  destruct (span p s) as [a b]. simpl in *. now rewrite Hc.
Qed.

Lemma span_split (p : ascii -> bool) (s : string) :
  s = fst (span p s) ++ snd (span p s) /\ stops p (snd (span p s)) = true.
Proof.
  induction s as [|c s [IH1 IH2]]; [now split|].
  simpl. destruct (p c) eqn:Hc.
  - destruct (span p s) as [a b]. simpl in *. split; [|exact IH2].
    rewrite append_cons. now f_equal.
  - simpl. now rewrite Hc.
Qed.

(** ** Leftmost search *)

Lemma search_here {A : Type} (m : string -> option A) (s : string) (a : A) :
  m s = Some a -> Re.search m s = Some a.
Proof. intros H. destruct s; simpl; now rewrite H. Qed.

Lemma search_past {A : Type} (m : string -> option A) (pre s : string) :
  (forall k, k < String.length pre -> m (skip k (pre ++ s)) = None) ->
  Re.search m (pre ++ s) = Re.search m s.
Proof.
  induction pre as [|c pre IH]; intros H; [reflexivity|].
  rewrite append_cons. simpl.
  assert (H0 := H 0 (Nat.lt_0_succ _)). rewrite append_cons in H0.
  simpl in H0. rewrite H0. apply IH. intros k Hk.
  apply (H (S k)). simpl. lia.
Qed.

Lemma none_before_spec {A : Type} (m : string -> option A) (s : string)
    (n : nat) :
  Re.none_before m s n = true -> forall k, k < n -> m (skip k s) = None.
Proof.
  unfold Re.none_before. rewrite forallb_forall. intros H k Hk.
  specialize (H k). rewrite in_seq in H.
  destruct (m (skip k s)); [|reflexivity].
  discriminate H. lia.
Qed.

(** The search finds nothing exactly when no position matches. *)
Lemma search_None {A : Type} (m : string -> option A) (s : string) :
  Re.search m s = None <->
  forall k, k <= String.length s -> m (skip k s) = None.
Proof.
  induction s as [|c s IH].
  - simpl. split.
    + intros H k _. destruct (m EmptyString) eqn:E; [discriminate|].
      now destruct k.
    + intros H. assert (H0 := H 0 (Nat.le_refl _)). simpl in H0.
      now rewrite H0.
  - simpl. split.
    + intros H k Hk. destruct (m (String c s)) eqn:E; [discriminate|].
      destruct k as [|k]; [exact E|]. simpl. apply IH; [exact H|lia].
    + intros H. assert (H0 := H 0 (Nat.le_0_l _)). simpl in H0. rewrite H0.
      apply IH. intros k Hk. apply (H (S k)). lia.
Qed.

(** The search finds [a] exactly when [a] is the match at the leftmost
    matching position. *)
Lemma search_Some {A : Type} (m : string -> option A) (s : string) (a : A) :
  Re.search m s = Some a <->
  exists n, n <= String.length s /\ m (skip n s) = Some a /\
            forall k, k < n -> m (skip k s) = None.
Proof.
  induction s as [|c s IH].
  - simpl. split.
    + intros H. exists 0. destruct (m EmptyString) eqn:E; [|discriminate].
      repeat split; [lia|now rewrite <- H|lia].
    + intros [n [Hn [H _]]]. assert (n = 0) by lia. subst. simpl in H.
      now rewrite H.
  - simpl. split.
    + intros H. destruct (m (String c s)) eqn:E.
      * exists 0. repeat split; [lia|now rewrite <- H|lia].
      * apply IH in H as [n [Hn [H1 H2]]]. exists (S n).
        repeat split; [lia|exact H1|].
        intros [|k] Hk; [exact E|]. apply H2. lia.
    + intros [[|n] [Hn [H1 H2]]].
      * simpl in H1. now rewrite H1.
      * assert (H0 := H2 0 (Nat.lt_0_succ _)). simpl in H0. rewrite H0.
        apply IH. exists n. repeat split; [lia|exact H1|].
        intros k Hk. apply (H2 (S k)). lia.
Qed.

(** ** The three patterns at a position *)

Lemma username_at_hit (h rest : string) :
  all Re.is_handle_char h = true -> h <> EmptyString ->
  stops Re.is_handle_char rest = true ->
  Re.username_at ("@" ++ h ++ rest) = Some ("@" ++ h).
Proof.
  intros Hh Hne Hr. change ("@" ++ h ++ rest) with (String "@" (h ++ rest)).
  unfold Re.username_at. rewrite (span_append _ _ _ Hh Hr). simpl.
  destruct h; [contradiction|reflexivity].
Qed.

Lemma content_type_at_video (d rest : string) :
  all Re.is_digit d = true -> d <> EmptyString ->
  stops Re.is_digit rest = true ->
  Re.content_type_at ("/video/" ++ d ++ rest) = Some ("video", d).
Proof.
  intros Hd Hne Hr. unfold Re.content_type_at.
  change ("/video/" ++ d ++ rest) with
    (String "/" (String "v" (String "i" (String "d" (String "e" (String "o"
       (String "/" (d ++ rest)))))))).
  cbn [prefix skip]. simpl Ascii.ascii_dec.
  rewrite (span_append _ _ _ Hd Hr). simpl.
  destruct (d ++ rest); destruct d; try contradiction; reflexivity.
Qed.

Lemma content_type_at_photo (d rest : string) :
  all Re.is_digit d = true -> d <> EmptyString ->
  stops Re.is_digit rest = true ->
  Re.content_type_at ("/photo/" ++ d ++ rest) = Some ("photo", d).
Proof.
  intros Hd Hne Hr. unfold Re.content_type_at.
  change ("/photo/" ++ d ++ rest) with
    (String "/" (String "p" (String "h" (String "o" (String "t" (String "o"
       (String "/" (d ++ rest)))))))).
  cbn [prefix skip]. simpl Ascii.ascii_dec.
  rewrite (span_append _ _ _ Hd Hr). simpl.
  destruct (d ++ rest); destruct d; try contradiction; reflexivity.
Qed.

Lemma alt_video_id_at_hit (c : ascii) (d rest : string) :
  Re.is_sep c = true -> all Re.is_digit d = true ->
  15 <= String.length d -> stops Re.is_digit rest = true ->
  Re.alt_video_id_at (String c (d ++ rest)) = Some d.
Proof.
  intros Hc Hd Hl Hr. unfold Re.alt_video_id_at.
  rewrite Hc, (span_append _ _ _ Hd Hr). simpl fst.
  apply Nat.leb_le in Hl. now rewrite Hl.
Qed.

(** ** The monad *)

Lemma bind_Return {A B : Type} (m : M A) (k : A -> M B) t a t1 :
  m t = (Return a, t1) -> bind m k t = k a t1.
Proof. intros H. unfold bind. now rewrite H. Qed.

Lemma bind_Raise {A B : Type} (m : M A) (k : A -> M B) t e t1 :
  m t = (Raise e, t1) -> bind m k t = (Raise e, t1).
Proof. intros H. unfold bind. now rewrite H. Qed.

Lemma bind_inv_Return {A B : Type} (m : M A) (k : A -> M B) t b t' :
  bind m k t = (Return b, t') ->
  exists a t1, m t = (Return a, t1) /\ k a t1 = (Return b, t').
Proof.
  unfold bind. destruct (m t) as [[a|e] t1]; intros H; [|discriminate].
  now exists a, t1.
Qed.

Lemma try_except_Return {A : Type} (body : M A) (h : exn -> M A) t a t1 :
  body t = (Return a, t1) -> try_except body h t = (Return a, t1).
Proof. intros H. unfold try_except. now rewrite H. Qed.

Lemma try_except_Raise {A : Type} (body : M A) (h : exn -> M A) t e t1 :
  body t = (Raise e, t1) -> try_except body h t = h e t1.
Proof. intros H. unfold try_except. now rewrite H. Qed.

Lemma try_except_inv {A : Type} (body : M A) (h : exn -> M A) t r t' :
  try_except body h t = (r, t') ->
  (exists a, body t = (Return a, t') /\ r = Return a) \/
  (exists e t1, body t = (Raise e, t1) /\ h e t1 = (r, t')).
Proof.
  unfold try_except. destruct (body t) as [[a|e] t1]; intros H.
  - left. exists a. now inversion H.
  - right. now exists e, t1.
Qed.

Lemma app_one {A : Type} (t : list A) (a : A) (l : list A) :
  ((t ++ [a]) ++ l = t ++ a :: l)%list.
Proof. now rewrite <- app_assoc. Qed.

(** ** The name [logger] *)

Lemma logger_module_unbound : name_bound module_bindings "logger" = false.
Proof. reflexivity. Qed.

Lemma logger_with_logger_bound : name_bound with_logger "logger" = true.
Proof. reflexivity. Qed.

Lemma logger_unbound ns lvl msg t :
  name_bound ns "logger" = false ->
  logger ns lvl msg t = (Raise (NameError "logger"), t).
Proof. intros H. unfold logger. now rewrite H. Qed.

Lemma logger_bound ns lvl msg t :
  name_bound ns "logger" = true ->
  logger ns lvl msg t = (Return tt, (t ++ [Log lvl msg])%list).
Proof. intros H. unfold logger. now rewrite H. Qed.

(** A logging statement never changes the control flow by itself: it
    either falls through or raises [NameError]. *)
Lemma logger_cases ns lvl msg t :
  logger ns lvl msg t = (Return tt, (t ++ [Log lvl msg])%list) \/
  logger ns lvl msg t = (Raise (NameError "logger"), t).
Proof.
  destruct (name_bound ns "logger") eqn:H.
  - left. now apply logger_bound.
  - right. now apply logger_unbound.
Qed.

(** ** Steps of a run *)

Lemma bind_print {A : Type} line (k : unit -> M A) t :
  bind (print line) k t = k tt (t ++ [Stdout line])%list.
Proof. reflexivity. Qed.

Lemma bind_logger {A : Type} ns lvl msg (k : unit -> M A) t :
  name_bound ns "logger" = true ->
  bind (logger ns lvl msg) k t = k tt (t ++ [Log lvl msg])%list.
Proof. intros Hns. unfold bind. now rewrite (logger_bound ns _ _ _ Hns). Qed.

Lemma bind_only_videos {A : Type} ns (k : unit -> M A) t :
  bind (only_videos ns "video") k t = k tt t.
Proof. reflexivity. Qed.

Lemma bind_s_get_answer {A : Type} w u (k : Response -> M A) t r :
  session_get w t u = inr r ->
  bind (s_get w u) k t = k r (t ++ [SessionGet u])%list.
Proof. intros H. unfold bind, s_get. now rewrite H. Qed.

Lemma bind_s_get_error {A : Type} w u (k : Response -> M A) t msg :
  session_get w t u = inl msg ->
  bind (s_get w u) k t = (Raise (PyError msg), (t ++ [SessionGet u])%list).
Proof. intros H. unfold bind, s_get. now rewrite H. Qed.

Lemma bind_s_post_answer {A : Type} w u data (k : Response -> M A) t r :
  session_post w t u data = inr r ->
  bind (s_post w u data) k t = k r (t ++ [SessionPost u data])%list.
Proof. intros H. unfold bind, s_post. now rewrite H. Qed.

Lemma bind_s_post_error {A : Type} w u data (k : Response -> M A) t msg :
  session_post w t u data = inl msg ->
  bind (s_post w u data) k t
  = (Raise (PyError msg), (t ++ [SessionPost u data])%list).
Proof. intros H. unfold bind, s_post. now rewrite H. Qed.

Lemma bind_guard_passed {A : Type} (c : bool) (m : M unit) (k : unit -> M A) t :
  c = false -> bind (if c then m else ret tt) k t = k tt t.
Proof. now intros ->. Qed.

Lemma bind_guard_failed {A : Type} ns (c : bool) msg e (k : unit -> M A) t :
  name_bound ns "logger" = true -> c = true ->
  bind (if c then logger ns ERROR msg ;; raise e else ret tt) k t
  = (Raise e, (t ++ [Log ERROR msg])%list).
Proof.
  intros Hns ->. unfold bind, raise. now rewrite (logger_bound ns _ _ _ Hns).
Qed.

Lemma bind_ret {A B : Type} (a : A) (k : A -> M B) t :
  bind (ret a) k t = k a t.
Proof. reflexivity. Qed.

Lemma status_200 (r : Response) :
  r_status_code r = 200%Z -> negb (r_status_code r =? 200)%Z = false.
Proof. now intros ->. Qed.

Lemma status_not_200 (r : Response) :
  r_status_code r <> 200%Z -> negb (r_status_code r =? 200)%Z = true.
Proof. intros H. apply Z.eqb_neq in H. now rewrite H. Qed.

Lemma adapter_outcome {A : Type} (body : M A) (h : exn -> M A) t :
  try_except body h t
  = match body t with
    | (Return a, t') => (Return a, t')
    | (Raise e, t') => h e t'
    end.
Proof. reflexivity. Qed.

Lemma bind_css_ {A : Type} w q doc (k : list string -> M A) t :
  bind (css_ w q doc) k t
  = match css w q doc with
    | inr found => k found t
    | inl msg => (Raise (PyError msg), t)
    end.
Proof. unfold bind, css_. now destruct (css w q doc). Qed.

Lemma bind_xpath_ {A : Type} w q doc (k : list string -> M A) t :
  bind (xpath_ w q doc) k t
  = match xpath w q doc with
    | inr found => k found t
    | inl msg => (Raise (PyError msg), t)
    end.
Proof. unfold bind, xpath_. now destruct (xpath w q doc). Qed.

(** ** [extract_video_id] *)

Lemma extract_video_id_resolved ns w url t final t1 :
  follow_redirect ns w url
    (t ++ [Stdout ("Extracting video ID from URL: " ++ url)])%list
  = (Return final, t1) ->
  extract_video_id ns w url t = match_patterns ns final t1.
Proof.
  intros H. unfold extract_video_id.
  rewrite (bind_Return (print _) _ t tt _ eq_refl).
  now rewrite (bind_Return _ _ _ _ _ H).
Qed.

Lemma follow_redirect_plain ns w url t :
  contains "vm.tiktok.com" url || contains "vt.tiktok.com" url = false ->
  follow_redirect ns w url t = (Return url, t).
Proof. intros H. unfold follow_redirect. now rewrite H. Qed.

Lemma extract_video_id_plain ns w url t :
  contains "vm.tiktok.com" url || contains "vt.tiktok.com" url = false ->
  extract_video_id ns w url t
  = match_patterns ns url
      (t ++ [Stdout ("Extracting video ID from URL: " ++ url)])%list.
Proof.
  intros H. apply extract_video_id_resolved.
  now apply follow_redirect_plain.
Qed.

Lemma match_patterns_standard ns url t u ct id :
  Re.username_pattern url = Some u ->
  Re.content_type_pattern url = Some (ct, id) ->
  match_patterns ns url t =
  (Return (u, id, ct),
   (t ++ [ Stdout ("Extracted username: " ++ u);
           Stdout ("Extracted content type: " ++ ct ++ ", video ID: " ++ id) ])%list).
Proof.
  intros Hu Hc. unfold match_patterns. rewrite Hu, Hc.
  unfold bind, ret, print, emit. now rewrite app_one.
Qed.

Lemma match_patterns_unbound ns url t :
  name_bound ns "logger" = false ->
  Re.username_pattern url = None \/ Re.content_type_pattern url = None ->
  match_patterns ns url t = (Raise (NameError "logger"), t).
Proof.
  intros Hns H. unfold match_patterns.
  assert (E : match Re.username_pattern url, Re.content_type_pattern url with
              | Some _, Some _ => false
              | _, _ => true
              end = true).
  { destruct H as [H|H]; rewrite H; [reflexivity|].
    now destruct (Re.username_pattern url). }
  rewrite E. unfold bind at 1. unfold bind at 1.
  now rewrite logger_unbound.
Qed.

Lemma match_patterns_alternative ns url t id :
  name_bound ns "logger" = true ->
  Re.username_pattern url = None \/ Re.content_type_pattern url = None ->
  Re.alt_video_id_pattern url = Some id ->
  match_patterns ns url t =
  match Re.username_pattern url with
  | Some u =>
      (Return (u, id, "video"),
       (t ++ [ Log WARNING "Standard pattern failed, trying alternative patterns...";
               Stdout ("Found video ID using alternative pattern: " ++ id) ])%list)
  | None =>
      (Return ("@user", id, "video"),
       (t ++ [ Log WARNING "Standard pattern failed, trying alternative patterns...";
               Stdout ("Found video ID using alternative pattern: " ++ id);
               Log WARNING "Couldn't extract username, using placeholder: @user" ])%list)
  end.
Proof.
  intros Hns H Ha. unfold match_patterns.
  assert (E : match Re.username_pattern url, Re.content_type_pattern url with
              | Some _, Some _ => false
              | _, _ => true
              end = true).
  { destruct H as [H|H]; rewrite H; [reflexivity|].
    now destruct (Re.username_pattern url). }
  rewrite E, Ha. unfold bind, print, emit, ret.
  rewrite !(logger_bound ns _ _ _ Hns).
  destruct (Re.username_pattern url) as [u|].
  - now rewrite !app_one.
  - rewrite !(logger_bound ns _ _ _ Hns). now rewrite !app_one.
Qed.

Lemma match_patterns_no_username ns url t :
  name_bound ns "logger" = true ->
  Re.username_pattern url = None ->
  Re.alt_video_id_pattern url = None ->
  match_patterns ns url t =
  (Raise (HTTPException 400 "Could not extract username from URL"),
   (t ++ [ Log WARNING "Standard pattern failed, trying alternative patterns...";
           Log ERROR ("Could not extract username from URL: " ++ url) ])%list).
Proof.
  intros Hns Hu Ha. unfold match_patterns. rewrite Hu, Ha.
  unfold bind, raise, ret. repeat rewrite (logger_bound ns _ _ _ Hns).
  now rewrite !app_one.
Qed.

Lemma match_patterns_no_video_id ns url t u :
  name_bound ns "logger" = true ->
  Re.username_pattern url = Some u ->
  Re.content_type_pattern url = None ->
  Re.alt_video_id_pattern url = None ->
  match_patterns ns url t =
  (Raise (HTTPException 400 "Could not extract video ID from URL"),
   (t ++ [ Log WARNING "Standard pattern failed, trying alternative patterns...";
           Stdout ("Extracted username: " ++ u);
           Log ERROR ("Could not extract video ID from URL: " ++ url) ])%list).
Proof.
  intros Hns Hu Hc Ha. unfold match_patterns. rewrite Hu, Hc, Ha.
  unfold bind, raise, ret, print, emit.
  repeat rewrite (logger_bound ns _ _ _ Hns). now rewrite !app_one.
Qed.

(** ** The adapters when [logger] is unbound *)

Lemma adapter_handler_unbound ns w v e t :
  name_bound ns "logger" = false ->
  adapter_handler ns w v e t = (Raise (NameError "logger"), t).
Proof.
  intros Hns. unfold adapter_handler.
  destruct e; apply bind_Raise; now apply logger_unbound.
Qed.

Lemma only_videos_unbound ns ct t :
  name_bound ns "logger" = false ->
  only_videos ns ct t = (Return tt, t) /\ ct = "video" \/
  only_videos ns ct t = (Raise (NameError "logger"), t) /\ ct <> "video".
Proof.
  intros Hns. unfold only_videos. destruct (ct =? "video")%string eqn:E.
  - left. apply String.eqb_eq in E. now split.
  - right. apply String.eqb_neq in E. split; [|exact E].
    apply bind_Raise. now apply logger_unbound.
Qed.

(** With [logger] unbound, what follows [extract_video_id] in the [try]
    block of an adapter raises [NameError] at once: at the warning of the
    content-type check, or at the first [logger.debug] of the session. *)
Lemma after_extract_unbound {A : Type} ns ct msg (k : unit -> M A) t :
  name_bound ns "logger" = false ->
  bind (only_videos ns ct) (fun _ => bind (logger ns DEBUG msg) k) t
  = (Raise (NameError "logger"), t).
Proof.
  intros Hns.
  destruct (only_videos_unbound ns ct t Hns) as [[H _]|[H _]].
  - rewrite (bind_Return _ _ _ _ _ H). apply bind_Raise.
    now apply logger_unbound.
  - now apply bind_Raise.
Qed.

Lemma adapter_unbound ns w v url t
    (k : string * string * string -> M StreamingResponse) :
  name_bound ns "logger" = false ->
  (forall x t1, k x t1 = (Raise (NameError "logger"), t1)) ->
  exists t',
    try_except (x <- extract_video_id ns w url ;; k x) (adapter_handler ns w v) t
    = (Raise (NameError "logger"), t').
Proof.
  intros Hns Hk. unfold try_except, bind.
  destruct (extract_video_id ns w url t) as [[x|e] t1].
  - rewrite Hk. rewrite adapter_handler_unbound by exact Hns. now exists t1.
  - rewrite adapter_handler_unbound by exact Hns. now exists t1.
Qed.

Lemma download_v1_unbound ns w url t :
  name_bound ns "logger" = false ->
  exists t', download_v1 ns w url t = (Raise (NameError "logger"), t').
Proof.
  intros Hns. unfold download_v1.
  rewrite (bind_Return (print _) _ t tt _ eq_refl).
  apply adapter_unbound; [exact Hns|].
  intros [[u video_id] content_type] t1.
  now apply after_extract_unbound.
Qed.

Lemma download_v2_unbound ns w url t :
  name_bound ns "logger" = false ->
  exists t', download_v2 ns w url t = (Raise (NameError "logger"), t').
Proof.
  intros Hns. unfold download_v2.
  rewrite (bind_Return (print _) _ t tt _ eq_refl).
  apply adapter_unbound; [exact Hns|].
  intros [[u video_id] content_type] t1.
  now apply after_extract_unbound.
Qed.

Lemma download_v3_unbound ns w url t :
  name_bound ns "logger" = false ->
  exists t', download_v3 ns w url t = (Raise (NameError "logger"), t').
Proof.
  intros Hns. unfold download_v3.
  rewrite (bind_Return (print _) _ t tt _ eq_refl).
  apply adapter_unbound; [exact Hns|].
  intros [[u video_id] content_type] t1.
  now apply after_extract_unbound.
Qed.

(** ** The loop of the orchestrator *)

Lemma try_methods_success ns name method rest url last_error t response t1 :
  method url (t ++ [Stdout ("Trying download method: " ++ name)])%list
  = (Return response, t1) ->
  try_methods ns ((name, method) :: rest) url last_error t
  = (Return (Returned response), t1).
Proof.
  intros H. simpl. unfold bind, try_except, print, emit, ret. now rewrite H.
Qed.

Lemma try_methods_failure ns name method rest url last_error t e t1 :
  name_bound ns "logger" = true ->
  method url (t ++ [Stdout ("Trying download method: " ++ name)])%list
  = (Raise e, t1) ->
  try_methods ns ((name, method) :: rest) url last_error t
  = try_methods ns rest url (Some e)
      (t1 ++ [Log WARNING ("Method " ++ name ++ " failed: " ++ str_exn e)])%list.
Proof.
  intros Hns H. simpl. unfold bind at 1. unfold try_except.
  unfold bind at 1. unfold print, emit. unfold bind at 1. rewrite H.
  unfold bind at 1. now rewrite (logger_bound ns _ _ _ Hns).
Qed.

Lemma try_methods_failure_unbound ns name method rest url last_error t e t1 :
  name_bound ns "logger" = false ->
  method url (t ++ [Stdout ("Trying download method: " ++ name)])%list
  = (Raise e, t1) ->
  try_methods ns ((name, method) :: rest) url last_error t
  = (Raise (NameError "logger"), t1).
Proof.
  intros Hns H. simpl. unfold bind at 1. unfold try_except.
  unfold bind at 1. unfold print, emit. unfold bind at 1. rewrite H.
  unfold bind at 1. now rewrite (logger_unbound ns _ _ _ Hns).
Qed.

Lemma download_video_unbound ns w url t :
  name_bound ns "logger" = false ->
  exists t', download_video ns w url t = (Raise (NameError "logger"), t').
Proof.
  intros Hns. unfold download_video.
  rewrite (bind_Return (print _) _ t tt _ eq_refl). unfold methods.
  destruct (download_v2_unbound ns w url
              ((t ++ [Stdout ("Received download request for URL: " ++ url)])
                 ++ [Stdout ("Trying download method: " ++ "download_v2")])%list
              Hns) as [t' H].
  exists t'. apply bind_Raise.
  now apply (try_methods_failure_unbound ns _ _ _ _ _ _ _ _ Hns H).
Qed.

(** C1.  The module never binds the name [logger].  Whatever the URL and
    whatever the outside world answers, each of [download_v1],
    [download_v2] and [download_v3] ends by raising [NameError] for that
    name; the [except] clause of the orchestrator's loop raises it as soon
    as a method has failed; and so [download_video] raises it as well: the
    endpoint never returns a [StreamingResponse]. *)
Theorem C1_logger_unbound_every_path_raises_NameError :
  name_bound module_bindings "logger" = false /\
  (forall w url t, exists t',
      download_v1 module_bindings w url t = (Raise (NameError "logger"), t')) /\
  (forall w url t, exists t',
      download_v2 module_bindings w url t = (Raise (NameError "logger"), t')) /\
  (forall w url t, exists t',
      download_v3 module_bindings w url t = (Raise (NameError "logger"), t')) /\
  (forall name method rest url last_error t e t1,
      method url (t ++ [Stdout ("Trying download method: " ++ name)])%list
      = (Raise e, t1) ->
      try_methods module_bindings ((name, method) :: rest) url last_error t
      = (Raise (NameError "logger"), t1)) /\
  (forall w url t, exists t',
      download_video module_bindings w url t
      = (Raise (NameError "logger"), t')) /\
  (forall w url t response,
      fst (download_video module_bindings w url t) <> Return response).
Proof.
  pose proof logger_module_unbound as Hns.
  repeat split.
  - intros. now apply download_v1_unbound.
  - intros. now apply download_v2_unbound.
  - intros. now apply download_v3_unbound.
  - intros. eapply try_methods_failure_unbound; eassumption.
  - intros. now apply download_video_unbound.
  - intros w url t response.
    destruct (download_video_unbound module_bindings w url t Hns) as [t' H].
    now rewrite H.
Qed.

(** ** Extraction on the standard shape *)

Lemma extract_standard_shape ns w url t final t1 pre h d rest :
  follow_redirect ns w url
    (t ++ [Stdout ("Extracting video ID from URL: " ++ url)])%list
  = (Return final, t1) ->
  final = pre ++ "@" ++ h ++ "/video/" ++ d ++ rest ->
  all Re.is_handle_char h = true -> h <> EmptyString ->
  all Re.is_digit d = true -> d <> EmptyString ->
  stops Re.is_digit rest = true ->
  (forall k, k < String.length pre -> Re.username_at (skip k final) = None) ->
  (forall k, k < String.length (pre ++ "@" ++ h) ->
             Re.content_type_at (skip k final) = None) ->
  extract_video_id ns w url t =
  (Return ("@" ++ h, d, "video"),
   (t1 ++ [ Stdout ("Extracted username: " ++ "@" ++ h);
            Stdout ("Extracted content type: " ++ "video" ++ ", video ID: " ++ d) ])%list).
Proof.
  intros Hr Hshape Hh Hhne Hd Hdne Hrest Hu Hc.
  rewrite (extract_video_id_resolved _ _ _ _ _ _ Hr).
  apply match_patterns_standard.
  - unfold Re.username_pattern. subst final. rewrite search_past by exact Hu.
    apply search_here. now apply username_at_hit.
  - unfold Re.content_type_pattern. subst final.
    assert (E : pre ++ "@" ++ h ++ "/video/" ++ d ++ rest
                = (pre ++ "@" ++ h) ++ "/video/" ++ d ++ rest).
    { now rewrite !append_assoc. }
    rewrite E in Hc |- *. rewrite search_past by exact Hc.
    apply search_here. now apply content_type_at_video.
Qed.

(** C7, as amended.  Take a URL which, once a short link is resolved, is
    ASCII and reads
    [pre @handle /video/ digits rest]: [handle] a non-empty run of
    [[A-Za-z0-9_.]], [digits] a run of fifteen or more digits that [rest]
    does not continue, no match of the handle pattern starting inside
    [pre], and no match of the content pattern starting before that
    [/video/].  Extraction returns exactly [@handle], exactly [digits], and
    the content type [video]. *)
Theorem C7_standard_shape_is_extracted ns w url t final t1 pre h d rest :
  follow_redirect ns w url
    (t ++ [Stdout ("Extracting video ID from URL: " ++ url)])%list
  = (Return final, t1) ->
  is_ascii final = true ->
  final = pre ++ "@" ++ h ++ "/video/" ++ d ++ rest ->
  all Re.is_handle_char h = true -> h <> EmptyString ->
  all Re.is_digit d = true -> 15 <= String.length d ->
  stops Re.is_digit rest = true ->
  (forall k, k < String.length pre -> Re.username_at (skip k final) = None) ->
  (forall k, k < String.length (pre ++ "@" ++ h) ->
             Re.content_type_at (skip k final) = None) ->
  fst (extract_video_id ns w url t) = Return ("@" ++ h, d, "video").
Proof.
  intros Hr _ Hshape Hh Hhne Hd Hlen Hrest Hu Hc.
  erewrite extract_standard_shape; try eassumption; [reflexivity|].
  intros ->. simpl in Hlen. lia.
Qed.

(** The example of the specification: the short link resolves to the
    standard URL of [@someuser]. *)
Lemma C7_standard_shape_witness :
  fst (extract_video_id module_bindings (redirecting standard_url) short_url [])
  = Return ("@someuser", "7123456789012345678", "video").
Proof.
  apply (C7_standard_shape_is_extracted module_bindings
           (redirecting standard_url) short_url [] standard_url
           [ Stdout ("Extracting video ID from URL: " ++ short_url);
             Stdout "Detected shortened URL, following redirect...";
             RequestsGet short_url;
             Stdout ("Redirected to: " ++ standard_url) ]
           "https://www.tiktok.com/" "someuser" "7123456789012345678"
           EmptyString).
  - reflexivity.
  - reflexivity.
  - reflexivity.
  - reflexivity.
  - discriminate.
  - reflexivity.
  - simpl. lia.
  - reflexivity.
  - apply none_before_spec. vm_compute. reflexivity.
  - apply none_before_spec. vm_compute. reflexivity.
Defined.

(** C7, as stated, fails: the URL ends in [/@second/video/<19 digits>],
    and extraction returns the handle [@first] that stands before it. *)
Lemma C7_counterexample :
  is_ascii two_handles_url = true /\
  two_handles_url
  = "https://www.tiktok.com/@first/" ++ "@" ++ "second" ++ "/video/"
    ++ "7123456789012345678" /\
  all Re.is_handle_char "second" = true /\
  all Re.is_digit "7123456789012345678" = true /\
  15 <= String.length "7123456789012345678" /\
  (forall ns w t,
      fst (extract_video_id ns w two_handles_url t)
      = Return ("@first", "7123456789012345678", "video")) /\
  (forall ns w t,
      fst (extract_video_id ns w two_handles_url t)
      <> Return ("@second", "7123456789012345678", "video")).
Proof.
  assert (E : forall ns w t,
             fst (extract_video_id ns w two_handles_url t)
             = Return ("@first", "7123456789012345678", "video")).
  { intros ns w t.
    rewrite (extract_video_id_plain ns w two_handles_url t eq_refl).
    now rewrite (match_patterns_standard ns two_handles_url _ "@first" "video"
                   "7123456789012345678" eq_refl eq_refl). }
  split; [reflexivity|].
  split; [reflexivity|]. split; [reflexivity|]. split; [reflexivity|].
  split; [simpl; lia|]. split; [exact E|].
  intros ns w t. rewrite E. discriminate.
Qed.

(** ** Extraction through the alternative pattern *)

Lemma alt_video_id_pattern_leftmost pre c d rest :
  Re.is_sep c = true -> all Re.is_digit d = true ->
  15 <= String.length d -> stops Re.is_digit rest = true ->
  (forall k, k < String.length pre ->
             Re.alt_video_id_at (skip k (pre ++ String c (d ++ rest))) = None) ->
  Re.alt_video_id_pattern (pre ++ String c (d ++ rest)) = Some d.
Proof.
  intros Hc Hd Hl Hr Hpre. unfold Re.alt_video_id_pattern.
  rewrite search_past by exact Hpre.
  apply search_here. now apply alt_video_id_at_hit.
Qed.

Lemma skip_split (s : string) (n : nat) : exists pre, s = pre ++ skip n s.
Proof.
  revert n. induction s as [|c s IH]; intros [|n]; simpl.
  - now exists EmptyString.
  - now exists EmptyString.
  - now exists EmptyString.
  - destruct (IH n) as [pre E]. exists (String c pre).
    rewrite append_cons. now f_equal.
Qed.

Lemma alt_video_id_at_shape s video_id :
  Re.alt_video_id_at s = Some video_id ->
  exists c rest,
    s = String c (video_id ++ rest) /\ Re.is_sep c = true /\
    all Re.is_digit video_id = true /\ 15 <= String.length video_id /\
    stops Re.is_digit rest = true.
Proof.
  unfold Re.alt_video_id_at. destruct s as [|c r]; [discriminate|].
  destruct (Re.is_sep c) eqn:Hc; [|discriminate]. cbv zeta.
  destruct (15 <=? String.length (fst (span Re.is_digit r)))%nat eqn:E;
    [|discriminate].
  intros H. inversion H; subst.
  destruct (span_split Re.is_digit r) as [Hs Hst].
  exists c, (snd (span Re.is_digit r)).
  split; [now f_equal|]. split; [exact Hc|].
  split; [apply span_fst_all|]. split; [now apply Nat.leb_le|exact Hst].
Qed.

Lemma match_patterns_Return ns url t handle video_id content_type t' :
  match_patterns ns url t = (Return (handle, video_id, content_type), t') ->
  (Re.username_pattern url = Some handle /\
   Re.content_type_pattern url = Some (content_type, video_id)) \/
  (name_bound ns "logger" = true /\
   Re.alt_video_id_pattern url = Some video_id /\ content_type = "video" /\
   (Re.username_pattern url = Some handle \/
    Re.username_pattern url = None /\ handle = "@user")).
Proof.
  unfold match_patterns, logger, bind, ret, raise, print, emit.
  destruct (name_bound ns "logger") eqn:Hns;
    destruct (Re.username_pattern url) as [u|];
    destruct (Re.content_type_pattern url) as [[ct id]|];
    destruct (Re.alt_video_id_pattern url) as [alt|];
    simpl; intros H; inversion H; subst; auto 10.
Qed.

(** C3, as amended.  Take a URL which, once a short link is resolved, is
    ASCII and does not match both standard patterns, with the name
    [logger] bound.  When it holds a run of fifteen or more digits that
    stands right after a [/] or a [=], extraction does not fail: with
    [digits] the leftmost such run, it returns [digits] with the content
    type [video], and as handle the match of the handle pattern when there
    is one and the placeholder [@user] otherwise.  Conversely, whatever
    extraction returns for such a URL is a run of fifteen or more digits
    that stands right after a [/] or a [=] in it: a run that follows any
    other character is never returned. *)
Theorem C3_alternative_pattern_after_separator ns w url t final t1 :
  name_bound ns "logger" = true ->
  follow_redirect ns w url
    (t ++ [Stdout ("Extracting video ID from URL: " ++ url)])%list
  = (Return final, t1) ->
  is_ascii final = true ->
  Re.username_pattern final = None \/ Re.content_type_pattern final = None ->
  (forall pre c d rest,
      final = pre ++ String c (d ++ rest) ->
      Re.is_sep c = true -> all Re.is_digit d = true ->
      15 <= String.length d -> stops Re.is_digit rest = true ->
      (forall k, k < String.length pre ->
                 Re.alt_video_id_at (skip k final) = None) ->
      fst (extract_video_id ns w url t)
      = Return (match Re.username_pattern final with
                | Some handle => handle
                | None => "@user"
                end, d, "video")) /\
  (forall handle video_id content_type,
      fst (extract_video_id ns w url t)
      = Return (handle, video_id, content_type) ->
      content_type = "video" /\
      exists pre c rest,
        final = pre ++ String c (video_id ++ rest) /\
        Re.is_sep c = true /\ all Re.is_digit video_id = true /\
        15 <= String.length video_id /\ stops Re.is_digit rest = true).
Proof.
  intros Hns Hr _ Hstd.
  rewrite (extract_video_id_resolved _ _ _ _ _ _ Hr). split.
  - intros pre c d rest Hshape Hc Hd Hl Hrest Hpre. subst final.
    rewrite (match_patterns_alternative ns _ t1 d Hns Hstd)
      by now apply alt_video_id_pattern_leftmost.
    now destruct (Re.username_pattern _).
  - intros handle video_id content_type H.
    assert (E : match_patterns ns final t1
                = (Return (handle, video_id, content_type),
                   snd (match_patterns ns final t1))).
    { rewrite <- H. apply surjective_pairing. }
    apply match_patterns_Return in E
      as [[Hu Hc]|(_ & Ha & -> & _)].
    + destruct Hstd as [Hn|Hn]; congruence.
    + split; [reflexivity|].
      apply search_Some in Ha as (n & _ & Ha & _).
      apply alt_video_id_at_shape in Ha
        as (c & rest & Es & Hc & Hd & Hl & Hrest).
      destruct (skip_split final n) as [pre Ep].
      exists pre, c, rest. rewrite Es in Ep.
      repeat split; assumption.
Qed.

Lemma C3_alternative_pattern_witness :
  fst (extract_video_id with_logger offline query_id_url [])
  = Return ("@user", "7123456789012345678", "video").
Proof.
  apply (proj1 (C3_alternative_pattern_after_separator with_logger offline
                  query_id_url [] query_id_url
                  [Stdout ("Extracting video ID from URL: " ++ query_id_url)]
                  eq_refl eq_refl eq_refl (or_introl eq_refl))
           "https://www.tiktok.com/share?item_id" "="%char
           "7123456789012345678" "&lang=en").
  - reflexivity.
  - reflexivity.
  - reflexivity.
  - simpl. lia.
  - reflexivity.
  - apply none_before_spec. vm_compute. reflexivity.
Defined.

(** C3, as stated, fails: the URL holds a run of nineteen digits and does
    not match the standard patterns, but the run follows a [-]; extraction
    fails, with HTTP 400 when [logger] is bound and with [NameError] in
    the module as it is. *)
Lemma C3_counterexample :
  is_ascii dashed_id_url = true /\
  dashed_id_url = "https://www.tiktok.com/share/item-" ++ "7123456789012345678" /\
  all Re.is_digit "7123456789012345678" = true /\
  15 <= String.length "7123456789012345678" /\
  Re.username_pattern dashed_id_url = None /\
  Re.content_type_pattern dashed_id_url = None /\
  (forall w t,
      fst (extract_video_id with_logger w dashed_id_url t)
      = Raise (HTTPException 400 "Could not extract username from URL")) /\
  (forall w t,
      fst (extract_video_id module_bindings w dashed_id_url t)
      = Raise (NameError "logger")).
Proof.
  split; [reflexivity|].
  split; [reflexivity|]. split; [reflexivity|]. split; [simpl; lia|].
  split; [reflexivity|]. split; [reflexivity|]. split; intros w t.
  - rewrite (extract_video_id_plain with_logger w dashed_id_url t eq_refl).
    now rewrite (match_patterns_no_username with_logger dashed_id_url _
                   eq_refl eq_refl eq_refl).
  - rewrite (extract_video_id_plain module_bindings w dashed_id_url t eq_refl).
    now rewrite (match_patterns_unbound module_bindings dashed_id_url _
                   eq_refl (or_introl eq_refl)).
Qed.

(** C4, as amended.  Take a URL which, once a short link is resolved, is
    ASCII, matches the content pattern but not the handle pattern, and holds no
    run of fifteen or more digits right after a [/] or a [=].  With the
    name [logger] bound, extraction fails with HTTP 400, "Could not
    extract username from URL". *)
Theorem C4_handle_mandatory_without_long_id
    ns w url t final t1 content_type video_id :
  name_bound ns "logger" = true ->
  follow_redirect ns w url
    (t ++ [Stdout ("Extracting video ID from URL: " ++ url)])%list
  = (Return final, t1) ->
  is_ascii final = true ->
  Re.content_type_pattern final = Some (content_type, video_id) ->
  Re.username_pattern final = None ->
  Re.alt_video_id_pattern final = None ->
  fst (extract_video_id ns w url t)
  = Raise (HTTPException 400 "Could not extract username from URL").
Proof.
  intros Hns Hr _ _ Hu Ha.
  rewrite (extract_video_id_resolved _ _ _ _ _ _ Hr).
  now rewrite (match_patterns_no_username ns final t1 Hns Hu Ha).
Qed.

Lemma C4_handle_mandatory_witness :
  fst (extract_video_id with_logger offline short_id_url [])
  = Raise (HTTPException 400 "Could not extract username from URL").
Proof.
  apply (C4_handle_mandatory_without_long_id with_logger offline
           short_id_url [] short_id_url
           [Stdout ("Extracting video ID from URL: " ++ short_id_url)]
           "video" "12345"); reflexivity.
Defined.

(** C4, as stated, fails: the content pattern matches, no handle is
    present, and extraction does not fail with the 400 error.  With
    [logger] bound it returns the placeholder handle; in the module as it
    is it raises [NameError]. *)
Lemma C4_counterexample :
  is_ascii bare_video_url = true /\
  Re.content_type_pattern bare_video_url
  = Some ("video", "7123456789012345678") /\
  Re.username_pattern bare_video_url = None /\
  (forall w t,
      fst (extract_video_id with_logger w bare_video_url t)
      = Return ("@user", "7123456789012345678", "video")) /\
  (forall w t,
      fst (extract_video_id module_bindings w bare_video_url t)
      = Raise (NameError "logger")).
Proof.
  split; [reflexivity|].
  split; [reflexivity|]. split; [reflexivity|]. split; intros w t.
  - rewrite (extract_video_id_plain with_logger w bare_video_url t eq_refl).
    now rewrite (match_patterns_alternative with_logger bare_video_url _
                   "7123456789012345678" eq_refl (or_introl eq_refl) eq_refl).
  - rewrite (extract_video_id_plain module_bindings w bare_video_url t eq_refl).
    now rewrite (match_patterns_unbound module_bindings bare_video_url _
                   eq_refl (or_introl eq_refl)).
Qed.

(** ** The adapters after a successful extraction *)

Lemma adapter_unbound_after_extract ns w v url t x t1
    (k : string * string * string -> M StreamingResponse) :
  name_bound ns "logger" = false ->
  extract_video_id ns w url t = (Return x, t1) ->
  (forall x t1, k x t1 = (Raise (NameError "logger"), t1)) ->
  try_except (x <- extract_video_id ns w url ;; k x) (adapter_handler ns w v) t
  = (Raise (NameError "logger"), t1).
Proof.
  intros Hns He Hk.
  rewrite (try_except_Raise _ _ t (NameError "logger") t1).
  - now apply adapter_handler_unbound.
  - rewrite (bind_Return _ _ _ _ _ He). apply Hk.
Qed.

(** With [logger] unbound, an adapter whose extraction succeeded stops
    right there: nothing is added to the trace, so the session issues no
    request. *)
Lemma download_v1_unbound_after_extract ns w url t x t1 :
  name_bound ns "logger" = false ->
  extract_video_id ns w url
    (t ++ [Stdout ("Starting v1 download method for URL: " ++ url)])%list
  = (Return x, t1) ->
  download_v1 ns w url t = (Raise (NameError "logger"), t1).
Proof.
  intros Hns He. unfold download_v1.
  rewrite (bind_Return (print _) _ t tt _ eq_refl).
  apply (adapter_unbound_after_extract ns w "v1" url _ x t1 _ Hns He).
  intros [[u video_id] content_type] t2. now apply after_extract_unbound.
Qed.

Lemma download_v2_unbound_after_extract ns w url t x t1 :
  name_bound ns "logger" = false ->
  extract_video_id ns w url
    (t ++ [Stdout ("Starting v2 download method for URL: " ++ url)])%list
  = (Return x, t1) ->
  download_v2 ns w url t = (Raise (NameError "logger"), t1).
Proof.
  intros Hns He. unfold download_v2.
  rewrite (bind_Return (print _) _ t tt _ eq_refl).
  apply (adapter_unbound_after_extract ns w "v2" url _ x t1 _ Hns He).
  intros [[u video_id] content_type] t2. now apply after_extract_unbound.
Qed.

Lemma download_v3_unbound_after_extract ns w url t x t1 :
  name_bound ns "logger" = false ->
  extract_video_id ns w url
    (t ++ [Stdout ("Starting v3 download method for URL: " ++ url)])%list
  = (Return x, t1) ->
  download_v3 ns w url t = (Raise (NameError "logger"), t1).
Proof.
  intros Hns He. unfold download_v3.
  rewrite (bind_Return (print _) _ t tt _ eq_refl).
  apply (adapter_unbound_after_extract ns w "v3" url _ x t1 _ Hns He).
  intros [[u video_id] content_type] t2. now apply after_extract_unbound.
Qed.

Lemma extract_photo_url ns w t :
  extract_video_id ns w photo_url t
  = (Return ("@someuser", "7123456789012345678", "photo"),
     (t ++ [ Stdout ("Extracting video ID from URL: " ++ photo_url);
             Stdout "Extracted username: @someuser";
             Stdout "Extracted content type: photo, video ID: 7123456789012345678" ])%list).
Proof.
  rewrite (extract_video_id_plain ns w photo_url t eq_refl).
  rewrite (match_patterns_standard ns photo_url _ "@someuser" "photo"
             "7123456789012345678" eq_refl eq_refl).
  now rewrite app_one.
Qed.

Lemma extract_standard_url ns w t :
  extract_video_id ns w standard_url t
  = (Return ("@someuser", "7123456789012345678", "video"),
     (t ++ [ Stdout ("Extracting video ID from URL: " ++ standard_url);
             Stdout "Extracted username: @someuser";
             Stdout "Extracted content type: video, video ID: 7123456789012345678" ])%list).
Proof.
  rewrite (extract_video_id_plain ns w standard_url t eq_refl).
  rewrite (match_patterns_standard ns standard_url _ "@someuser" "video"
             "7123456789012345678" eq_refl eq_refl).
  now rewrite app_one.
Qed.

(** C5, on the code as it is.  The URL of a photo post is extracted with
    the content type [photo]; each adapter then raises [NameError] at the
    warning that precedes the rejection, not the 400 error of the
    rejection.  The trace shows that no request was issued. *)
Theorem C5_photo_url_raises_NameError_in_each_adapter :
  (forall ns w t,
      fst (extract_video_id ns w photo_url t)
      = Return ("@someuser", "7123456789012345678", "photo")) /\
  (forall w t,
      download_v1 module_bindings w photo_url t
      = (Raise (NameError "logger"),
         (t ++ [ Stdout ("Starting v1 download method for URL: " ++ photo_url);
                 Stdout ("Extracting video ID from URL: " ++ photo_url);
                 Stdout "Extracted username: @someuser";
                 Stdout "Extracted content type: photo, video ID: 7123456789012345678" ])%list)) /\
  (forall w t,
      download_v2 module_bindings w photo_url t
      = (Raise (NameError "logger"),
         (t ++ [ Stdout ("Starting v2 download method for URL: " ++ photo_url);
                 Stdout ("Extracting video ID from URL: " ++ photo_url);
                 Stdout "Extracted username: @someuser";
                 Stdout "Extracted content type: photo, video ID: 7123456789012345678" ])%list)) /\
  (forall w t,
      download_v3 module_bindings w photo_url t
      = (Raise (NameError "logger"),
         (t ++ [ Stdout ("Starting v3 download method for URL: " ++ photo_url);
                 Stdout ("Extracting video ID from URL: " ++ photo_url);
                 Stdout "Extracted username: @someuser";
                 Stdout "Extracted content type: photo, video ID: 7123456789012345678" ])%list)).
Proof.
  split; [intros; now rewrite extract_photo_url|].
  split; [|split]; intros w t.
  - erewrite download_v1_unbound_after_extract;
      [|reflexivity|apply extract_photo_url]. now rewrite app_one.
  - erewrite download_v2_unbound_after_extract;
      [|reflexivity|apply extract_photo_url]. now rewrite app_one.
  - erewrite download_v3_unbound_after_extract;
      [|reflexivity|apply extract_photo_url]. now rewrite app_one.
Qed.

(** C6, on the code as it is.  For the standard URL the first method,
    [download_v2], fails; the [except] clause of the loop raises
    [NameError] and the request ends there.  The trace shows that neither
    [download_v3] nor [download_v1] was started. *)
Theorem C6_first_failure_ends_the_loop :
  forall w t,
    download_video module_bindings w standard_url t
    = (Raise (NameError "logger"),
       (t ++ [ Stdout ("Received download request for URL: " ++ standard_url);
               Stdout "Trying download method: download_v2";
               Stdout ("Starting v2 download method for URL: " ++ standard_url);
               Stdout ("Extracting video ID from URL: " ++ standard_url);
               Stdout "Extracted username: @someuser";
               Stdout "Extracted content type: video, video ID: 7123456789012345678" ])%list).
Proof.
  intros w t. unfold download_video.
  rewrite (bind_Return (print _) _ t tt _ eq_refl). unfold methods.
  apply bind_Raise.
  erewrite try_methods_failure_unbound; [|reflexivity|].
  2:{ erewrite download_v2_unbound_after_extract;
        [reflexivity|reflexivity|apply extract_standard_url]. }
  now rewrite !app_one.
Qed.

(** C10, on the code as it is.  The URL matches the content pattern with
    the type [photo], holds no handle, and its identifier is a run of
    nineteen digits after a [/]; [extract_video_id] raises [NameError] at
    the warning that opens the alternative branch and returns nothing. *)
Theorem C10_photo_without_handle_raises_NameError :
  Re.content_type_pattern bare_photo_url
  = Some ("photo", "7123456789012345678") /\
  Re.username_pattern bare_photo_url = None /\
  Re.alt_video_id_pattern bare_photo_url = Some "7123456789012345678" /\
  (forall w t,
      extract_video_id module_bindings w bare_photo_url t
      = (Raise (NameError "logger"),
         (t ++ [Stdout ("Extracting video ID from URL: " ++ bare_photo_url)])%list)).
Proof.
  split; [reflexivity|]. split; [reflexivity|]. split; [reflexivity|].
  intros w t. rewrite (extract_video_id_plain _ w bare_photo_url t eq_refl).
  now rewrite (match_patterns_unbound module_bindings bare_photo_url _
                 eq_refl (or_introl eq_refl)).
Qed.

(** ** What a computation can return *)

Lemma returns_only_ret {A : Type} (P : A -> Prop) (a : A) :
  P a -> returns_only P (ret a).
Proof.
  intros H t a' t' E. unfold ret in E.
  assert (Ea : a' = a) by congruence. now rewrite Ea.
Qed.

Lemma returns_only_raise {A : Type} (P : A -> Prop) (e : exn) :
  returns_only P (raise e).
Proof. intros t a t' E. discriminate E. Qed.

Lemma returns_only_bind {A B : Type} (P : B -> Prop) (m : M A) (k : A -> M B) :
  (forall a, returns_only P (k a)) -> returns_only P (bind m k).
Proof.
  intros H t b t' E. apply bind_inv_Return in E as (a & t1 & _ & E).
  exact (H a t1 b t' E).
Qed.

Lemma returns_only_try_except {A : Type} (P : A -> Prop) (body : M A)
    (h : exn -> M A) :
  returns_only P body -> (forall e, returns_only P (h e)) ->
  returns_only P (try_except body h).
Proof.
  intros Hb Hh t a t' E. apply try_except_inv in E as [(a' & E & Ea)|(e & t1 & _ & E)].
  - inversion Ea; subst. exact (Hb t a' t' E).
  - exact (Hh e t1 a t' E).
Qed.

(** The [except] clause of an adapter always raises. *)
Lemma adapter_handler_raises ns w v e (P : StreamingResponse -> Prop) :
  returns_only P (adapter_handler ns w v e).
Proof.
  unfold adapter_handler.
  destruct e; repeat (apply returns_only_bind; intros _);
    apply returns_only_raise.
Qed.

Lemma only_videos_Return ns content_type t t' :
  only_videos ns content_type t = (Return tt, t') -> content_type = "video".
Proof.
  unfold only_videos. destruct (content_type =? "video")%string eqn:E.
  - intros _. now apply String.eqb_eq.
  - simpl. intros H. apply bind_inv_Return in H as (u & t1 & _ & H).
    discriminate H.
Qed.

(** ** The result of a successful download *)

Lemma content_disposition_names_the_file video_id body more :
  names_the_file video_id
    {| body := body; media_type := "video/mp4";
       headers := content_disposition video_id :: more |}.
Proof.
  split; [reflexivity|]. unfold content_disposition. simpl.
  now rewrite !append_assoc.
Qed.

(** An adapter returns only from the last statement of its [try] block,
    after an extraction that gave the content type [video]. *)
Lemma adapter_returns ns w v url t r t'
    (k : string -> M StreamingResponse) :
  try_except
    ('(_, video_id, content_type) <- extract_video_id ns w url ;;
     only_videos ns content_type ;; k video_id)
    (adapter_handler ns w v) t = (Return r, t') ->
  exists handle video_id t1 t2,
    extract_video_id ns w url t = (Return (handle, video_id, "video"), t1) /\
    k video_id t2 = (Return r, t').
Proof.
  intros H. apply try_except_inv in H as [(a & H & Ea)|(e & t1 & _ & H)].
  - inversion Ea; subst a.
    apply bind_inv_Return in H as ([[handle video_id] content_type] & t1 & He & H).
    apply bind_inv_Return in H as ([] & t2 & Hv & H).
    apply only_videos_Return in Hv. subst content_type.
    now exists handle, video_id, t1, t2.
  - now apply (adapter_handler_raises ns w v e (fun _ => False)) in H.
Qed.

Lemma download_v1_names_the_file ns w url t r t' :
  download_v1 ns w url t = (Return r, t') ->
  exists handle video_id t0 t1,
    extract_video_id ns w url t0 = (Return (handle, video_id, "video"), t1) /\
    names_the_file video_id r.
Proof.
  unfold download_v1. rewrite (bind_Return (print _) _ t tt _ eq_refl).
  intros H. apply adapter_returns in H as (handle & video_id & t1 & t2 & He & H).
  eexists handle, video_id, _, t1. split; [exact He|].
  match type of H with
  | ?K _ = _ => assert (R : returns_only (names_the_file video_id) K)
  end.
  { repeat first [ apply returns_only_bind; intro | progress cbv zeta ].
    apply returns_only_ret. apply content_disposition_names_the_file. }
  exact (R _ _ _ H).
Qed.

Lemma download_v2_names_the_file ns w url t r t' :
  download_v2 ns w url t = (Return r, t') ->
  exists handle video_id t0 t1,
    extract_video_id ns w url t0 = (Return (handle, video_id, "video"), t1) /\
    names_the_file video_id r.
Proof.
  unfold download_v2. rewrite (bind_Return (print _) _ t tt _ eq_refl).
  intros H. apply adapter_returns in H as (handle & video_id & t1 & t2 & He & H).
  eexists handle, video_id, _, t1. split; [exact He|].
  match type of H with
  | ?K _ = _ => assert (R : returns_only (names_the_file video_id) K)
  end.
  { repeat first [ apply returns_only_bind; intro | progress cbv zeta ].
    apply returns_only_ret. apply content_disposition_names_the_file. }
  exact (R _ _ _ H).
Qed.

Lemma download_v3_names_the_file ns w url t r t' :
  download_v3 ns w url t = (Return r, t') ->
  exists handle video_id t0 t1,
    extract_video_id ns w url t0 = (Return (handle, video_id, "video"), t1) /\
    names_the_file video_id r.
Proof.
  unfold download_v3. rewrite (bind_Return (print _) _ t tt _ eq_refl).
  intros H. apply adapter_returns in H as (handle & video_id & t1 & t2 & He & H).
  eexists handle, video_id, _, t1. split; [exact He|].
  match type of H with
  | ?K _ = _ => assert (R : returns_only (names_the_file video_id) K)
  end.
  { repeat first [ apply returns_only_bind; intro | progress cbv zeta ].
    apply returns_only_ret. apply content_disposition_names_the_file. }
  exact (R _ _ _ H).
Qed.

(** C8.  Whichever adapter returns a response, its media type is
    [video/mp4] and its [Content-Disposition] header suggests the file
    name ["tiktok_" + contentId + ".mp4"], where [contentId] is the
    identifier that [extract_video_id] gave the adapter for the URL (with
    the content type [video]). *)
Theorem C8_suggested_filename ns w url t r t' :
  download_v1 ns w url t = (Return r, t') \/
  download_v2 ns w url t = (Return r, t') \/
  download_v3 ns w url t = (Return r, t') ->
  media_type r = "video/mp4" /\
  exists handle video_id t0 t1,
    extract_video_id ns w url t0 = (Return (handle, video_id, "video"), t1) /\
    assoc "Content-Disposition" (headers r)
    = Some ("attachment; filename=" ++ dq
            ++ ("tiktok_" ++ video_id ++ ".mp4") ++ dq).
Proof.
  intros [H|[H|H]];
    [ apply download_v1_names_the_file in H
    | apply download_v2_names_the_file in H
    | apply download_v3_names_the_file in H ];
    destruct H as (handle & video_id & t0 & t1 & He & Hm & Hh);
    (split; [exact Hm|]); now exists handle, video_id, t0, t1.
Qed.

Lemma happy_download_v1 :
  download_v1 with_logger happy standard_url []
  = (Return happy_response_v1,
     snd (download_v1 with_logger happy standard_url [])).
Proof. vm_compute. reflexivity. Qed.

Lemma happy_download_v2 :
  download_v2 with_logger happy standard_url []
  = (Return happy_response,
     snd (download_v2 with_logger happy standard_url [])).
Proof. vm_compute. reflexivity. Qed.

Lemma happy_download_v3 :
  download_v3 with_logger happy standard_url []
  = (Return happy_response,
     snd (download_v3 with_logger happy standard_url [])).
Proof. vm_compute. reflexivity. Qed.

Lemma C8_suggested_filename_witness :
  (media_type happy_response_v1 = "video/mp4" /\
   exists handle video_id t0 t1,
     extract_video_id with_logger happy standard_url t0
     = (Return (handle, video_id, "video"), t1) /\
     assoc "Content-Disposition" (headers happy_response_v1)
     = Some ("attachment; filename=" ++ dq
             ++ ("tiktok_" ++ video_id ++ ".mp4") ++ dq)) /\
  (media_type happy_response = "video/mp4" /\
   exists handle video_id t0 t1,
     extract_video_id with_logger happy standard_url t0
     = (Return (handle, video_id, "video"), t1) /\
     assoc "Content-Disposition" (headers happy_response)
     = Some ("attachment; filename=" ++ dq
             ++ ("tiktok_" ++ video_id ++ ".mp4") ++ dq)) /\
  (media_type happy_response = "video/mp4" /\
   exists handle video_id t0 t1,
     extract_video_id with_logger happy standard_url t0
     = (Return (handle, video_id, "video"), t1) /\
     assoc "Content-Disposition" (headers happy_response)
     = Some ("attachment; filename=" ++ dq
             ++ ("tiktok_" ++ video_id ++ ".mp4") ++ dq)).
Proof.
  split; [|split].
  - exact (C8_suggested_filename with_logger happy standard_url [] _ _
             (or_introl happy_download_v1)).
  - exact (C8_suggested_filename with_logger happy standard_url [] _ _
             (or_intror (or_introl happy_download_v2))).
  - exact (C8_suggested_filename with_logger happy standard_url [] _ _
             (or_intror (or_intror happy_download_v3))).
Defined.

(** ** The orchestrator when [logger] is bound *)

Lemma adapter_handler_bound ns w v e t r t' :
  name_bound ns "logger" = true ->
  adapter_handler ns w v e t = (r, t') ->
  exists status_code detail, r = Raise (HTTPException status_code detail).
Proof.
  intros Hns. unfold adapter_handler, bind, raise.
  destruct e; repeat rewrite (logger_bound ns _ _ _ Hns);
    intros H; inversion H; eauto.
Qed.

(** With [logger] bound, the only exception that leaves an adapter is an
    [HTTPException]. *)
Lemma adapter_raises_HTTPException ns w v t e t'
    (body : M StreamingResponse) :
  name_bound ns "logger" = true ->
  try_except body (adapter_handler ns w v) t = (Raise e, t') ->
  is_HTTPException e = true.
Proof.
  intros Hns H. apply try_except_inv in H as [(a & _ & Ea)|(e0 & t1 & _ & H)].
  - discriminate Ea.
  - apply (adapter_handler_bound ns w v e0 t1 _ _ Hns) in H as (s & d & E).
    inversion E. reflexivity.
Qed.

Lemma download_v1_raises_HTTPException ns w url t e t' :
  name_bound ns "logger" = true ->
  download_v1 ns w url t = (Raise e, t') -> is_HTTPException e = true.
Proof.
  intros Hns. unfold download_v1.
  rewrite (bind_Return (print _) _ t tt _ eq_refl).
  now apply adapter_raises_HTTPException.
Qed.

Lemma download_v2_raises_HTTPException ns w url t e t' :
  name_bound ns "logger" = true ->
  download_v2 ns w url t = (Raise e, t') -> is_HTTPException e = true.
Proof.
  intros Hns. unfold download_v2.
  rewrite (bind_Return (print _) _ t tt _ eq_refl).
  now apply adapter_raises_HTTPException.
Qed.

Lemma download_v3_raises_HTTPException ns w url t e t' :
  name_bound ns "logger" = true ->
  download_v3 ns w url t = (Raise e, t') -> is_HTTPException e = true.
Proof.
  intros Hns. unfold download_v3.
  rewrite (bind_Return (print _) _ t tt _ eq_refl).
  now apply adapter_raises_HTTPException.
Qed.

Lemma all_failed_reraises ns w url e t :
  name_bound ns "logger" = true -> is_HTTPException e = true ->
  all_failed ns w url (Some e) t
  = (Raise e,
     (t ++ [Log ERROR ("All download methods failed for URL: " ++ url)])%list).
Proof.
  intros Hns He. unfold all_failed, bind.
  rewrite (logger_bound ns _ _ _ Hns). now destruct e.
Qed.

(** C2, as amended.  With the name [logger] bound, take a request in which
    the three adapters fail, each started by the orchestrator where the
    previous one stopped.  The orchestrator has tried [download_v2],
    [download_v3] and [download_v1] in that order; it keeps the last
    failure only and raises it again: the request ends with the
    [HTTPException] of [download_v1], status and detail unchanged, and no
    list of failures is built. *)
Theorem C2_all_failed_raises_last_failure
    ns w url t e2 t2 e3 t3 e1 t1 :
  name_bound ns "logger" = true ->
  download_v2 ns w url
    (t ++ [ Stdout ("Received download request for URL: " ++ url);
            Stdout "Trying download method: download_v2" ])%list
  = (Raise e2, t2) ->
  download_v3 ns w url
    (t2 ++ [ Log WARNING ("Method download_v2 failed: " ++ str_exn e2);
             Stdout "Trying download method: download_v3" ])%list
  = (Raise e3, t3) ->
  download_v1 ns w url
    (t3 ++ [ Log WARNING ("Method download_v3 failed: " ++ str_exn e3);
             Stdout "Trying download method: download_v1" ])%list
  = (Raise e1, t1) ->
  is_HTTPException e1 = true /\
  download_video ns w url t
  = (Raise e1,
     (t1 ++ [ Log WARNING ("Method download_v1 failed: " ++ str_exn e1);
              Log ERROR ("All download methods failed for URL: " ++ url) ])%list).
Proof.
  intros Hns H2 H3 H1.
  assert (He1 := download_v1_raises_HTTPException _ _ _ _ _ _ Hns H1).
  split; [exact He1|].
  unfold download_video.
  rewrite (bind_Return (print _) _ t tt _ eq_refl). unfold methods.
  rewrite <- app_one in H2, H3, H1.
  erewrite bind_Return.
  2:{ rewrite (try_methods_failure ns _ _ _ _ _ _ _ _ Hns H2).
      rewrite (try_methods_failure ns _ _ _ _ _ _ _ _ Hns H3).
      rewrite (try_methods_failure ns _ _ _ _ _ _ _ _ Hns H1).
      reflexivity. }
  rewrite (all_failed_reraises ns w url e1 _ Hns He1).
  now rewrite app_one.
Qed.

Lemma offline_v2_fails :
  offline_v2_run = (Raise (offline_error "v2"), snd offline_v2_run).
Proof. vm_compute. reflexivity. Qed.

Lemma offline_v3_fails :
  offline_v3_run = (Raise (offline_error "v3"), snd offline_v3_run).
Proof. vm_compute. reflexivity. Qed.

Lemma offline_v1_fails :
  offline_v1_run = (Raise (offline_error "v1"), snd offline_v1_run).
Proof. vm_compute. reflexivity. Qed.

Lemma C2_all_failed_witness :
  is_HTTPException (offline_error "v1") = true /\
  download_video with_logger offline standard_url []
  = (Raise (offline_error "v1"),
     (snd offline_v1_run
      ++ [ Log WARNING ("Method download_v1 failed: "
                        ++ str_exn (offline_error "v1"));
           Log ERROR ("All download methods failed for URL: " ++ standard_url) ])%list).
Proof.
  exact (C2_all_failed_raises_last_failure with_logger offline standard_url []
           (offline_error "v2") (snd offline_v2_run)
           (offline_error "v3") (snd offline_v3_run)
           (offline_error "v1") (snd offline_v1_run)
           eq_refl offline_v2_fails offline_v3_fails offline_v1_fails).
Defined.

(** C2, as stated, fails.  In the worlds [offline] and [blocked] the three
    adapters fail, and [download_v2] fails differently in the two (a
    refused connection, a 503 answer).  With [logger] bound the outcome of
    [download_video] is the same in both: the exception of [download_v1]
    alone, with the text of that adapter, so it carries neither three
    failure records nor a generic message.  In the module as it is the
    outcome is [NameError]. *)
Lemma C2_counterexample :
  (fst (download_v2 with_logger offline standard_url [])
   = Raise (HTTPException 500 "Error downloading video (v2): Connection refused") /\
   fst (download_v3 with_logger offline standard_url [])
   = Raise (HTTPException 500 "Error downloading video (v3): Connection refused") /\
   fst (download_v1 with_logger offline standard_url [])
   = Raise (HTTPException 500 "Error downloading video (v1): Connection refused")) /\
  (fst (download_v2 with_logger blocked standard_url [])
   = Raise (HTTPException 503
              "musicaldown.com initial request failed with status 503") /\
   fst (download_v3 with_logger blocked standard_url [])
   = Raise (HTTPException 500 "Error downloading video (v3): Connection refused") /\
   fst (download_v1 with_logger blocked standard_url [])
   = Raise (HTTPException 500 "Error downloading video (v1): Connection refused")) /\
  fst (download_video with_logger offline standard_url [])
  = Raise (HTTPException 500 "Error downloading video (v1): Connection refused") /\
  fst (download_video with_logger blocked standard_url [])
  = Raise (HTTPException 500 "Error downloading video (v1): Connection refused") /\
  fst (download_video module_bindings offline standard_url [])
  = Raise (NameError "logger").
Proof. vm_compute. repeat split. Qed.

(** ** Link extraction *)

Lemma first_candidate_NotFound probe candidates :
  first_candidate probe candidates = NotFound <->
  forall c, In c candidates -> probe c = inr None.
Proof.
  induction candidates as [|c cs IH]; simpl.
  - split; [intros _ c []|reflexivity].
  - destruct (probe c) as [msg|[link|]] eqn:E.
    + split; [discriminate|]. intros H.
      specialize (H c (or_introl eq_refl)). congruence.
    + split; [discriminate|]. intros H.
      specialize (H c (or_introl eq_refl)). congruence.
    + rewrite IH. split.
      * intros H c' [<-|Hc]; [exact E|now apply H].
      * intros H c' Hc. apply H. now right.
Qed.

Lemma first_candidate_Found probe candidates c link :
  first_candidate probe candidates = Found c link ->
  exists before after,
    candidates = (before ++ c :: after)%list /\ probe c = inr (Some link) /\
    forall c', In c' before -> probe c' = inr None.
Proof.
  induction candidates as [|c0 cs IH]; simpl; [discriminate|].
  destruct (probe c0) as [msg|[l|]] eqn:E.
  - discriminate.
  - intros H. inversion H; subst. exists [], cs.
    repeat split; [exact E|intros c' []].
  - intros H. destruct (IH H) as (before & after & -> & Hp & Hb).
    exists (c0 :: before), after. repeat split; [exact Hp|].
    intros c' [<-|Hc]; [exact E|now apply Hb].
Qed.

Lemma try_selectors_first_candidate ns w doc paths download_link t :
  name_bound ns "logger" = true ->
  truthy_opt download_link = false ->
  exists r t',
    try_selectors ns w doc paths download_link t = (r, t') /\
    match first_candidate (xpath_probe w doc) paths with
    | Found _ link => r = Return (Some link) /\ truthy link = true
    | NotFound => exists v, r = Return v /\ truthy_opt v = false
    | Refused msg => r = Raise (PyError msg)
    end.
Proof.
  intros Hns. revert download_link.
  induction paths as [|p paths IH]; intros download_link Hd; simpl.
  - exists (Return download_link), t. split; [reflexivity|].
    now exists download_link.
  - rewrite bind_xpath_. unfold xpath_probe at 1.
    destruct (xpath w p doc) as [msg|found].
    + now eexists _, _.
    + cbv zeta. destruct (hd_error found) as [link|] eqn:E; simpl.
      * destruct (truthy link) eqn:Ht.
        -- unfold bind. rewrite (logger_bound ns _ _ _ Hns).
           eexists _, _. split; [reflexivity|]. now split.
        -- apply IH. simpl. exact Ht.
      * now apply IH.
Qed.

Lemma v1_find_link_first_candidate ns w doc t :
  name_bound ns "logger" = true ->
  fst (v1_find_link ns w doc t)
  = link_or_failure (first_candidate (css_probe w doc) [v1_link_selector]).
Proof.
  intros Hns. unfold v1_find_link. rewrite bind_css_. simpl.
  unfold css_probe.
  destruct (css w v1_link_selector doc) as [msg|[|link more]]; simpl;
    unfold bind, raise, ret;
    repeat rewrite (logger_bound ns _ _ _ Hns); reflexivity.
Qed.

Lemma v2_find_link_first_candidate ns w doc t :
  name_bound ns "logger" = true ->
  fst (v2_find_link ns w doc t)
  = link_or_failure (first_candidate (xpath_probe w doc) selectors_to_try).
Proof.
  intros Hns. unfold v2_find_link.
  destruct (try_selectors_first_candidate ns w doc selectors_to_try None t
              Hns eq_refl) as (r & t' & E & Hr).
  destruct (first_candidate (xpath_probe w doc) selectors_to_try)
    as [c link| |msg].
  - destruct Hr as [-> Ht]. rewrite (bind_Return _ _ _ _ _ E).
    simpl. now rewrite Ht.
  - destruct Hr as (v & -> & Hv). rewrite (bind_Return _ _ _ _ _ E).
    rewrite Hv. simpl. unfold bind, raise.
    repeat rewrite (logger_bound ns _ _ _ Hns). reflexivity.
  - subst r. now rewrite (bind_Raise _ _ _ _ _ E).
Qed.

Lemma v3_find_link_first_candidate ns w doc t :
  name_bound ns "logger" = true ->
  fst (v3_find_link ns w doc t)
  = link_or_failure
      (first_candidate (css_probe w doc)
         [v3_link_selector; v3_alt_link_selector]).
Proof.
  intros Hns. unfold v3_find_link. rewrite bind_css_. simpl.
  unfold css_probe.
  destruct (css w v3_link_selector doc) as [msg|[|link more]]; simpl.
  - reflexivity.
  - unfold bind at 1. unfold bind at 1.
    rewrite (logger_bound ns _ _ _ Hns). rewrite bind_css_.
    destruct (css w v3_alt_link_selector doc) as [msg|[|link more]]; simpl.
    + reflexivity.
    + unfold bind, raise.
      repeat rewrite (logger_bound ns _ _ _ Hns). reflexivity.
    + unfold ret at 1. cbv zeta. simpl hd.
      now rewrite (bind_logger ns _ _ _ _ Hns).
  - unfold bind at 1. unfold ret at 1. cbv zeta. simpl hd.
    now rewrite (bind_logger ns _ _ _ _ Hns).
Qed.

(** C9, as amended.  With the name [logger] bound, link extraction in each
    adapter is the search, in order, of a fixed list of selector
    candidates for the first one that yields a match.  It fails with
    "Could not find download link" exactly when every candidate of the
    list has been queried and none has yielded a match.  When the selector
    library raises at a candidate the search ends there with that
    exception, which the adapter reports as HTTP 500 "Error downloading
    video (vN): ..." with the text of the exception.  The list of
    [download_v2] has three candidates, the list of [download_v3] two, and
    the list of [download_v1] a single one. *)
Theorem C9_link_extraction_by_candidates ns w doc t :
  name_bound ns "logger" = true ->
  fst (v1_find_link ns w doc t)
  = link_or_failure (first_candidate (css_probe w doc) [v1_link_selector]) /\
  fst (v2_find_link ns w doc t)
  = link_or_failure (first_candidate (xpath_probe w doc) selectors_to_try) /\
  fst (v3_find_link ns w doc t)
  = link_or_failure
      (first_candidate (css_probe w doc)
         [v3_link_selector; v3_alt_link_selector]) /\
  List.length selectors_to_try = 3 /\
  (fst (v1_find_link ns w doc t)
   = Raise (HTTPException 500 "Could not find download link") <->
   css_probe w doc v1_link_selector = inr None) /\
  (fst (v2_find_link ns w doc t)
   = Raise (HTTPException 500 "Could not find download link") <->
   forall c, In c selectors_to_try -> xpath_probe w doc c = inr None) /\
  (fst (v3_find_link ns w doc t)
   = Raise (HTTPException 500 "Could not find download link") <->
   forall c, In c [v3_link_selector; v3_alt_link_selector] ->
             css_probe w doc c = inr None) /\
  (forall v msg t',
      fst (adapter_handler ns w v (PyError msg) t')
      = Raise (HTTPException 500
                 ("Error downloading video (" ++ v ++ "): " ++ msg))).
Proof.
  intros Hns.
  pose proof (v1_find_link_first_candidate ns w doc t Hns) as H1.
  pose proof (v2_find_link_first_candidate ns w doc t Hns) as H2.
  pose proof (v3_find_link_first_candidate ns w doc t Hns) as H3.
  assert (L : forall found,
             link_or_failure found
             = Raise (HTTPException 500 "Could not find download link")
             <-> found = NotFound).
  { intros [c link| |msg]; simpl; split; intros H; try discriminate;
      reflexivity. }
  split; [exact H1|]. split; [exact H2|]. split; [exact H3|].
  split; [reflexivity|]. split; [|split; [|split]].
  - rewrite H1, L, first_candidate_NotFound. split.
    + intros H. apply H. now left.
    + intros H c [<-|[]]. exact H.
  - rewrite H2, L. apply first_candidate_NotFound.
  - rewrite H3, L. apply first_candidate_NotFound.
  - intros v msg t'. unfold adapter_handler, bind, raise.
    now repeat rewrite (logger_bound ns _ _ _ Hns).
Qed.

Lemma C9_link_extraction_witness :
  (fst (v1_find_link with_logger happy "links" []) = Return media_url /\
   fst (v2_find_link with_logger happy "links" []) = Return media_url /\
   fst (v3_find_link with_logger happy "links" []) = Return media_url) /\
  fst (v2_find_link with_logger json_pages "{}" [])
  = Raise (PyError "Cannot use xpath on a Selector of type 'json'").
Proof.
  split.
  - destruct (C9_link_extraction_by_candidates with_logger happy "links" []
                eq_refl) as (H1 & H2 & H3 & _).
    rewrite H1, H2, H3. repeat split.
  - destruct (C9_link_extraction_by_candidates with_logger json_pages "{}" []
                eq_refl) as (_ & H2 & _).
    rewrite H2. reflexivity.
Defined.

(** C9, as stated, fails for [download_v1].  On the drifted page every
    selector but the one of [download_v1] finds the link, so any list of
    two or more candidates would find it; [download_v1] fails at link
    extraction all the same (with [NameError] at its first logging
    statement in the module as it is). *)
Lemma C9_counterexample :
  (forall q, q <> v1_link_selector ->
             css drifted q "links" = inr [media_url]) /\
  (forall q, xpath drifted q "links" = inr [media_url]) /\
  fst (v1_find_link with_logger drifted "links" [])
  = Raise (HTTPException 500 "Could not find download link") /\
  fst (v1_find_link module_bindings drifted "links" [])
  = Raise (NameError "logger") /\
  fst (download_v1 with_logger drifted standard_url [])
  = Raise (HTTPException 500 "Could not find download link").
Proof.
  split; [|split; [reflexivity|split; [|split]]].
  - intros q Hq. apply String.eqb_neq in Hq. simpl. now rewrite Hq.
  - reflexivity.
  - reflexivity.
  - vm_compute. reflexivity.
Qed.

(** ** With [logger] bound: rejection, short circuit, next method *)

Lemma adapter_rejects_non_video ns w v url t handle video_id content_type t1
    (k : string -> M StreamingResponse) :
  name_bound ns "logger" = true ->
  extract_video_id ns w url t = (Return (handle, video_id, content_type), t1) ->
  content_type <> "video" ->
  try_except
    ('(_, video_id, content_type) <- extract_video_id ns w url ;;
     only_videos ns content_type ;; k video_id)
    (adapter_handler ns w v) t
  = (Raise (HTTPException 400 "Only video downloads are supported"),
     (t1 ++ [ Log WARNING ("Content type " ++ content_type
                           ++ " is not supported, only videos");
              Log ERROR ("HTTP exception in " ++ v
                         ++ " method: Only video downloads are supported") ])%list).
Proof.
  intros Hns He Hct. apply String.eqb_neq in Hct.
  rewrite (try_except_Raise _ _ t
             (HTTPException 400 "Only video downloads are supported")
             (t1 ++ [Log WARNING ("Content type " ++ content_type
                                  ++ " is not supported, only videos")])%list).
  - unfold adapter_handler, bind, raise.
    rewrite (logger_bound ns _ _ _ Hns). now rewrite app_one.
  - rewrite (bind_Return _ _ _ _ _ He). apply bind_Raise.
    unfold only_videos. rewrite Hct. simpl. unfold bind, raise.
    now rewrite (logger_bound ns _ _ _ Hns).
Qed.

(** With [logger] bound, an adapter rejects content that is not a video
    with the 400 error, and its trace ends with the two log records of
    the rejection: the session has issued no request. *)
Theorem non_video_rejected_before_any_request
    ns w url t handle video_id content_type t1 t2 t3 :
  name_bound ns "logger" = true ->
  content_type <> "video" ->
  (extract_video_id ns w url
     (t ++ [Stdout ("Starting v1 download method for URL: " ++ url)])%list
   = (Return (handle, video_id, content_type), t1) ->
   download_v1 ns w url t
   = (Raise (HTTPException 400 "Only video downloads are supported"),
      (t1 ++ [ Log WARNING ("Content type " ++ content_type
                            ++ " is not supported, only videos");
               Log ERROR "HTTP exception in v1 method: Only video downloads are supported" ])%list)) /\
  (extract_video_id ns w url
     (t ++ [Stdout ("Starting v2 download method for URL: " ++ url)])%list
   = (Return (handle, video_id, content_type), t2) ->
   download_v2 ns w url t
   = (Raise (HTTPException 400 "Only video downloads are supported"),
      (t2 ++ [ Log WARNING ("Content type " ++ content_type
                            ++ " is not supported, only videos");
               Log ERROR "HTTP exception in v2 method: Only video downloads are supported" ])%list)) /\
  (extract_video_id ns w url
     (t ++ [Stdout ("Starting v3 download method for URL: " ++ url)])%list
   = (Return (handle, video_id, content_type), t3) ->
   download_v3 ns w url t
   = (Raise (HTTPException 400 "Only video downloads are supported"),
      (t3 ++ [ Log WARNING ("Content type " ++ content_type
                            ++ " is not supported, only videos");
               Log ERROR "HTTP exception in v3 method: Only video downloads are supported" ])%list)).
Proof.
  intros Hns Hct. split; [|split]; intros He.
  - unfold download_v1. rewrite (bind_Return (print _) _ t tt _ eq_refl).
    now apply (adapter_rejects_non_video ns w "v1" url _ handle video_id
                 content_type t1 _ Hns He Hct).
  - unfold download_v2. rewrite (bind_Return (print _) _ t tt _ eq_refl).
    now apply (adapter_rejects_non_video ns w "v2" url _ handle video_id
                 content_type t2 _ Hns He Hct).
  - unfold download_v3. rewrite (bind_Return (print _) _ t tt _ eq_refl).
    now apply (adapter_rejects_non_video ns w "v3" url _ handle video_id
                 content_type t3 _ Hns He Hct).
Qed.

Lemma non_video_rejected_witness :
  download_v1 with_logger offline photo_url []
  = (Raise (HTTPException 400 "Only video downloads are supported"),
     [ Stdout ("Starting v1 download method for URL: " ++ photo_url);
       Stdout ("Extracting video ID from URL: " ++ photo_url);
       Stdout "Extracted username: @someuser";
       Stdout "Extracted content type: photo, video ID: 7123456789012345678";
       Log WARNING "Content type photo is not supported, only videos";
       Log ERROR "HTTP exception in v1 method: Only video downloads are supported" ]).
Proof.
  refine (proj1 (non_video_rejected_before_any_request with_logger offline
                   photo_url [] "@someuser" "7123456789012345678" "photo"
                   [ Stdout ("Starting v1 download method for URL: " ++ photo_url);
                     Stdout ("Extracting video ID from URL: " ++ photo_url);
                     Stdout "Extracted username: @someuser";
                     Stdout "Extracted content type: photo, video ID: 7123456789012345678" ]
                   [] [] eq_refl _) _).
  - discriminate.
  - reflexivity.
Defined.

(** The loop stops at the first method that returns: the result and the
    trace are those of that method, whatever the methods after it are. *)
Theorem first_success_ends_the_loop
    ns name method rest rest' url last_error t response t1 :
  method url (t ++ [Stdout ("Trying download method: " ++ name)])%list
  = (Return response, t1) ->
  try_methods ns ((name, method) :: rest) url last_error t
  = (Return (Returned response), t1) /\
  try_methods ns ((name, method) :: rest') url last_error t
  = try_methods ns ((name, method) :: rest) url last_error t.
Proof.
  intros H. split.
  - now apply try_methods_success.
  - now rewrite !(try_methods_success ns name method _ url last_error t
                    response t1 H).
Qed.

Lemma first_success_witness :
  try_methods with_logger
    [ ("download_v2", download_v2 with_logger happy);
      ("download_v3", download_v3 with_logger offline);
      ("download_v1", download_v1 with_logger offline) ] standard_url None []
  = (Return (Returned happy_response),
     snd (download_v2 with_logger happy standard_url
            [Stdout "Trying download method: download_v2"])).
Proof.
  refine (proj1 (first_success_ends_the_loop with_logger "download_v2"
                   (download_v2 with_logger happy) _ [] standard_url None []
                   happy_response _ _)).
  vm_compute. reflexivity.
Defined.

(** With [logger] bound, a method that fails is followed by the next
    one: when [download_v2] fails and [download_v3] returns, the request
    returns the response of [download_v3], and [download_v1] is not
    started. *)
Theorem failure_then_success_returns_second
    ns w url t e2 t2 response t3 :
  name_bound ns "logger" = true ->
  download_v2 ns w url
    (t ++ [ Stdout ("Received download request for URL: " ++ url);
            Stdout "Trying download method: download_v2" ])%list
  = (Raise e2, t2) ->
  download_v3 ns w url
    (t2 ++ [ Log WARNING ("Method download_v2 failed: " ++ str_exn e2);
             Stdout "Trying download method: download_v3" ])%list
  = (Return response, t3) ->
  download_video ns w url t = (Return response, t3).
Proof.
  intros Hns H2 H3. unfold download_video.
  rewrite (bind_Return (print _) _ t tt _ eq_refl). unfold methods.
  rewrite <- app_one in H2, H3.
  erewrite bind_Return.
  2:{ rewrite (try_methods_failure ns _ _ _ _ _ _ _ _ Hns H2).
      rewrite (try_methods_success ns _ _ _ _ _ _ _ _ H3). reflexivity. }
  reflexivity.
Qed.

Lemma failure_then_success_witness :
  fst (download_video with_logger first_backend_down standard_url [])
  = Return happy_response.
Proof.
  erewrite (failure_then_success_returns_second with_logger
              first_backend_down standard_url []
              (HTTPException 503
                 "musicaldown.com initial request failed with status 503")
              _ happy_response _ eq_refl).
  - reflexivity.
  - vm_compute. reflexivity.
  - vm_compute. reflexivity.
Defined.

(** With [logger] bound, an ASCII URL that matches the content pattern with
    the type [photo], holds no handle, and holds a run of fifteen or more
    digits after a [/] or a [=], is extracted through the alternative
    pattern as a video of the placeholder handle; the check of the adapters
    lets that content type through. *)
Theorem photo_without_handle_extracted_as_video
    ns w url t final t1 photo_id video_id :
  name_bound ns "logger" = true ->
  follow_redirect ns w url
    (t ++ [Stdout ("Extracting video ID from URL: " ++ url)])%list
  = (Return final, t1) ->
  is_ascii final = true ->
  Re.content_type_pattern final = Some ("photo", photo_id) ->
  Re.username_pattern final = None ->
  Re.alt_video_id_pattern final = Some video_id ->
  fst (extract_video_id ns w url t) = Return ("@user", video_id, "video") /\
  forall t', only_videos ns "video" t' = (Return tt, t').
Proof.
  intros Hns Hr _ _ Hu Ha. split; [|reflexivity].
  rewrite (extract_video_id_resolved _ _ _ _ _ _ Hr).
  rewrite (match_patterns_alternative ns final t1 video_id Hns
             (or_introl Hu) Ha).
  now rewrite Hu.
Qed.

Lemma photo_without_handle_witness :
  fst (extract_video_id with_logger offline bare_photo_url [])
  = Return ("@user", "7123456789012345678", "video").
Proof.
  refine (proj1 (photo_without_handle_extracted_as_video with_logger offline
                   bare_photo_url [] bare_photo_url _ "7123456789012345678"
                   "7123456789012345678" eq_refl _ eq_refl eq_refl eq_refl
                   eq_refl)).
  reflexivity.
Defined.

(** ** The trace only grows *)

Lemma appends_ret {A : Type} (a : A) : appends (ret a).
Proof. intros t r t' H. inversion H. exists []. now rewrite app_nil_r. Qed.

Lemma appends_raise {A : Type} (e : exn) : appends (@raise A e).
Proof. intros t r t' H. inversion H. exists []. now rewrite app_nil_r. Qed.

Lemma appends_print line : appends (print line).
Proof. intros t r t' H. inversion H. now eexists. Qed.

Lemma appends_logger ns lvl msg : appends (logger ns lvl msg).
Proof.
  intros t r t' H. destruct (logger_cases ns lvl msg t) as [E|E];
    rewrite E in H; inversion H.
  - now eexists.
  - exists []. now rewrite app_nil_r.
Qed.

Lemma appends_bind {A B : Type} (m : M A) (k : A -> M B) :
  appends m -> (forall a, appends (k a)) -> appends (bind m k).
Proof.
  intros Hm Hk t r t' H. unfold bind in H.
  destruct (m t) as [[a|e] t1] eqn:E; destruct (Hm _ _ _ E) as [l1 ->].
  - destruct (Hk a _ _ _ H) as [l2 ->]. exists (l1 ++ l2)%list.
    now rewrite app_assoc.
  - inversion H; subst. now exists l1.
Qed.

Lemma appends_try_except {A : Type} (body : M A) (h : exn -> M A) :
  appends body -> (forall e, appends (h e)) -> appends (try_except body h).
Proof.
  intros Hb Hh t r t' H. unfold try_except in H.
  destruct (body t) as [[a|e] t1] eqn:E; destruct (Hb _ _ _ E) as [l1 ->].
  - inversion H; subst. now exists l1.
  - destruct (Hh e _ _ _ H) as [l2 ->]. exists (l1 ++ l2)%list.
    now rewrite app_assoc.
Qed.

Lemma appends_s_get w u : appends (s_get w u).
Proof.
  intros t r t' H. unfold s_get in H.
  destruct (session_get w t u); inversion H; now eexists.
Qed.

Lemma appends_s_post w u data : appends (s_post w u data).
Proof.
  intros t r t' H. unfold s_post in H.
  destruct (session_post w t u data); inversion H; now eexists.
Qed.

Lemma appends_content_ r : appends (content_ r).
Proof.
  unfold content_. destruct (r_content r);
    [apply appends_raise|apply appends_ret].
Qed.

Lemma appends_json_ r : appends (json_ r).
Proof.
  unfold json_. destruct (r_json r); [apply appends_raise|apply appends_ret].
Qed.

Lemma appends_json_get j key : appends (json_get j key).
Proof.
  unfold json_get. destruct j; first [apply appends_raise|apply appends_ret].
Qed.

Lemma appends_Selector_of_json w v : appends (Selector_of_json w v).
Proof.
  unfold Selector_of_json.
  destruct v; first [apply appends_raise|apply appends_ret].
Qed.

Lemma appends_if {A : Type} (c : bool) (m1 m2 : M A) :
  appends m1 -> appends m2 -> appends (if c then m1 else m2).
Proof. now destruct c. Qed.

Lemma appends_only_videos ns content_type :
  appends (only_videos ns content_type).
Proof.
  unfold only_videos. apply appends_if; [|apply appends_ret].
  apply appends_bind; [apply appends_logger|intros _]. apply appends_raise.
Qed.

Lemma appends_check_video_content ns response :
  appends (check_video_content ns response).
Proof.
  unfold check_video_content. cbv zeta.
  apply appends_bind.
  - apply appends_if; [|apply appends_ret].
    apply appends_bind; [apply appends_logger|intros _]. apply appends_logger.
  - intros _. apply appends_bind; [apply appends_logger|intros _].
    apply appends_ret.
Qed.

Lemma appends_adapter_handler ns w v e : appends (adapter_handler ns w v e).
Proof.
  unfold adapter_handler.
  destruct e;
    repeat first
      [ apply appends_raise | apply appends_logger
      | apply appends_bind; [|intros _] ].
Qed.

Lemma appends_css_ w q doc : appends (css_ w q doc).
Proof.
  unfold css_. destruct (css w q doc); [apply appends_raise|apply appends_ret].
Qed.

Lemma appends_xpath_ w q doc : appends (xpath_ w q doc).
Proof.
  unfold xpath_.
  destruct (xpath w q doc); [apply appends_raise|apply appends_ret].
Qed.

Lemma appends_v1_find_link ns w doc : appends (v1_find_link ns w doc).
Proof.
  unfold v1_find_link.
  apply appends_bind; [apply appends_css_|intros [|link more]];
    repeat first
      [ apply appends_raise | apply appends_ret | apply appends_logger
      | apply appends_bind; [|intros _] ].
Qed.

Lemma appends_try_selectors ns w doc paths download_link :
  appends (try_selectors ns w doc paths download_link).
Proof.
  revert download_link.
  induction paths as [|p paths IH]; intros download_link; simpl.
  - apply appends_ret.
  - apply appends_bind; [apply appends_xpath_|intros found]. cbv zeta.
    apply appends_if; [|apply IH].
    apply appends_bind; [apply appends_logger|intros _]. apply appends_ret.
Qed.

Lemma appends_v2_find_link ns w doc : appends (v2_find_link ns w doc).
Proof.
  unfold v2_find_link.
  apply appends_bind; [apply appends_try_selectors|intros v].
  apply appends_bind; [|intros _; apply appends_ret].
  apply appends_if; [|apply appends_ret].
  repeat first
    [ apply appends_raise | apply appends_logger
    | apply appends_bind; [|intros _] ].
Qed.

Lemma appends_v3_find_link ns w doc : appends (v3_find_link ns w doc).
Proof.
  unfold v3_find_link.
  apply appends_bind; [apply appends_css_|intros found].
  apply appends_bind.
  - destruct found as [|link more]; [|apply appends_ret].
    apply appends_bind; [apply appends_logger|intros _].
    apply appends_bind; [apply appends_css_|intros [|link more]];
      [|apply appends_ret].
    repeat first
      [ apply appends_raise | apply appends_logger
      | apply appends_bind; [|intros _] ].
  - intros links. cbv zeta.
    apply appends_bind; [apply appends_logger|intros _]. apply appends_ret.
Qed.

(** ** The first request of the handshake *)

Lemma handshake_started ns w v url t handle video_id t1 msg landing r t'
    (k : string -> Response -> M StreamingResponse) :
  name_bound ns "logger" = true ->
  (forall video_id response, appends (k video_id response)) ->
  extract_video_id ns w url t = (Return (handle, video_id, "video"), t1) ->
  try_except
    ('(_, video_id, content_type) <- extract_video_id ns w url ;;
     only_videos ns content_type ;;
     logger ns DEBUG msg ;;
     response <- s_get w landing ;;
     k video_id response)
    (adapter_handler ns w v) t = (r, t') ->
  exists l, t' = (t1 ++ Log DEBUG msg :: SessionGet landing :: l)%list.
Proof.
  intros Hns Hk He H.
  assert (Hbody : forall r0 t0,
             (only_videos ns "video" ;;
              logger ns DEBUG msg ;;
              response <- s_get w landing ;; k video_id response) t1
             = (r0, t0) ->
             exists l, t0 = (t1 ++ Log DEBUG msg :: SessionGet landing :: l)%list).
  { intros r0 t0 E. unfold bind at 1 in E. simpl in E.
    unfold bind at 1 in E. rewrite (logger_bound ns _ _ _ Hns) in E.
    unfold bind, s_get in E.
    destruct (session_get w (t1 ++ [Log DEBUG msg])%list landing) as [m|resp].
    - inversion E; subst. exists []. now rewrite app_one.
    - destruct (Hk _ _ _ _ _ E) as [l ->]. exists l.
      now rewrite !app_one. }
  apply try_except_inv in H as [(a & H & _)|(e & t0 & H & Hh)].
  - rewrite (bind_Return _ _ _ _ _ He) in H. exact (Hbody _ _ H).
  - rewrite (bind_Return _ _ _ _ _ He) in H.
    destruct (Hbody _ _ H) as [l ->].
    destruct (appends_adapter_handler ns w v e _ _ _ Hh) as [l' ->].
    exists (l ++ l')%list.
    now rewrite <- app_assoc.
Qed.

(** With [logger] bound, an adapter that extracted the content type
    [video] goes on to the handshake: the next events of its trace are the
    debug record and the GET of the landing page of its backend. *)
Theorem video_content_starts_the_handshake
    ns w url t handle video_id t1 r t' :
  name_bound ns "logger" = true ->
  (extract_video_id ns w url
     (t ++ [Stdout ("Starting v1 download method for URL: " ++ url)])%list
   = (Return (handle, video_id, "video"), t1) ->
   download_v1 ns w url t = (r, t') ->
   exists l, t' = (t1 ++ Log DEBUG "Making initial request to tmate.cc"
                      :: SessionGet "https://tmate.cc/" :: l)%list) /\
  (extract_video_id ns w url
     (t ++ [Stdout ("Starting v2 download method for URL: " ++ url)])%list
   = (Return (handle, video_id, "video"), t1) ->
   download_v2 ns w url t = (r, t') ->
   exists l, t' = (t1 ++ Log DEBUG "Making initial request to musicaldown.com"
                      :: SessionGet "https://musicaldown.com/en" :: l)%list) /\
  (extract_video_id ns w url
     (t ++ [Stdout ("Starting v3 download method for URL: " ++ url)])%list
   = (Return (handle, video_id, "video"), t1) ->
   download_v3 ns w url t = (r, t') ->
   exists l, t' = (t1 ++ Log DEBUG "Making initial request to tiktokio.com"
                      :: SessionGet "https://tiktokio.com/" :: l)%list).
Proof.
  intros Hns. split; [|split]; intros He H.
  - unfold download_v1 in H.
    rewrite (bind_Return (print _) _ t tt _ eq_refl) in H.
    eapply handshake_started; [exact Hns| |exact He|exact H].
    intros vid response. cbv beta.
    repeat match goal with
      | |- appends (bind _ _) => apply appends_bind; [|intro]
      | |- appends (try_except _ _) => apply appends_try_except; [|intro]
      | |- appends (if _ then _ else _) => apply appends_if
      | |- appends (ret _) => apply appends_ret
      | |- appends (raise _) => apply appends_raise
      | |- appends (print _) => apply appends_print
      | |- appends (logger _ _ _) => apply appends_logger
      | |- appends (s_get _ _) => apply appends_s_get
      | |- appends (s_post _ _ _) => apply appends_s_post
      | |- appends (content_ _) => apply appends_content_
      | |- appends (css_ _ _ _) => apply appends_css_
      | |- appends (xpath_ _ _ _) => apply appends_xpath_
      | |- appends (json_ _) => apply appends_json_
      | |- appends (json_get _ _) => apply appends_json_get
      | |- appends (Selector_of_json _ _) => apply appends_Selector_of_json
      | |- appends (check_video_content _ _) => apply appends_check_video_content
      | |- appends (v1_find_link _ _ _) => apply appends_v1_find_link
      | |- appends _ => progress cbv zeta
      end.
  - unfold download_v2 in H.
    rewrite (bind_Return (print _) _ t tt _ eq_refl) in H.
    eapply handshake_started; [exact Hns| |exact He|exact H].
    intros vid response. cbv beta.
    repeat match goal with
      | |- appends (bind _ _) => apply appends_bind; [|intro]
      | |- appends (if _ then _ else _) => apply appends_if
      | |- appends (ret _) => apply appends_ret
      | |- appends (raise _) => apply appends_raise
      | |- appends (print _) => apply appends_print
      | |- appends (logger _ _ _) => apply appends_logger
      | |- appends (s_get _ _) => apply appends_s_get
      | |- appends (s_post _ _ _) => apply appends_s_post
      | |- appends (content_ _) => apply appends_content_
      | |- appends (css_ _ _ _) => apply appends_css_
      | |- appends (xpath_ _ _ _) => apply appends_xpath_
      | |- appends (check_video_content _ _) => apply appends_check_video_content
      | |- appends (v2_find_link _ _ _) => apply appends_v2_find_link
      | |- appends _ => progress cbv zeta
      end.
  - unfold download_v3 in H.
    rewrite (bind_Return (print _) _ t tt _ eq_refl) in H.
    eapply handshake_started; [exact Hns| |exact He|exact H].
    intros vid response. cbv beta.
    repeat match goal with
      | |- appends (bind _ _) => apply appends_bind; [|intro]
      | |- appends (if _ then _ else _) => apply appends_if
      | |- appends (ret _) => apply appends_ret
      | |- appends (raise _) => apply appends_raise
      | |- appends (print _) => apply appends_print
      | |- appends (logger _ _ _) => apply appends_logger
      | |- appends (s_get _ _) => apply appends_s_get
      | |- appends (s_post _ _ _) => apply appends_s_post
      | |- appends (content_ _) => apply appends_content_
      | |- appends (css_ _ _ _) => apply appends_css_
      | |- appends (xpath_ _ _ _) => apply appends_xpath_
      | |- appends (check_video_content _ _) => apply appends_check_video_content
      | |- appends (v3_find_link _ _ _) => apply appends_v3_find_link
      | |- appends _ => progress cbv zeta
      end.
Qed.

Lemma video_content_handshake_witness :
  exists l,
    snd (download_v1 with_logger offline bare_photo_url [])
    = ([ Stdout ("Starting v1 download method for URL: " ++ bare_photo_url);
         Stdout ("Extracting video ID from URL: " ++ bare_photo_url);
         Log WARNING "Standard pattern failed, trying alternative patterns...";
         Stdout "Found video ID using alternative pattern: 7123456789012345678";
         Log WARNING "Couldn't extract username, using placeholder: @user" ]
       ++ Log DEBUG "Making initial request to tmate.cc"
          :: SessionGet "https://tmate.cc/" :: l)%list.
Proof.
  refine (proj1 (video_content_starts_the_handshake with_logger offline
                   bare_photo_url [] "@user" "7123456789012345678" _
                   (fst (download_v1 with_logger offline bare_photo_url []))
                   _ eq_refl) _ _).
  - vm_compute. reflexivity.
  - apply surjective_pairing.
Defined.

(** ** The shape of what extraction returns *)

Lemma search_hit_somewhere {A : Type} (m : string -> option A) s a :
  Re.search m s = Some a -> exists n, m (skip n s) = Some a.
Proof. intros H. apply search_Some in H as (n & _ & H & _). now exists n. Qed.

Lemma username_at_inv s u :
  Re.username_at s = Some u -> well_formed_handle u.
Proof.
  unfold Re.username_at. destruct s as [|c rest]; [discriminate|].
  destruct c as [[] [] [] [] [] [] [] []]; try discriminate.
  destruct (fst (span Re.is_handle_char rest)) as [|x h] eqn:E;
    [discriminate|].
  intros H. inversion H; subst u. exists (String x h).
  split; [reflexivity|]. split; [discriminate|].
  rewrite <- E. apply span_fst_all.
Qed.

Lemma content_type_at_inv s content_type video_id :
  Re.content_type_at s = Some (content_type, video_id) ->
  (content_type = "video" \/ content_type = "photo") /\
  well_formed_id video_id.
Proof.
  unfold Re.content_type_at.
  destruct (prefix "/video/" s);
    [|destruct (prefix "/photo/" s); [|discriminate]];
    (destruct (fst (span Re.is_digit (skip 7 s))) as [|x d] eqn:E;
     [discriminate|]);
    intros H; inversion H; subst;
    (split; [auto|]); (split; [discriminate|]);
    rewrite <- E; apply span_fst_all.
Qed.

Lemma alt_video_id_at_inv s video_id :
  Re.alt_video_id_at s = Some video_id ->
  well_formed_id video_id /\ 15 <= String.length video_id.
Proof.
  unfold Re.alt_video_id_at. destruct s as [|c rest]; [discriminate|].
  destruct (Re.is_sep c); [|discriminate].
  destruct (15 <=? String.length (fst (span Re.is_digit rest)))%nat eqn:E;
    [|discriminate].
  intros H. inversion H; subst. apply Nat.leb_le in E.
  split; [split|exact E].
  - intros Z. rewrite Z in E. simpl in E. lia.
  - apply span_fst_all.
Qed.

Lemma placeholder_is_well_formed : well_formed_handle "@user".
Proof. exists "user". repeat split. discriminate. Qed.

(** Whatever [extract_video_id] returns for a URL that is ASCII once its
    short link is resolved is a well-formed reference: the handle is [@]
    followed by a non-empty run of [[A-Za-z0-9_.]], the identifier is a
    non-empty run of the digits [0-9], and the content type is [video] or
    [photo].  This holds for every namespace and every world. *)
Theorem extracted_reference_is_well_formed
    ns w url t final t1 handle video_id content_type t' :
  follow_redirect ns w url
    (t ++ [Stdout ("Extracting video ID from URL: " ++ url)])%list
  = (Return final, t1) ->
  is_ascii final = true ->
  extract_video_id ns w url t
  = (Return (handle, video_id, content_type), t') ->
  well_formed_handle handle /\ well_formed_id video_id /\
  (content_type = "video" \/ content_type = "photo").
Proof.
  intros Hr _ H. rewrite (extract_video_id_resolved _ _ _ _ _ _ Hr) in H.
  apply match_patterns_Return in H
    as [[Hu Hc]|(_ & Ha & -> & [Hu|[_ ->]])].
  - apply search_hit_somewhere in Hu as [n Hu].
    apply search_hit_somewhere in Hc as [k Hc].
    apply username_at_inv in Hu. apply content_type_at_inv in Hc as [Hc Hi].
    auto.
  - apply search_hit_somewhere in Hu as [n Hu].
    apply search_hit_somewhere in Ha as [k Ha].
    apply username_at_inv in Hu. apply alt_video_id_at_inv in Ha as [Hi _].
    auto.
  - apply search_hit_somewhere in Ha as [k Ha].
    apply alt_video_id_at_inv in Ha as [Hi _].
    split; [apply placeholder_is_well_formed|auto].
Qed.

Lemma extracted_reference_witness :
  well_formed_handle "@user" /\ well_formed_id "7123456789012345678" /\
  ("video" = "video" \/ "video" = "photo").
Proof.
  refine (extracted_reference_is_well_formed with_logger offline
            query_id_url [] query_id_url _ "@user" "7123456789012345678"
            "video"
            (snd (extract_video_id with_logger offline query_id_url []))
            eq_refl eq_refl _).
  vm_compute. reflexivity.
Defined.

(** ** When extraction succeeds and how it fails *)

Lemma match_patterns_outcome ns url t :
  name_bound ns "logger" = true ->
  fst (match_patterns ns url t)
  = match Re.username_pattern url, Re.content_type_pattern url,
          Re.alt_video_id_pattern url with
    | Some u, Some (ct, id), _ => Return (u, id, ct)
    | Some u, None, Some alt => Return (u, alt, "video")
    | None, _, Some alt => Return ("@user", alt, "video")
    | None, _, None =>
        Raise (HTTPException 400 "Could not extract username from URL")
    | Some u, None, None =>
        Raise (HTTPException 400 "Could not extract video ID from URL")
    end.
Proof.
  intros Hns.
  destruct (Re.username_pattern url) as [u|] eqn:Hu;
    destruct (Re.content_type_pattern url) as [[ct id]|] eqn:Hc;
    destruct (Re.alt_video_id_pattern url) as [alt|] eqn:Ha.
  - now rewrite (match_patterns_standard ns url t u ct id Hu Hc).
  - now rewrite (match_patterns_standard ns url t u ct id Hu Hc).
  - rewrite (match_patterns_alternative ns url t alt Hns (or_intror Hc) Ha).
    now rewrite Hu.
  - now rewrite (match_patterns_no_video_id ns url t u Hns Hu Hc Ha).
  - rewrite (match_patterns_alternative ns url t alt Hns (or_introl Hu) Ha).
    now rewrite Hu.
  - now rewrite (match_patterns_no_username ns url t Hns Hu Ha).
  - rewrite (match_patterns_alternative ns url t alt Hns (or_introl Hu) Ha).
    now rewrite Hu.
  - now rewrite (match_patterns_no_username ns url t Hns Hu Ha).
Qed.

(** With [logger] bound and the short link, if any, resolved to an ASCII
    address [final]:
    extraction succeeds exactly when both standard patterns match [final]
    or the alternative pattern does; it fails with "Could not extract
    username from URL" exactly when neither the handle pattern nor the
    alternative pattern matches, and with "Could not extract video ID from
    URL" exactly when the handle pattern matches and neither the content
    pattern nor the alternative pattern does. *)
Theorem extraction_succeeds_or_names_what_is_missing ns w url t final t1 :
  name_bound ns "logger" = true ->
  follow_redirect ns w url
    (t ++ [Stdout ("Extracting video ID from URL: " ++ url)])%list
  = (Return final, t1) ->
  is_ascii final = true ->
  ((exists reference, fst (extract_video_id ns w url t) = Return reference) <->
   (Re.username_pattern final <> None /\
    Re.content_type_pattern final <> None) \/
   Re.alt_video_id_pattern final <> None) /\
  (fst (extract_video_id ns w url t)
   = Raise (HTTPException 400 "Could not extract username from URL") <->
   Re.username_pattern final = None /\
   Re.alt_video_id_pattern final = None) /\
  (fst (extract_video_id ns w url t)
   = Raise (HTTPException 400 "Could not extract video ID from URL") <->
   Re.username_pattern final <> None /\
   Re.content_type_pattern final = None /\
   Re.alt_video_id_pattern final = None).
Proof.
  intros Hns Hr _. rewrite (extract_video_id_resolved _ _ _ _ _ _ Hr).
  rewrite (match_patterns_outcome ns final t1 Hns).
  destruct (Re.username_pattern final) as [u|];
    destruct (Re.content_type_pattern final) as [[ct id]|];
    destruct (Re.alt_video_id_pattern final) as [alt|];
    (split; [|split]); split;
    try (intros [x H]; discriminate H);
    try (intros H; discriminate H);
    try (intros _; eexists; reflexivity);
    try (intros [[H1 H2]|H]; congruence);
    try (intros [H1 H2]; congruence);
    try (intros (H1 & H2 & H3); congruence);
    try (intros _; left; split; discriminate);
    try (intros _; right; discriminate);
    try (intros _; repeat split; try discriminate; reflexivity);
    try reflexivity.
Qed.

Lemma extraction_names_what_is_missing_witness :
  fst (extract_video_id with_logger offline
         "https://www.tiktok.com/@someuser/live" [])
  = Raise (HTTPException 400 "Could not extract video ID from URL").
Proof.
  apply (proj2 (proj2 (extraction_succeeds_or_names_what_is_missing
                         with_logger offline
                         "https://www.tiktok.com/@someuser/live" []
                         "https://www.tiktok.com/@someuser/live"
                         _ eq_refl eq_refl eq_refl))).
  repeat split. discriminate.
Defined.

(** ** Short links *)

Lemma match_patterns_result_ignores_trace ns url t t' :
  fst (match_patterns ns url t) = fst (match_patterns ns url t').
Proof.
  unfold match_patterns, logger, bind, ret, raise, print, emit.
  destruct (name_bound ns "logger");
    destruct (Re.username_pattern url) as [u|];
    destruct (Re.content_type_pattern url) as [[ct id]|];
    destruct (Re.alt_video_id_pattern url) as [alt|]; reflexivity.
Qed.

Lemma follow_redirect_failure ns w url t msg :
  name_bound ns "logger" = true ->
  contains "vm.tiktok.com" url || contains "vt.tiktok.com" url = true ->
  requests_get w
    (t ++ [Stdout "Detected shortened URL, following redirect..."])%list url
  = inl msg ->
  follow_redirect ns w url t
  = (Raise (HTTPException 400 ("Failed to follow redirect: " ++ msg)),
     (t ++ [ Stdout "Detected shortened URL, following redirect...";
             RequestsGet url;
             Log ERROR ("Error following redirect: " ++ msg) ])%list).
Proof.
  intros Hns Hs Hg. unfold follow_redirect. rewrite Hs.
  unfold bind, print, emit, try_except, requests_get_, raise. rewrite Hg.
  simpl. rewrite (logger_bound ns _ _ _ Hns). now rewrite !app_one.
Qed.

Lemma follow_redirect_success ns w url t response :
  contains "vm.tiktok.com" url || contains "vt.tiktok.com" url = true ->
  requests_get w
    (t ++ [Stdout "Detected shortened URL, following redirect..."])%list url
  = inr response ->
  follow_redirect ns w url t
  = (Return (r_url response),
     (t ++ [ Stdout "Detected shortened URL, following redirect...";
             RequestsGet url;
             Stdout ("Redirected to: " ++ r_url response) ])%list).
Proof.
  intros Hs Hg. unfold follow_redirect. rewrite Hs.
  unfold bind, print, emit, try_except, requests_get_, ret. rewrite Hg.
  simpl. now rewrite !app_one.
Qed.

(** A URL that contains [vm.tiktok.com] or [vt.tiktok.com] is requested
    once.  When the request raises (with [logger] bound), extraction fails
    with HTTP 400, "Failed to follow redirect: " and the text of the
    exception, and no pattern is tried.  When it answers, extraction gives
    what it gives for the final address of the answer, in any world,
    provided that address is no short link itself; the short link's own
    text plays no part. *)
Theorem short_link_is_resolved_or_rejected ns w url t :
  contains "vm.tiktok.com" url || contains "vt.tiktok.com" url = true ->
  (forall msg,
      name_bound ns "logger" = true ->
      requests_get w
        (t ++ [ Stdout ("Extracting video ID from URL: " ++ url);
                Stdout "Detected shortened URL, following redirect..." ])%list
        url = inl msg ->
      extract_video_id ns w url t
      = (Raise (HTTPException 400 ("Failed to follow redirect: " ++ msg)),
         (t ++ [ Stdout ("Extracting video ID from URL: " ++ url);
                 Stdout "Detected shortened URL, following redirect...";
                 RequestsGet url;
                 Log ERROR ("Error following redirect: " ++ msg) ])%list)) /\
  (forall response w' t',
      requests_get w
        (t ++ [ Stdout ("Extracting video ID from URL: " ++ url);
                Stdout "Detected shortened URL, following redirect..." ])%list
        url = inr response ->
      contains "vm.tiktok.com" (r_url response)
      || contains "vt.tiktok.com" (r_url response) = false ->
      fst (extract_video_id ns w url t)
      = fst (extract_video_id ns w' (r_url response) t')).
Proof.
  intros Hs. split.
  - intros msg Hns Hg. rewrite <- app_one in Hg.
    unfold extract_video_id.
    rewrite (bind_Return (print _) _ t tt _ eq_refl).
    rewrite (bind_Raise _ _ _ _ _ (follow_redirect_failure ns w url _ msg
                                     Hns Hs Hg)).
    now rewrite !app_one.
  - intros response w' t' Hg Hf. rewrite <- app_one in Hg.
    rewrite (extract_video_id_resolved ns w url t _ _
               (follow_redirect_success ns w url _ response Hs Hg)).
    rewrite (extract_video_id_plain ns w' (r_url response) t' Hf).
    apply match_patterns_result_ignores_trace.
Qed.

Lemma short_link_witness :
  fst (extract_video_id with_logger offline short_url [])
  = Raise (HTTPException 400 "Failed to follow redirect: Connection refused")
  /\
  fst (extract_video_id with_logger (redirecting standard_url) short_url [])
  = fst (extract_video_id with_logger offline standard_url []).
Proof.
  split.
  - exact (f_equal fst
             (proj1 (short_link_is_resolved_or_rejected with_logger offline
                       short_url [] eq_refl)
                "Connection refused" eq_refl eq_refl)).
  - exact (proj2 (short_link_is_resolved_or_rejected with_logger
                    (redirecting standard_url) short_url [] eq_refl)
             (page 200 standard_url "<html></html>") offline []
             eq_refl eq_refl).
Defined.

(** ** Which events a function can add *)

Lemma emits_ret {A : Type} (P : event -> Prop) (a : A) : emits P (ret a).
Proof.
  intros t r t' H. inversion H. exists []. split; [|constructor].
  now rewrite app_nil_r.
Qed.

Lemma emits_raise {A : Type} (P : event -> Prop) (e : exn) :
  emits P (@raise A e).
Proof.
  intros t r t' H. inversion H. exists []. split; [|constructor].
  now rewrite app_nil_r.
Qed.

(** A computation that stops where it starts adds nothing. *)
Lemma emits_nothing {A : Type} (P : event -> Prop) (m : M A) (r : result A) :
  (forall t, m t = (r, t)) -> emits P m.
Proof.
  intros Hm t r' t' H. rewrite Hm in H. inversion H. exists [].
  split; [|constructor]. now rewrite app_nil_r.
Qed.

Lemma emits_print (P : event -> Prop) line :
  P (Stdout line) -> emits P (print line).
Proof.
  intros HP t r t' H. inversion H. exists [Stdout line].
  split; [reflexivity|]. now constructor.
Qed.

Lemma emits_logger (P : event -> Prop) ns lvl msg :
  (name_bound ns "logger" = true -> P (Log lvl msg)) ->
  emits P (logger ns lvl msg).
Proof.
  intros HP t r t' H. unfold logger in H.
  destruct (name_bound ns "logger"); inversion H.
  - exists [Log lvl msg]. split; [reflexivity|]. constructor; [auto|constructor].
  - exists []. split; [|constructor]. now rewrite app_nil_r.
Qed.

Lemma emits_bind {A B : Type} (P : event -> Prop) (m : M A) (k : A -> M B) :
  emits P m -> (forall a, emits P (k a)) -> emits P (bind m k).
Proof.
  intros Hm Hk t r t' H. unfold bind in H.
  destruct (m t) as [[a|e] t1] eqn:E; destruct (Hm _ _ _ E) as (l1 & -> & F1).
  - destruct (Hk a _ _ _ H) as (l2 & -> & F2). exists (l1 ++ l2)%list.
    split; [now rewrite app_assoc|]. apply Forall_app. now split.
  - inversion H; subst. now exists l1.
Qed.

Lemma emits_try_except {A : Type} (P : event -> Prop) (body : M A)
    (h : exn -> M A) :
  emits P body -> (forall e, emits P (h e)) -> emits P (try_except body h).
Proof.
  intros Hb Hh t r t' H. unfold try_except in H.
  destruct (body t) as [[a|e] t1] eqn:E; destruct (Hb _ _ _ E) as (l1 & -> & F1).
  - inversion H; subst. now exists l1.
  - destruct (Hh e _ _ _ H) as (l2 & -> & F2). exists (l1 ++ l2)%list.
    split; [now rewrite app_assoc|]. apply Forall_app. now split.
Qed.

Lemma emits_requests_get_ (P : event -> Prop) w u :
  P (RequestsGet u) -> emits P (requests_get_ w u).
Proof.
  intros HP t r t' H. unfold requests_get_ in H.
  destruct (requests_get w t u); inversion H; exists [RequestsGet u];
    (split; [reflexivity|]); now constructor.
Qed.

Lemma emits_follow_redirect (P : event -> Prop) ns w url :
  (forall line, P (Stdout line)) ->
  (name_bound ns "logger" = true -> forall lvl msg, P (Log lvl msg)) ->
  (contains "vm.tiktok.com" url || contains "vt.tiktok.com" url = true ->
   P (RequestsGet url)) ->
  emits P (follow_redirect ns w url).
Proof.
  intros Ho Hl Hg. unfold follow_redirect.
  destruct (contains "vm.tiktok.com" url || contains "vt.tiktok.com" url);
    [|apply emits_ret].
  apply emits_bind; [apply emits_print, Ho|intros _].
  apply emits_try_except.
  - apply emits_bind; [apply emits_requests_get_; auto|intros r].
    cbv zeta. apply emits_bind; [apply emits_print, Ho|intros _].
    apply emits_ret.
  - intros e. apply emits_bind; [apply emits_logger; auto|intros _].
    apply emits_raise.
Qed.

Lemma emits_match_patterns (P : event -> Prop) ns url :
  (forall line, P (Stdout line)) ->
  (name_bound ns "logger" = true -> forall lvl msg, P (Log lvl msg)) ->
  emits P (match_patterns ns url).
Proof.
  intros Ho Hl. unfold match_patterns. cbv zeta.
  destruct (Re.username_pattern url) as [u|];
    destruct (Re.content_type_pattern url) as [[ct id]|];
    destruct (Re.alt_video_id_pattern url) as [alt|];
    repeat match goal with
      | |- emits _ (bind _ _) => apply emits_bind; [|intros ?]
      | |- emits _ (ret _) => apply emits_ret
      | |- emits _ (raise _) => apply emits_raise
      | |- emits _ (print _) => apply emits_print, Ho
      | |- emits _ (logger _ _ _) => apply emits_logger; auto
      | |- emits _ (match ?x with _ => _ end) => destruct x
      end.
Qed.

Lemma emits_extract_video_id (P : event -> Prop) ns w url :
  (forall line, P (Stdout line)) ->
  (name_bound ns "logger" = true -> forall lvl msg, P (Log lvl msg)) ->
  (contains "vm.tiktok.com" url || contains "vt.tiktok.com" url = true ->
   P (RequestsGet url)) ->
  emits P (extract_video_id ns w url).
Proof.
  intros Ho Hl Hg. unfold extract_video_id.
  apply emits_bind; [apply emits_print, Ho|intros _].
  apply emits_bind; [now apply emits_follow_redirect|intros final].
  now apply emits_match_patterns.
Qed.

(** Extraction prints and logs, and the only request it can issue is the
    GET that resolves the URL it was given, when that URL is a short link:
    for any other URL it issues no request at all.  It never uses a
    session. *)
Theorem extraction_requests_only_the_short_link ns w url :
  emits (fun e => no_request e \/ e = RequestsGet url)
    (extract_video_id ns w url) /\
  (contains "vm.tiktok.com" url || contains "vt.tiktok.com" url = false ->
   emits no_request (extract_video_id ns w url)).
Proof.
  split.
  - apply emits_extract_video_id; intros; simpl; auto.
  - intros Hs. apply emits_extract_video_id; intros; simpl; auto.
    congruence.
Qed.

(** ** The module as it is never reaches a backend *)

Lemma emits_adapter_unbound (P : event -> Prop) ns w v url
    (k : string * string * string -> M StreamingResponse) :
  name_bound ns "logger" = false ->
  (forall line, P (Stdout line)) ->
  (contains "vm.tiktok.com" url || contains "vt.tiktok.com" url = true ->
   P (RequestsGet url)) ->
  (forall x t1, k x t1 = (Raise (NameError "logger"), t1)) ->
  emits P (try_except (x <- extract_video_id ns w url ;; k x)
             (adapter_handler ns w v)).
Proof.
  intros Hns Ho Hg Hk. apply emits_try_except.
  - apply emits_bind.
    + apply emits_extract_video_id; auto. congruence.
    + intros x. apply (emits_nothing P _ (Raise (NameError "logger"))).
      intros t1. apply Hk.
  - intros e. apply (emits_nothing P _ (Raise (NameError "logger"))).
    intros t1. now apply adapter_handler_unbound.
Qed.

Lemma emits_try_methods (P : event -> Prop) ns methods url last_error :
  (forall line, P (Stdout line)) ->
  (name_bound ns "logger" = true -> forall lvl msg, P (Log lvl msg)) ->
  (forall name method, In (name, method) methods -> emits P (method url)) ->
  emits P (try_methods ns methods url last_error).
Proof.
  intros Ho Hl. revert last_error.
  induction methods as [|[name method] methods IH]; intros last_error H; simpl.
  - apply emits_ret.
  - apply emits_bind.
    + apply emits_try_except.
      * apply emits_bind; [apply emits_print, Ho|intros _].
        apply emits_bind; [|intro; apply emits_ret].
        apply (H name). now left.
      * intros e. apply emits_bind; [apply emits_logger; auto|intros _].
        apply emits_ret.
    + intros [response|e]; [apply emits_ret|].
      apply IH. intros n m Hin. apply (H n). now right.
Qed.

Lemma emits_all_failed (P : event -> Prop) ns w url last_error :
  (name_bound ns "logger" = true -> forall lvl msg, P (Log lvl msg)) ->
  emits P (all_failed ns w url last_error).
Proof.
  intros Hl. unfold all_failed.
  apply emits_bind; [apply emits_logger; auto|intros _].
  destruct last_error as [[]|]; cbv zeta;
    repeat match goal with
      | |- emits _ (bind _ _) => apply emits_bind; [|intros _]
      | |- emits _ (raise _) => apply emits_raise
      | |- emits _ (logger _ _ _) => apply emits_logger; auto
      end.
Qed.

(** In the module as it is ([logger] unbound), a request to [/download]
    only prints and, for a short link, resolves it: whatever the URL and
    the world, neither [download_video] nor any adapter sends a request to
    one of the three backends, and nothing is logged. *)
Theorem module_as_is_never_reaches_a_backend w url :
  emits (printed_or_redirect url) (download_v1 module_bindings w url) /\
  emits (printed_or_redirect url) (download_v2 module_bindings w url) /\
  emits (printed_or_redirect url) (download_v3 module_bindings w url) /\
  emits (printed_or_redirect url) (download_video module_bindings w url).
Proof.
  pose proof logger_module_unbound as Hns.
  assert (Ho : forall line, printed_or_redirect url (Stdout line))
    by (intros; exact I).
  assert (Hl : name_bound module_bindings "logger" = true ->
               forall lvl msg, printed_or_redirect url (Log lvl msg))
    by (rewrite Hns; discriminate).
  assert (H1 : emits (printed_or_redirect url) (download_v1 module_bindings w url)).
  { unfold download_v1. apply emits_bind; [apply emits_print, Ho|intros _].
    apply emits_adapter_unbound; auto; [reflexivity|].
    intros [[u video_id] content_type] t1. now apply after_extract_unbound. }
  assert (H2 : emits (printed_or_redirect url) (download_v2 module_bindings w url)).
  { unfold download_v2. apply emits_bind; [apply emits_print, Ho|intros _].
    apply emits_adapter_unbound; auto; [reflexivity|].
    intros [[u video_id] content_type] t1. now apply after_extract_unbound. }
  assert (H3 : emits (printed_or_redirect url) (download_v3 module_bindings w url)).
  { unfold download_v3. apply emits_bind; [apply emits_print, Ho|intros _].
    apply emits_adapter_unbound; auto; [reflexivity|].
    intros [[u video_id] content_type] t1. now apply after_extract_unbound. }
  repeat split; try assumption.
  unfold download_video.
  apply emits_bind; [apply emits_print, Ho|intros _].
  apply emits_bind.
  - apply emits_try_methods; auto. unfold methods. simpl.
    intros name method [H|[H|[H|[]]]]; inversion H; subst; assumption.
  - intros [response|last_error]; [apply emits_ret|].
    now apply emits_all_failed.
Qed.

(** ** The only exception that leaves the endpoint *)

Lemma try_methods_never_raises ns methods url last_error t :
  name_bound ns "logger" = true ->
  exists out t', try_methods ns methods url last_error t = (Return out, t').
Proof.
  intros Hns. revert last_error t.
  induction methods as [|[name method] methods IH]; intros last_error t; simpl.
  - now eexists _, _.
  - unfold bind at 1. unfold try_except. unfold bind at 1.
    unfold print, emit. unfold bind at 1.
    destruct (method url _) as [[response|e] t1].
    + now eexists _, _.
    + unfold bind at 1. rewrite (logger_bound ns _ _ _ Hns). apply IH.
Qed.

Lemma all_failed_raises_HTTPException ns w url last_error t r t' :
  name_bound ns "logger" = true ->
  all_failed ns w url last_error t = (r, t') ->
  exists status_code detail, r = Raise (HTTPException status_code detail).
Proof.
  intros Hns. unfold all_failed, bind, raise.
  destruct last_error as [[]|]; repeat rewrite (logger_bound ns _ _ _ Hns);
    intros H; inversion H; eauto.
Qed.

(** With [logger] bound, the only exception that leaves an adapter or
    [download_video] is an [HTTPException]: a transport error, a JSON or
    selector error, or any other exception inside an adapter is turned
    into one, and so is the exhaustion of the methods. *)
Theorem only_HTTPException_leaves ns w url t e t' :
  name_bound ns "logger" = true ->
  download_v1 ns w url t = (Raise e, t') \/
  download_v2 ns w url t = (Raise e, t') \/
  download_v3 ns w url t = (Raise e, t') \/
  download_video ns w url t = (Raise e, t') ->
  exists status_code detail, e = HTTPException status_code detail.
Proof.
  intros Hns H.
  assert (L : is_HTTPException e = true ->
              exists status_code detail, e = HTTPException status_code detail).
  { destruct e; try discriminate. eauto. }
  destruct H as [H|[H|[H|H]]].
  - apply L. exact (download_v1_raises_HTTPException _ _ _ _ _ _ Hns H).
  - apply L. exact (download_v2_raises_HTTPException _ _ _ _ _ _ Hns H).
  - apply L. exact (download_v3_raises_HTTPException _ _ _ _ _ _ Hns H).
  - unfold download_video in H.
    rewrite (bind_Return (print _) _ t tt _ eq_refl) in H.
    destruct (try_methods_never_raises ns (methods ns w) url None
                (t ++ [Stdout ("Received download request for URL: " ++ url)])%list
                Hns) as (out & t1 & E).
    rewrite (bind_Return _ _ _ _ _ E) in H. destruct out as [response|last].
    + discriminate H.
    + apply (all_failed_raises_HTTPException _ _ _ _ _ _ _ Hns) in H
        as (s & d & H).
      inversion H. eauto.
Qed.

Lemma only_HTTPException_witness :
  exists status_code detail,
    offline_error "v1" = HTTPException status_code detail.
Proof.
  refine (only_HTTPException_leaves with_logger offline standard_url []
            (offline_error "v1")
            (snd (download_video with_logger offline standard_url []))
            eq_refl (or_intror (or_intror (or_intror _)))).
  vm_compute. reflexivity.
Defined.

(** ** Running an adapter step by step, with [logger] bound *)

Lemma adapter_landing_refused ns w v url t handle video_id t1 msg landing
    response (m1 m2 : Response -> string)
    (k : string -> Response -> M StreamingResponse) :
  name_bound ns "logger" = true ->
  extract_video_id ns w url t = (Return (handle, video_id, "video"), t1) ->
  session_get w (t1 ++ [Log DEBUG msg])%list landing = inr response ->
  r_status_code response <> 200%Z ->
  try_except
    ('(_, video_id, content_type) <- extract_video_id ns w url ;;
     only_videos ns content_type ;;
     logger ns DEBUG msg ;;
     response <- s_get w landing ;;
     (if negb (r_status_code response =? 200)%Z then
        logger ns ERROR (m1 response) ;;
        raise (HTTPException (r_status_code response) (m2 response))
      else ret tt) ;;
     k video_id response)
    (adapter_handler ns w v) t
  = (Raise (HTTPException (r_status_code response) (m2 response)),
     (t1 ++ [ Log DEBUG msg; SessionGet landing; Log ERROR (m1 response);
              Log ERROR ("HTTP exception in " ++ v ++ " method: "
                         ++ m2 response) ])%list).
Proof.
  intros Hns He Hg Hs. apply Z.eqb_neq in Hs.
  rewrite (try_except_Raise _ _ t
             (HTTPException (r_status_code response) (m2 response))
             (t1 ++ [Log DEBUG msg; SessionGet landing;
                     Log ERROR (m1 response)])%list).
  - unfold adapter_handler. rewrite (bind_logger ns _ _ _ _ Hns).
    unfold raise. now rewrite <- ?app_assoc.
  - rewrite (bind_Return _ _ _ _ _ He). rewrite bind_only_videos.
    rewrite (bind_logger ns _ _ _ _ Hns).
    rewrite (bind_s_get_answer _ _ _ _ _ Hg). rewrite Hs. simpl negb.
    apply bind_Raise. rewrite (bind_logger ns _ _ _ _ Hns).
    unfold raise. now rewrite <- ?app_assoc.
Qed.

Lemma adapter_landing_unreachable ns w v url t handle video_id t1 msg landing
    text (k : string -> Response -> M StreamingResponse) :
  name_bound ns "logger" = true ->
  extract_video_id ns w url t = (Return (handle, video_id, "video"), t1) ->
  session_get w (t1 ++ [Log DEBUG msg])%list landing = inl text ->
  try_except
    ('(_, video_id, content_type) <- extract_video_id ns w url ;;
     only_videos ns content_type ;;
     logger ns DEBUG msg ;;
     response <- s_get w landing ;;
     k video_id response)
    (adapter_handler ns w v) t
  = (Raise (HTTPException 500
              ("Error downloading video (" ++ v ++ "): " ++ text)),
     (t1 ++ [ Log DEBUG msg; SessionGet landing;
              Log ERROR ("Error in " ++ v ++ " method: " ++ text);
              Log DEBUG ("Traceback: "
                         ++ format_exc w (Some (PyError text))) ])%list).
Proof.
  intros Hns He Hg.
  rewrite (try_except_Raise _ _ t (PyError text)
             (t1 ++ [Log DEBUG msg; SessionGet landing])%list).
  - unfold adapter_handler. rewrite !(bind_logger ns _ _ _ _ Hns).
    unfold raise. now rewrite <- ?app_assoc.
  - rewrite (bind_Return _ _ _ _ _ He). rewrite bind_only_videos.
    rewrite (bind_logger ns _ _ _ _ Hns).
    rewrite (bind_s_get_error _ _ _ _ _ Hg). now rewrite <- ?app_assoc.
Qed.

(** With [logger] bound and a video extracted, the first request of an
    adapter decides as follows.  When the landing page answers with a
    status other than 200, the adapter raises an [HTTPException] with that
    very status and the detail "<backend> initial request failed with
    status <status>".  When the request itself raises, the adapter raises
    HTTP 500, "Error downloading video (<v>): " and the text of the
    exception. *)
Theorem landing_page_failure_is_reported ns w url t handle video_id t1 :
  name_bound ns "logger" = true ->
  (extract_video_id ns w url
     (t ++ [Stdout ("Starting v1 download method for URL: " ++ url)])%list
   = (Return (handle, video_id, "video"), t1) ->
   (forall response,
       session_get w (t1 ++ [Log DEBUG "Making initial request to tmate.cc"])%list
         "https://tmate.cc/" = inr response ->
       r_status_code response <> 200%Z ->
       fst (download_v1 ns w url t)
       = Raise (HTTPException (r_status_code response)
                  ("tmate.cc initial request failed with status "
                   ++ str_of_Z (r_status_code response)))) /\
   (forall text,
       session_get w (t1 ++ [Log DEBUG "Making initial request to tmate.cc"])%list
         "https://tmate.cc/" = inl text ->
       fst (download_v1 ns w url t)
       = Raise (HTTPException 500 ("Error downloading video (v1): " ++ text)))) /\
  (extract_video_id ns w url
     (t ++ [Stdout ("Starting v2 download method for URL: " ++ url)])%list
   = (Return (handle, video_id, "video"), t1) ->
   (forall response,
       session_get w
         (t1 ++ [Log DEBUG "Making initial request to musicaldown.com"])%list
         "https://musicaldown.com/en" = inr response ->
       r_status_code response <> 200%Z ->
       fst (download_v2 ns w url t)
       = Raise (HTTPException (r_status_code response)
                  ("musicaldown.com initial request failed with status "
                   ++ str_of_Z (r_status_code response)))) /\
   (forall text,
       session_get w
         (t1 ++ [Log DEBUG "Making initial request to musicaldown.com"])%list
         "https://musicaldown.com/en" = inl text ->
       fst (download_v2 ns w url t)
       = Raise (HTTPException 500 ("Error downloading video (v2): " ++ text)))) /\
  (extract_video_id ns w url
     (t ++ [Stdout ("Starting v3 download method for URL: " ++ url)])%list
   = (Return (handle, video_id, "video"), t1) ->
   (forall response,
       session_get w
         (t1 ++ [Log DEBUG "Making initial request to tiktokio.com"])%list
         "https://tiktokio.com/" = inr response ->
       r_status_code response <> 200%Z ->
       fst (download_v3 ns w url t)
       = Raise (HTTPException (r_status_code response)
                  ("tiktokio.com initial request failed with status "
                   ++ str_of_Z (r_status_code response)))) /\
   (forall text,
       session_get w
         (t1 ++ [Log DEBUG "Making initial request to tiktokio.com"])%list
         "https://tiktokio.com/" = inl text ->
       fst (download_v3 ns w url t)
       = Raise (HTTPException 500 ("Error downloading video (v3): " ++ text)))).
Proof.
  intros Hns. split; [|split]; intros He; split.
  - intros response Hg Hs. unfold download_v1. rewrite bind_print.
    erewrite (adapter_landing_refused ns w "v1" url _ handle video_id t1 _ _
                response
                (fun r => "Initial request to tmate.cc failed with status code: "
                          ++ str_of_Z (r_status_code r))
                (fun r => "tmate.cc initial request failed with status "
                          ++ str_of_Z (r_status_code r))
                _ Hns He Hg Hs).
    reflexivity.
  - intros text Hg. unfold download_v1. rewrite bind_print.
    erewrite (adapter_landing_unreachable ns w "v1" url _ handle video_id t1
                _ _ text _ Hns He Hg).
    reflexivity.
  - intros response Hg Hs. unfold download_v2. rewrite bind_print.
    erewrite (adapter_landing_refused ns w "v2" url _ handle video_id t1 _ _
                response
                (fun r => "Initial request to musicaldown.com failed with status code: "
                          ++ str_of_Z (r_status_code r))
                (fun r => "musicaldown.com initial request failed with status "
                          ++ str_of_Z (r_status_code r))
                _ Hns He Hg Hs).
    reflexivity.
  - intros text Hg. unfold download_v2. rewrite bind_print.
    erewrite (adapter_landing_unreachable ns w "v2" url _ handle video_id t1
                _ _ text _ Hns He Hg).
    reflexivity.
  - intros response Hg Hs. unfold download_v3. rewrite bind_print.
    erewrite (adapter_landing_refused ns w "v3" url _ handle video_id t1 _ _
                response
                (fun r => "Initial request to tiktokio.com failed with status code: "
                          ++ str_of_Z (r_status_code r))
                (fun r => "tiktokio.com initial request failed with status "
                          ++ str_of_Z (r_status_code r))
                _ Hns He Hg Hs).
    reflexivity.
  - intros text Hg. unfold download_v3. rewrite bind_print.
    erewrite (adapter_landing_unreachable ns w "v3" url _ handle video_id t1
                _ _ text _ Hns He Hg).
    reflexivity.
Qed.

Lemma landing_page_failure_witness :
  fst (download_v2 with_logger blocked standard_url [])
  = Raise (HTTPException 503
             "musicaldown.com initial request failed with status 503") /\
  fst (download_v1 with_logger blocked standard_url [])
  = Raise (HTTPException 500
             "Error downloading video (v1): Connection refused").
Proof.
  split.
  - refine (proj1 (proj1 (proj2 (landing_page_failure_is_reported with_logger
                                   blocked standard_url [] "@someuser"
                                   "7123456789012345678" _ eq_refl))
                     (extract_standard_url _ _ _))
              (page 503 "https://musicaldown.com/en" "Service Unavailable")
              eq_refl _).
    discriminate.
  - exact (proj2 (proj1 (landing_page_failure_is_reported with_logger
                           blocked standard_url [] "@someuser"
                           "7123456789012345678" _ eq_refl)
                    (extract_standard_url _ _ _))
             "Connection refused" eq_refl).
Defined.

(** ** A complete handshake *)

Lemma check_video_content_returns ns response t :
  name_bound ns "logger" = true ->
  exists t',
    check_video_content ns response t
    = (Return (get_or (r_content_length response) "0"), t').
Proof.
  intros Hns. unfold check_video_content. cbv zeta.
  destruct (negb (contains "video" (get_or (r_content_type response) EmptyString))
            && negb (contains "octet-stream"
                       (get_or (r_content_type response) EmptyString))).
  - unfold bind at 1. unfold bind at 1.
    rewrite !(logger_bound ns _ _ _ Hns).
    rewrite (bind_logger ns _ _ _ _ Hns). now eexists.
  - rewrite bind_ret.
    rewrite (bind_logger ns _ _ _ _ Hns). now eexists.
Qed.

Lemma check_video_content_run ns response t :
  name_bound ns "logger" = true ->
  check_video_content ns response t
  = (Return (get_or (r_content_length response) "0"),
     snd (check_video_content ns response t)).
Proof.
  intros Hns. destruct (check_video_content_returns ns response t Hns)
    as (t' & E).
  now rewrite E.
Qed.

Lemma bind_check_video_content {A : Type} ns response (k : string -> M A) t :
  name_bound ns "logger" = true ->
  bind (check_video_content ns response) k t
  = k (get_or (r_content_length response) "0")
      (snd (check_video_content ns response t)).
Proof.
  intros Hns. unfold bind at 1.
  now rewrite (check_video_content_run ns response t Hns) at 1.
Qed.

Lemma adapter_handler_HTTPException ns w v status_code detail t :
  name_bound ns "logger" = true ->
  fst (adapter_handler ns w v (HTTPException status_code detail) t)
  = Raise (HTTPException status_code detail).
Proof.
  intros Hns. unfold adapter_handler. now rewrite (bind_logger ns _ _ _ _ Hns).
Qed.

Lemma adapter_handler_PyError ns w v text t :
  name_bound ns "logger" = true ->
  fst (adapter_handler ns w v (PyError text) t)
  = Raise (HTTPException 500
             ("Error downloading video (" ++ v ++ "): " ++ text)).
Proof.
  intros Hns. unfold adapter_handler.
  now rewrite !(bind_logger ns _ _ _ _ Hns).
Qed.

Lemma bind_fst_Raise {A B : Type} (m : M A) (k : A -> M B) t e :
  fst (m t) = Raise e -> bind m k t = (Raise e, snd (m t)).
Proof.
  intros H. unfold bind. destruct (m t) as [[a|e'] t']; simpl in *; congruence.
Qed.

Lemma bind_css_found {A : Type} w q doc found (k : list string -> M A) t :
  css w q doc = inr found -> bind (css_ w q doc) k t = k found t.
Proof. intros H. now rewrite bind_css_, H. Qed.

Lemma bind_css_refused {A : Type} w q doc msg (k : list string -> M A) t :
  css w q doc = inl msg -> bind (css_ w q doc) k t = (Raise (PyError msg), t).
Proof. intros H. now rewrite bind_css_, H. Qed.

Lemma bind_xpath_found {A : Type} w q doc found (k : list string -> M A) t :
  xpath w q doc = inr found -> bind (xpath_ w q doc) k t = k found t.
Proof. intros H. now rewrite bind_xpath_, H. Qed.

Lemma bind_xpath_refused {A : Type} w q doc msg (k : list string -> M A) t :
  xpath w q doc = inl msg ->
  bind (xpath_ w q doc) k t = (Raise (PyError msg), t).
Proof. intros H. now rewrite bind_xpath_, H. Qed.

Lemma bind_content_ {A : Type} r bytes (k : string -> M A) t :
  r_content r = inr bytes -> bind (content_ r) k t = k bytes t.
Proof. intros H. unfold bind, content_. now rewrite H. Qed.

Lemma bind_content_unreadable {A : Type} r text (k : string -> M A) t :
  r_content r = inl text ->
  bind (content_ r) k t = (Raise (PyError text), t).
Proof. intros H. unfold bind, content_. now rewrite H. Qed.



(** ** The stages of [download_v2] after the landing page *)

(** With [logger] bound, a video extracted and a 200 answer of the landing
    page, [download_v2] fails stage by stage as follows; every answer of
    the backend is taken at the history of the run.  A token query that
    the selector library refuses gives HTTP 500 with the text of its
    exception.  A missing or empty token gives 500 "Could not retrieve
    tokens from musicaldown.com", and the trace shows that nothing was
    posted.  A form request that raises gives 500 with the text of the
    exception; a form answer other than 200 gives that status.  On the
    answer, a link query that the library refuses gives 500 with its text,
    and no candidate finding a link gives 500 "Could not find download
    link".  A media request that raises gives 500 with its text; a media
    answer other than 200 gives that status; a body that cannot be read
    gives 500 with the text of that exception. *)
Theorem download_v2_fails_stage_by_stage
    ns w url t handle video_id t1 landing :
  name_bound ns "logger" = true ->
  extract_video_id ns w url
    (t ++ [Stdout ("Starting v2 download method for URL: " ++ url)])%list
  = (Return (handle, video_id, "video"), t1) ->
  session_get w
    (t1 ++ [Log DEBUG "Making initial request to musicaldown.com"])%list
    "https://musicaldown.com/en" = inr landing ->
  r_status_code landing = 200%Z ->
  (forall msg,
      xpath w v2_token_a_path (r_text landing) = inl msg \/
      (exists found_a,
          xpath w v2_token_a_path (r_text landing) = inr found_a /\
          (xpath w v2_token_b_path (r_text landing) = inl msg \/
           exists found_b,
             xpath w v2_token_b_path (r_text landing) = inr found_b /\
             xpath w v2_token_b_value_path (r_text landing) = inl msg)) ->
      fst (download_v2 ns w url t)
      = Raise (HTTPException 500 ("Error downloading video (v2): " ++ msg))) /\
  (forall found_a found_b found_b_value,
      xpath w v2_token_a_path (r_text landing) = inr found_a ->
      xpath w v2_token_b_path (r_text landing) = inr found_b ->
      xpath w v2_token_b_value_path (r_text landing) = inr found_b_value ->
      (negb (truthy_opt (hd_error found_a))
       || negb (truthy_opt (hd_error found_b))
       || negb (truthy_opt (hd_error found_b_value)) = true ->
       download_v2 ns w url t
       = (Raise (HTTPException 500
                   "Could not retrieve tokens from musicaldown.com"),
          (t1 ++ [ Log DEBUG "Making initial request to musicaldown.com";
                   SessionGet "https://musicaldown.com/en";
                   Log ERROR "Could not retrieve tokens from musicaldown.com";
                   Log DEBUG ("HTML content: "
                              ++ slice_to 500 (r_text landing));
                   Log ERROR "HTTP exception in v2 method: Could not retrieve tokens from musicaldown.com" ])%list)) /\
      (forall token_a token_b token_b_value,
          hd_error found_a = Some token_a ->
          hd_error found_b = Some token_b ->
          hd_error found_b_value = Some token_b_value ->
          truthy token_a = true -> truthy token_b = true ->
          truthy token_b_value = true ->
          let form :=
            py_dict [ (token_a, url); (token_b, token_b_value);
                      ("verify", "1") ] in
          let at_post :=
            (t1 ++ [ Log DEBUG "Making initial request to musicaldown.com";
                     SessionGet "https://musicaldown.com/en";
                     Log DEBUG ("Obtained tokens: " ++ token_a ++ ", "
                                ++ token_b ++ "=" ++ token_b_value);
                     Log DEBUG ("Submitting URL to musicaldown.com: "
                                ++ url) ])%list in
          (forall text,
              session_post w at_post "https://musicaldown.com/download" form
              = inl text ->
              fst (download_v2 ns w url t)
              = Raise (HTTPException 500
                         ("Error downloading video (v2): " ++ text))) /\
          (forall posted,
              session_post w at_post "https://musicaldown.com/download" form
              = inr posted ->
              (r_status_code posted <> 200%Z ->
               fst (download_v2 ns w url t)
               = Raise (HTTPException (r_status_code posted)
                          ("musicaldown.com download request failed with status "
                           ++ str_of_Z (r_status_code posted)))) /\
              (r_status_code posted = 200%Z ->
               (forall msg,
                   first_candidate (xpath_probe w (r_text posted))
                     selectors_to_try = Refused msg ->
                   fst (download_v2 ns w url t)
                   = Raise (HTTPException 500
                              ("Error downloading video (v2): " ++ msg))) /\
               (first_candidate (xpath_probe w (r_text posted))
                  selectors_to_try = NotFound ->
                fst (download_v2 ns w url t)
                = Raise (HTTPException 500 "Could not find download link")) /\
               (forall link t2,
                   v2_find_link ns w (r_text posted)
                     (at_post
                      ++ [SessionPost "https://musicaldown.com/download" form])%list
                   = (Return link, t2) ->
                   let at_media :=
                     (t2 ++ [Log DEBUG ("Downloading video from: "
                                        ++ link)])%list in
                   (forall text,
                       session_get w at_media link = inl text ->
                       fst (download_v2 ns w url t)
                       = Raise (HTTPException 500
                                  ("Error downloading video (v2): " ++ text))) /\
                   (forall media,
                       session_get w at_media link = inr media ->
                       (r_status_code media <> 200%Z ->
                        fst (download_v2 ns w url t)
                        = Raise (HTTPException (r_status_code media)
                                   ("Failed to download video from musicaldown.com with status "
                                    ++ str_of_Z (r_status_code media)))) /\
                       (forall text,
                           r_status_code media = 200%Z ->
                           r_content media = inl text ->
                           fst (download_v2 ns w url t)
                           = Raise (HTTPException 500
                                      ("Error downloading video (v2): "
                                       ++ text))))))))).
Proof.
  intros Hns He Hland Hl200.
  unfold download_v2. rewrite bind_print. rewrite adapter_outcome.
  rewrite (bind_Return _ _ _ _ _ He). rewrite bind_only_videos.
  rewrite (bind_logger ns _ _ _ _ Hns).
  rewrite (bind_s_get_answer _ _ _ _ _ Hland).
  rewrite (bind_guard_passed _ _ _ _ (status_200 _ Hl200)).
  split.
  - intros msg [Ha|(found_a & Ha & [Hb|(found_b & Hb & Hv)])].
    + rewrite (bind_xpath_refused _ _ _ _ _ _ Ha).
      now rewrite (adapter_handler_PyError ns w "v2" _ _ Hns).
    + rewrite (bind_xpath_found _ _ _ _ _ _ Ha). cbv zeta.
      rewrite (bind_xpath_refused _ _ _ _ _ _ Hb).
      now rewrite (adapter_handler_PyError ns w "v2" _ _ Hns).
    + rewrite (bind_xpath_found _ _ _ _ _ _ Ha). cbv zeta.
      rewrite (bind_xpath_found _ _ _ _ _ _ Hb). cbv zeta.
      rewrite (bind_xpath_refused _ _ _ _ _ _ Hv).
      now rewrite (adapter_handler_PyError ns w "v2" _ _ Hns).
  - intros found_a found_b found_b_value Ha Hb Hv.
    rewrite (bind_xpath_found _ _ _ _ _ _ Ha). cbv zeta.
    rewrite (bind_xpath_found _ _ _ _ _ _ Hb). cbv zeta.
    rewrite (bind_xpath_found _ _ _ _ _ _ Hv). cbv zeta.
    split.
    + intros Hmissing. rewrite Hmissing.
      erewrite bind_Raise.
      2:{ unfold bind, raise. repeat rewrite (logger_bound ns _ _ _ Hns).
          reflexivity. }
      unfold adapter_handler. rewrite (bind_logger ns _ _ _ _ Hns).
      unfold raise. now rewrite ?app_one.
    + intros token_a token_b token_b_value Ea Eb Ev Hta Htb Htv.
      rewrite Ea, Eb, Ev.
      cbn [the truthy_opt].
      rewrite bind_guard_passed by (now rewrite Hta, Htb, Htv).
      rewrite !(bind_logger ns _ _ _ _ Hns). rewrite ?app_one. split.
      * intros text Hpost. rewrite (bind_s_post_error _ _ _ _ _ _ Hpost).
        now rewrite (adapter_handler_PyError ns w "v2" _ _ Hns).
      * intros posted Hpost.
        rewrite (bind_s_post_answer _ _ _ _ _ _ Hpost). split.
        -- intros Hs.
           rewrite (bind_guard_failed ns _ _ _ _ _ Hns (status_not_200 _ Hs)).
           now apply adapter_handler_HTTPException.
        -- intros Hp200.
           rewrite (bind_guard_passed _ _ _ _ (status_200 _ Hp200)).
           split; [|split].
           ++ intros msg F.
              rewrite (bind_fst_Raise _ _ _ (PyError msg))
                by (rewrite v2_find_link_first_candidate by exact Hns;
                    now rewrite F).
              now rewrite (adapter_handler_PyError ns w "v2" _ _ Hns).
           ++ intros F.
              rewrite (bind_fst_Raise _ _ _
                         (HTTPException 500 "Could not find download link"))
                by (rewrite v2_find_link_first_candidate by exact Hns;
                    now rewrite F).
              now apply adapter_handler_HTTPException.
           ++ intros link t2 Hlink.
              rewrite (bind_Return _ _ _ _ _ Hlink).
              rewrite (bind_logger ns _ _ _ _ Hns). split.
              ** intros text Hmedia.
                 rewrite (bind_s_get_error _ _ _ _ _ Hmedia).
                 now rewrite (adapter_handler_PyError ns w "v2" _ _ Hns).
              ** intros media Hmedia.
                 rewrite (bind_s_get_answer _ _ _ _ _ Hmedia). split.
                 --- intros Hs.
                     rewrite (bind_guard_failed ns _ _ _ _ _ Hns
                                (status_not_200 _ Hs)).
                     now apply adapter_handler_HTTPException.
                 --- intros text Hm200 Hbody.
                     rewrite (bind_guard_passed _ _ _ _ (status_200 _ Hm200)).
                     rewrite bind_check_video_content by exact Hns.
                     rewrite bind_print.
                     rewrite (bind_content_unreadable _ _ _ _ Hbody).
                     now rewrite (adapter_handler_PyError ns w "v2" _ _ Hns).
Qed.

Lemma download_v2_stage_witness :
  download_v2 with_logger tokens_gone standard_url []
  = (Raise (HTTPException 500 "Could not retrieve tokens from musicaldown.com"),
     [ Stdout ("Starting v2 download method for URL: " ++ standard_url);
       Stdout ("Extracting video ID from URL: " ++ standard_url);
       Stdout "Extracted username: @someuser";
       Stdout "Extracted content type: video, video ID: 7123456789012345678";
       Log DEBUG "Making initial request to musicaldown.com";
       SessionGet "https://musicaldown.com/en";
       Log ERROR "Could not retrieve tokens from musicaldown.com";
       Log DEBUG "HTML content: landing";
       Log ERROR "HTTP exception in v2 method: Could not retrieve tokens from musicaldown.com" ]) /\
  fst (download_v2 with_logger json_pages standard_url [])
  = Raise (HTTPException 500
             "Error downloading video (v2): Cannot use xpath on a Selector of type 'json'").
Proof.
  split.
  - refine (proj1 (proj2 (download_v2_fails_stage_by_stage with_logger
                            tokens_gone standard_url [] "@someuser"
                            "7123456789012345678" _
                            (page 200 "https://musicaldown.com/en" "landing")
                            eq_refl (extract_standard_url _ _ _)
                            eq_refl eq_refl)
                     [] [] [] eq_refl eq_refl eq_refl) eq_refl).
  - refine (proj1 (download_v2_fails_stage_by_stage with_logger
                     json_pages standard_url [] "@someuser"
                     "7123456789012345678" _ json_answer
                     eq_refl (extract_standard_url _ _ _) eq_refl eq_refl)
              _ (or_introl eq_refl)).
Defined.

(** ** The handshake of [download_v3] *)



(** With [logger] bound, a video extracted and a 200 answer of the landing
    page, [download_v3] fails stage by stage as follows; every answer of
    the backend is taken at the history of the run.  A query for the
    [prefix] that the selector library refuses gives HTTP 500 with the
    text of its exception.  A missing or empty [prefix] gives 500 "Could
    not retrieve prefix from tiktokio.com", and the trace shows that
    nothing was posted.  A form request that raises gives 500 with the
    text of the exception; a form answer other than 200 gives that status.
    On the answer, a link query that the library refuses gives 500 with
    its text, and neither candidate finding a link gives 500 "Could not
    find download link".  A media request that raises gives 500 with its
    text; a media answer other than 200 gives that status; a body that
    cannot be read gives 500 with the text of that exception. *)
Theorem download_v3_fails_stage_by_stage
    ns w url t handle video_id t1 landing :
  name_bound ns "logger" = true ->
  extract_video_id ns w url
    (t ++ [Stdout ("Starting v3 download method for URL: " ++ url)])%list
  = (Return (handle, video_id, "video"), t1) ->
  session_get w
    (t1 ++ [Log DEBUG "Making initial request to tiktokio.com"])%list
    "https://tiktokio.com/" = inr landing ->
  r_status_code landing = 200%Z ->
  (forall msg,
      css w v3_prefix_selector (r_text landing) = inl msg ->
      fst (download_v3 ns w url t)
      = Raise (HTTPException 500 ("Error downloading video (v3): " ++ msg))) /\
  (forall found,
      css w v3_prefix_selector (r_text landing) = inr found ->
      (truthy_opt (hd_error found) = false ->
       download_v3 ns w url t
       = (Raise (HTTPException 500
                   "Could not retrieve prefix from tiktokio.com"),
          (t1 ++ [ Log DEBUG "Making initial request to tiktokio.com";
                   SessionGet "https://tiktokio.com/";
                   Log ERROR "Could not retrieve prefix from tiktokio.com";
                   Log DEBUG ("HTML content: "
                              ++ slice_to 500 (r_text landing));
                   Log ERROR "HTTP exception in v3 method: Could not retrieve prefix from tiktokio.com" ])%list)) /\
      (forall prefix,
          hd_error found = Some prefix ->
          truthy prefix = true ->
          let form := py_dict [ ("prefix", prefix); ("vid", url) ] in
          let at_post :=
            (t1 ++ [ Log DEBUG "Making initial request to tiktokio.com";
                     SessionGet "https://tiktokio.com/";
                     Log DEBUG ("Obtained prefix: " ++ prefix);
                     Log DEBUG ("Submitting URL to tiktokio.com API: "
                                ++ url) ])%list in
          (forall text,
              session_post w at_post "https://tiktokio.com/api/v1/tk-htmx" form
              = inl text ->
              fst (download_v3 ns w url t)
              = Raise (HTTPException 500
                         ("Error downloading video (v3): " ++ text))) /\
          (forall posted,
              session_post w at_post "https://tiktokio.com/api/v1/tk-htmx" form
              = inr posted ->
              (r_status_code posted <> 200%Z ->
               fst (download_v3 ns w url t)
               = Raise (HTTPException (r_status_code posted)
                          ("tiktokio.com API request failed with status "
                           ++ str_of_Z (r_status_code posted)))) /\
              (r_status_code posted = 200%Z ->
               (forall msg,
                   first_candidate (css_probe w (r_text posted))
                     [v3_link_selector; v3_alt_link_selector] = Refused msg ->
                   fst (download_v3 ns w url t)
                   = Raise (HTTPException 500
                              ("Error downloading video (v3): " ++ msg))) /\
               (first_candidate (css_probe w (r_text posted))
                  [v3_link_selector; v3_alt_link_selector] = NotFound ->
                fst (download_v3 ns w url t)
                = Raise (HTTPException 500 "Could not find download link")) /\
               (forall link t2,
                   v3_find_link ns w (r_text posted)
                     (at_post
                      ++ [ SessionPost "https://tiktokio.com/api/v1/tk-htmx"
                             form;
                           Log DEBUG ("API response content: "
                                      ++ slice_to 500 (r_text posted)) ])%list
                   = (Return link, t2) ->
                   let at_media :=
                     (t2 ++ [Log DEBUG ("Downloading video from: "
                                        ++ link)])%list in
                   (forall text,
                       session_get w at_media link = inl text ->
                       fst (download_v3 ns w url t)
                       = Raise (HTTPException 500
                                  ("Error downloading video (v3): " ++ text))) /\
                   (forall media,
                       session_get w at_media link = inr media ->
                       (r_status_code media <> 200%Z ->
                        fst (download_v3 ns w url t)
                        = Raise (HTTPException (r_status_code media)
                                   ("Failed to download video from tiktokio.com with status "
                                    ++ str_of_Z (r_status_code media)))) /\
                       (forall text,
                           r_status_code media = 200%Z ->
                           r_content media = inl text ->
                           fst (download_v3 ns w url t)
                           = Raise (HTTPException 500
                                      ("Error downloading video (v3): "
                                       ++ text))))))))).
Proof.
  intros Hns He Hland Hl200.
  unfold download_v3. rewrite bind_print. rewrite adapter_outcome.
  rewrite (bind_Return _ _ _ _ _ He). rewrite bind_only_videos.
  rewrite (bind_logger ns _ _ _ _ Hns).
  rewrite (bind_s_get_answer _ _ _ _ _ Hland).
  rewrite (bind_guard_passed _ _ _ _ (status_200 _ Hl200)).
  split.
  - intros msg Hp. rewrite (bind_css_refused _ _ _ _ _ _ Hp).
    now rewrite (adapter_handler_PyError ns w "v3" _ _ Hns).
  - intros found Hp.
    rewrite (bind_css_found _ _ _ _ _ _ Hp). cbv zeta.
    split.
    + intros Hmissing. rewrite Hmissing. simpl negb.
      erewrite bind_Raise.
      2:{ cbv beta iota. unfold bind, raise.
          repeat rewrite (logger_bound ns _ _ _ Hns). reflexivity. }
      unfold adapter_handler. rewrite (bind_logger ns _ _ _ _ Hns).
      unfold raise. now rewrite ?app_one.
    + intros prefix Ep Htp. rewrite Ep. cbn [the truthy_opt].
      rewrite bind_guard_passed by (now rewrite Htp).
      rewrite !(bind_logger ns _ _ _ _ Hns). rewrite ?app_one. split.
      * intros text Hpost. rewrite (bind_s_post_error _ _ _ _ _ _ Hpost).
        now rewrite (adapter_handler_PyError ns w "v3" _ _ Hns).
      * intros posted Hpost.
        rewrite (bind_s_post_answer _ _ _ _ _ _ Hpost). split.
        -- intros Hs.
           rewrite (bind_guard_failed ns _ _ _ _ _ Hns (status_not_200 _ Hs)).
           now apply adapter_handler_HTTPException.
        -- intros Hp200.
           rewrite (bind_guard_passed _ _ _ _ (status_200 _ Hp200)).
           rewrite (bind_logger ns _ _ _ _ Hns). rewrite ?app_one.
           split; [|split].
           ++ intros msg F.
              rewrite (bind_fst_Raise _ _ _ (PyError msg))
                by (rewrite v3_find_link_first_candidate by exact Hns;
                    now rewrite F).
              now rewrite (adapter_handler_PyError ns w "v3" _ _ Hns).
           ++ intros F.
              rewrite (bind_fst_Raise _ _ _
                         (HTTPException 500 "Could not find download link"))
                by (rewrite v3_find_link_first_candidate by exact Hns;
                    now rewrite F).
              now apply adapter_handler_HTTPException.
           ++ intros link t2 Hlink.
                          rewrite (bind_Return _ _ _ _ _ Hlink).
              rewrite (bind_logger ns _ _ _ _ Hns). split.
              ** intros text Hmedia.
                 rewrite (bind_s_get_error _ _ _ _ _ Hmedia).
                 now rewrite (adapter_handler_PyError ns w "v3" _ _ Hns).
              ** intros media Hmedia.
                 rewrite (bind_s_get_answer _ _ _ _ _ Hmedia). split.
                 --- intros Hs.
                     rewrite (bind_guard_failed ns _ _ _ _ _ Hns
                                (status_not_200 _ Hs)).
                     now apply adapter_handler_HTTPException.
                 --- intros text Hm200 Hbody.
                     rewrite (bind_guard_passed _ _ _ _ (status_200 _ Hm200)).
                     rewrite bind_check_video_content by exact Hns.
                     rewrite bind_print.
                     rewrite (bind_content_unreadable _ _ _ _ Hbody).
                     now rewrite (adapter_handler_PyError ns w "v3" _ _ Hns).
Qed.

Lemma download_v3_stage_witness :
  download_v3 with_logger tokens_gone standard_url []
  = (Raise (HTTPException 500 "Could not retrieve prefix from tiktokio.com"),
     [ Stdout ("Starting v3 download method for URL: " ++ standard_url);
       Stdout ("Extracting video ID from URL: " ++ standard_url);
       Stdout "Extracted username: @someuser";
       Stdout "Extracted content type: video, video ID: 7123456789012345678";
       Log DEBUG "Making initial request to tiktokio.com";
       SessionGet "https://tiktokio.com/";
       Log ERROR "Could not retrieve prefix from tiktokio.com";
       Log DEBUG "HTML content: landing";
       Log ERROR "HTTP exception in v3 method: Could not retrieve prefix from tiktokio.com" ]) /\
  fst (download_v3 with_logger json_pages standard_url [])
  = Raise (HTTPException 500
             "Error downloading video (v3): Cannot use css on a Selector of type 'json'").
Proof.
  split.
  - refine (proj1 (proj2 (download_v3_fails_stage_by_stage with_logger
                            tokens_gone standard_url [] "@someuser"
                            "7123456789012345678" _
                            (page 200 "https://tiktokio.com/" "landing")
                            eq_refl (extract_standard_url _ _ _)
                            eq_refl eq_refl)
                     [] eq_refl) eq_refl).
  - refine (proj1 (download_v3_fails_stage_by_stage with_logger
                     json_pages standard_url [] "@someuser"
                     "7123456789012345678" _ json_answer
                     eq_refl (extract_standard_url _ _ _) eq_refl eq_refl)
              _ eq_refl).
Defined.

(** ** The handshake of [download_v1] *)

Lemma v1_find_link_returns ns w doc t link more :
  name_bound ns "logger" = true ->
  css w v1_link_selector doc = inr (link :: more) ->
  v1_find_link ns w doc t
  = (Return link, (t ++ [Log DEBUG ("Found download link: " ++ link)])%list).
Proof.
  intros Hns H. unfold v1_find_link. rewrite (bind_css_found _ _ _ _ _ _ H).
  now rewrite (bind_logger ns _ _ _ _ Hns).
Qed.



(** ** How [download_v1] reads the answer to the form *)

(** With [logger] bound and the handshake of [download_v1] carried up to
    a 200 answer to the form (each answer taken at the history of the
    run), what the answer holds decides the outcome: a body that is no
    JSON gives HTTP 500 "Invalid JSON response from tmate.cc: ..."; JSON
    that is not an object gives 500 with the [AttributeError] of the
    missing method [get]; an object whose [data] is missing, [null] or
    otherwise false gives 500 "Invalid response from tmate.cc (no data
    field)"; a true [data] that is no string gives 500 with the error of
    the selector library; a string [data] that the selector library
    refuses to query (it is JSON itself, for one) gives 500 with the text
    of that exception; and a string [data] in which the selector finds no
    link gives 500 "Could not find download link". *)
Theorem download_v1_reads_the_answer
    ns w url t handle video_id t1 landing token more_tokens posted :
  name_bound ns "logger" = true ->
  extract_video_id ns w url
    (t ++ [Stdout ("Starting v1 download method for URL: " ++ url)])%list
  = (Return (handle, video_id, "video"), t1) ->
  session_get w (t1 ++ [Log DEBUG "Making initial request to tmate.cc"])%list
    "https://tmate.cc/" = inr landing ->
  r_status_code landing = 200%Z ->
  css w v1_token_selector (r_text landing) = inr (token :: more_tokens) ->
  truthy token = true ->
  session_post w
    (t1 ++ [ Log DEBUG "Making initial request to tmate.cc";
             SessionGet "https://tmate.cc/";
             Log DEBUG ("Obtained token: " ++ token);
             Log DEBUG ("Submitting URL to tmate.cc: " ++ url) ])%list
    "https://tmate.cc/action" (py_dict [ ("url", url); ("token", token) ])
  = inr posted ->
  r_status_code posted = 200%Z ->
  (forall text,
      r_json posted = inl text ->
      fst (download_v1 ns w url t)
      = Raise (HTTPException 500
                 ("Invalid JSON response from tmate.cc: " ++ text))) /\
  (forall j,
      r_json posted = inr j -> (forall fields, j <> JObj fields) ->
      fst (download_v1 ns w url t)
      = Raise (HTTPException 500
                 ("Error downloading video (v1): " ++ "'" ++ type_name j
                  ++ "' object has no attribute 'get'"))) /\
  (forall fields,
      r_json posted = inr (JObj fields) ->
      truthy_json (match assoc "data" fields with
                   | Some v => v
                   | None => JNull
                   end) = false ->
      fst (download_v1 ns w url t)
      = Raise (HTTPException 500
                 "Invalid response from tmate.cc (no data field)")) /\
  (forall fields v,
      r_json posted = inr (JObj fields) ->
      assoc "data" fields = Some v -> truthy_json v = true ->
      (forall data, v <> JStr data) ->
      fst (download_v1 ns w url t)
      = Raise (HTTPException 500
                 ("Error downloading video (v1): "
                  ++ selector_type_error w v))) /\
  (forall fields data msg,
      r_json posted = inr (JObj fields) ->
      assoc "data" fields = Some (JStr data) -> truthy data = true ->
      css w v1_link_selector data = inl msg ->
      fst (download_v1 ns w url t)
      = Raise (HTTPException 500 ("Error downloading video (v1): " ++ msg))) /\
  (forall fields data,
      r_json posted = inr (JObj fields) ->
      assoc "data" fields = Some (JStr data) -> truthy data = true ->
      css w v1_link_selector data = inr [] ->
      fst (download_v1 ns w url t)
      = Raise (HTTPException 500 "Could not find download link")).
Proof.
  intros Hns He Hland Hl200 Htok Htt Hpost Hp200.
  unfold download_v1. rewrite bind_print. rewrite adapter_outcome.
  rewrite (bind_Return _ _ _ _ _ He). rewrite bind_only_videos.
  rewrite (bind_logger ns _ _ _ _ Hns).
  rewrite (bind_s_get_answer _ _ _ _ _ Hland).
  rewrite (bind_guard_passed _ _ _ _ (status_200 _ Hl200)).
  rewrite (bind_css_found _ _ _ _ _ _ Htok). cbv zeta.
  cbn [hd_error the truthy_opt].
  rewrite bind_guard_passed by (now rewrite Htt).
  rewrite !(bind_logger ns _ _ _ _ Hns). rewrite ?app_one.
  rewrite (bind_s_post_answer _ _ _ _ _ _ Hpost).
  rewrite (bind_guard_passed _ _ _ _ (status_200 _ Hp200)).
  split; [|split; [|split; [|split; [|split]]]].
  - intros text Hj.
    erewrite bind_Raise.
    2:{ unfold try_except, json_. rewrite Hj. unfold raise at 1.
        cbv beta iota. unfold bind, raise.
        repeat rewrite (logger_bound ns _ _ _ Hns). reflexivity. }
    now apply adapter_handler_HTTPException.
  - intros j Hj Hno.
    erewrite (bind_Return (try_except _ _))
      by (unfold try_except, json_; rewrite Hj; reflexivity).
    erewrite bind_Raise.
    2:{ unfold json_get. destruct j; try reflexivity.
        exfalso. now apply (Hno kv). }
    now rewrite (adapter_handler_PyError ns w "v1" _ _ Hns).
  - intros fields Hj Hf.
    erewrite (bind_Return (try_except _ _))
      by (unfold try_except, json_; rewrite Hj; reflexivity).
    unfold json_get at 1. rewrite bind_ret. rewrite Hf. simpl negb.
    cbv beta iota.
    erewrite bind_Raise.
    2:{ unfold bind, raise.
        repeat rewrite (logger_bound ns _ _ _ Hns). reflexivity. }
    now apply adapter_handler_HTTPException.
  - intros fields v Hj Hd Htv Hno.
    erewrite (bind_Return (try_except _ _))
      by (unfold try_except, json_; rewrite Hj; reflexivity).
    unfold json_get at 1. rewrite bind_ret. rewrite Hd, Htv. simpl negb.
    cbv beta iota. rewrite bind_ret.
    erewrite bind_Raise.
    2:{ unfold Selector_of_json. destruct v; try reflexivity.
        exfalso. now apply (Hno s). }
    now rewrite (adapter_handler_PyError ns w "v1" _ _ Hns).
  - intros fields data msg Hj Hd Htd Href.
    erewrite (bind_Return (try_except _ _))
      by (unfold try_except, json_; rewrite Hj; reflexivity).
    unfold json_get at 1. rewrite bind_ret. rewrite Hd. simpl truthy_json.
    rewrite Htd. simpl negb. cbv beta iota. rewrite bind_ret.
    unfold Selector_of_json at 1. rewrite bind_ret.
    erewrite bind_Raise.
    2:{ unfold v1_find_link. now rewrite (bind_css_refused _ _ _ _ _ _ Href). }
    now rewrite (adapter_handler_PyError ns w "v1" _ _ Hns).
  - intros fields data Hj Hd Htd Hnone.
    erewrite (bind_Return (try_except _ _))
      by (unfold try_except, json_; rewrite Hj; reflexivity).
    unfold json_get at 1. rewrite bind_ret. rewrite Hd. simpl truthy_json.
    rewrite Htd. simpl negb. cbv beta iota. rewrite bind_ret.
    unfold Selector_of_json at 1. rewrite bind_ret.
    erewrite bind_Raise.
    2:{ unfold v1_find_link. rewrite (bind_css_found _ _ _ _ _ _ Hnone).
        unfold bind, raise.
        repeat rewrite (logger_bound ns _ _ _ Hns). reflexivity. }
    now apply adapter_handler_HTTPException.
Qed.

Lemma download_v1_reads_the_answer_witness :
  fst (download_v1 with_logger drifted standard_url [])
  = Raise (HTTPException 500 "Could not find download link") /\
  fst (download_v1 with_logger json_in_answer standard_url [])
  = Raise (HTTPException 500
             "Error downloading video (v1): Cannot use css on a Selector of type 'json'").
Proof.
  split.
  - refine (proj2 (proj2 (proj2 (proj2 (proj2
              (download_v1_reads_the_answer with_logger drifted standard_url []
                 "@someuser" "7123456789012345678" _
                 (page 200 "https://tmate.cc/" "landing") "tok" [] links_page
                 eq_refl (extract_standard_url _ _ _) eq_refl eq_refl eq_refl
                 eq_refl eq_refl eq_refl)))))
              [("data", JStr "links")] "links" eq_refl eq_refl eq_refl eq_refl).
  - refine (proj1 (proj2 (proj2 (proj2 (proj2
              (download_v1_reads_the_answer with_logger json_in_answer
                 standard_url [] "@someuser" "7123456789012345678" _
                 (page 200 "https://tmate.cc/" "landing") "tok" [] json_answer
                 eq_refl (extract_standard_url _ _ _) eq_refl eq_refl eq_refl
                 eq_refl eq_refl eq_refl)))))
              [("data", JStr "{}")] "{}" _ eq_refl eq_refl eq_refl eq_refl).
Defined.

(** ** The stages of [download_v1] around the answer to the form *)

(** With [logger] bound, a video extracted and a 200 answer of the landing
    page, [download_v1] fails as follows at the stages that do not depend
    on the JSON of the answer; every answer of the backend is taken at the
    history of the run.  A query for the [token] that the selector library
    refuses gives HTTP 500 with the text of its exception.  A missing or
    empty [token] gives 500 "Could not retrieve token from tmate.cc", and
    the trace shows that nothing was posted.  A form request that raises
    gives 500 with the text of the exception; a form answer other than 200
    gives that status.  After an answer with a link: a media request that
    raises gives 500 with its text; a media answer other than 200 gives
    that status; a body of the media, or of the answer to the form, that
    cannot be read gives 500 with the text of that exception. *)
Theorem download_v1_fails_stage_by_stage
    ns w url t handle video_id t1 landing :
  name_bound ns "logger" = true ->
  extract_video_id ns w url
    (t ++ [Stdout ("Starting v1 download method for URL: " ++ url)])%list
  = (Return (handle, video_id, "video"), t1) ->
  session_get w (t1 ++ [Log DEBUG "Making initial request to tmate.cc"])%list
    "https://tmate.cc/" = inr landing ->
  r_status_code landing = 200%Z ->
  (forall msg,
      css w v1_token_selector (r_text landing) = inl msg ->
      fst (download_v1 ns w url t)
      = Raise (HTTPException 500 ("Error downloading video (v1): " ++ msg))) /\
  (forall found,
      css w v1_token_selector (r_text landing) = inr found ->
      (truthy_opt (hd_error found) = false ->
       download_v1 ns w url t
       = (Raise (HTTPException 500 "Could not retrieve token from tmate.cc"),
          (t1 ++ [ Log DEBUG "Making initial request to tmate.cc";
                   SessionGet "https://tmate.cc/";
                   Log ERROR "Could not retrieve token from tmate.cc";
                   Log ERROR "HTTP exception in v1 method: Could not retrieve token from tmate.cc" ])%list)) /\
      (forall token,
          hd_error found = Some token ->
          truthy token = true ->
          let form := py_dict [ ("url", url); ("token", token) ] in
          let at_post :=
            (t1 ++ [ Log DEBUG "Making initial request to tmate.cc";
                     SessionGet "https://tmate.cc/";
                     Log DEBUG ("Obtained token: " ++ token);
                     Log DEBUG ("Submitting URL to tmate.cc: " ++ url) ])%list in
          (forall text,
              session_post w at_post "https://tmate.cc/action" form = inl text ->
              fst (download_v1 ns w url t)
              = Raise (HTTPException 500
                         ("Error downloading video (v1): " ++ text))) /\
          (forall posted,
              session_post w at_post "https://tmate.cc/action" form
              = inr posted ->
              (r_status_code posted <> 200%Z ->
               fst (download_v1 ns w url t)
               = Raise (HTTPException (r_status_code posted)
                          ("tmate.cc action request failed with status "
                           ++ str_of_Z (r_status_code posted)))) /\
              (forall fields data link more,
                  r_status_code posted = 200%Z ->
                  r_json posted = inr (JObj fields) ->
                  assoc "data" fields = Some (JStr data) ->
                  truthy data = true ->
                  css w v1_link_selector data = inr (link :: more) ->
                  let at_media :=
                    (at_post
                     ++ [ SessionPost "https://tmate.cc/action" form;
                          Log DEBUG ("Found download link: " ++ link);
                          Log DEBUG "Downloading video content" ])%list in
                  (forall text,
                      session_get w at_media link = inl text ->
                      fst (download_v1 ns w url t)
                      = Raise (HTTPException 500
                                 ("Error downloading video (v1): " ++ text))) /\
                  (forall media,
                      session_get w at_media link = inr media ->
                      (r_status_code media <> 200%Z ->
                       fst (download_v1 ns w url t)
                       = Raise (HTTPException (r_status_code media)
                                  ("Failed to download video from tmate.cc with status "
                                   ++ str_of_Z (r_status_code media)))) /\
                      (forall text,
                          r_status_code media = 200%Z ->
                          r_content media = inl text ->
                          fst (download_v1 ns w url t)
                          = Raise (HTTPException 500
                                     ("Error downloading video (v1): "
                                      ++ text))) /\
                      (forall bytes text,
                          r_status_code media = 200%Z ->
                          r_content media = inr bytes ->
                          r_content posted = inl text ->
                          fst (download_v1 ns w url t)
                          = Raise (HTTPException 500
                                     ("Error downloading video (v1): "
                                      ++ text)))))))).
Proof.
  intros Hns He Hland Hl200.
  unfold download_v1. rewrite bind_print. rewrite adapter_outcome.
  rewrite (bind_Return _ _ _ _ _ He). rewrite bind_only_videos.
  rewrite (bind_logger ns _ _ _ _ Hns).
  rewrite (bind_s_get_answer _ _ _ _ _ Hland).
  rewrite (bind_guard_passed _ _ _ _ (status_200 _ Hl200)).
  split.
  - intros msg Hp. rewrite (bind_css_refused _ _ _ _ _ _ Hp).
    now rewrite (adapter_handler_PyError ns w "v1" _ _ Hns).
  - intros found Hp.
    rewrite (bind_css_found _ _ _ _ _ _ Hp). cbv zeta.
    split.
    + intros Hmissing. rewrite Hmissing. simpl negb. cbv beta iota.
      erewrite bind_Raise.
      2:{ unfold bind, raise. repeat rewrite (logger_bound ns _ _ _ Hns).
          reflexivity. }
      unfold adapter_handler. rewrite (bind_logger ns _ _ _ _ Hns).
      unfold raise. now rewrite ?app_one.
    + intros token Htok Htt. rewrite Htok. cbn [the truthy_opt].
      rewrite bind_guard_passed by (now rewrite Htt).
      rewrite !(bind_logger ns _ _ _ _ Hns). rewrite ?app_one. split.
      * intros text Hpost. rewrite (bind_s_post_error _ _ _ _ _ _ Hpost).
        now rewrite (adapter_handler_PyError ns w "v1" _ _ Hns).
      * intros posted Hpost.
        rewrite (bind_s_post_answer _ _ _ _ _ _ Hpost). split.
        -- intros Hs.
           rewrite (bind_guard_failed ns _ _ _ _ _ Hns (status_not_200 _ Hs)).
           now apply adapter_handler_HTTPException.
        -- intros fields data link more Hp200 Hj Hd Htd Hlink.
           rewrite (bind_guard_passed _ _ _ _ (status_200 _ Hp200)).
           erewrite (bind_Return (try_except _ _))
             by (unfold try_except, json_; rewrite Hj; reflexivity).
           unfold json_get. rewrite bind_ret. rewrite Hd.
           simpl truthy_json. rewrite Htd. simpl negb. cbv beta iota.
           rewrite bind_ret. unfold Selector_of_json. rewrite bind_ret.
           rewrite (bind_Return _ _ _ _ _ (v1_find_link_returns ns w data _ link
                                             more Hns Hlink)).
           rewrite (bind_logger ns _ _ _ _ Hns). rewrite ?app_one. split.
           ++ intros text Hmedia.
              rewrite (bind_s_get_error _ _ _ _ _ Hmedia).
              now rewrite (adapter_handler_PyError ns w "v1" _ _ Hns).
           ++ intros media Hmedia.
              rewrite (bind_s_get_answer _ _ _ _ _ Hmedia).
              split; [|split].
              ** intros Hs.
                 rewrite (bind_guard_failed ns _ _ _ _ _ Hns
                            (status_not_200 _ Hs)).
                 now apply adapter_handler_HTTPException.
              ** intros text Hm200 Hbody.
                 rewrite (bind_guard_passed _ _ _ _ (status_200 _ Hm200)).
                 rewrite bind_check_video_content by exact Hns.
                 rewrite bind_print.
                 rewrite (bind_content_unreadable _ _ _ _ Hbody).
                 now rewrite (adapter_handler_PyError ns w "v1" _ _ Hns).
              ** intros bytes text Hm200 Hbytes Hbody.
                 rewrite (bind_guard_passed _ _ _ _ (status_200 _ Hm200)).
                 rewrite bind_check_video_content by exact Hns.
                 rewrite bind_print.
                 rewrite (bind_content_ _ _ _ _ Hbytes).
                 rewrite (bind_content_unreadable _ _ _ _ Hbody).
                 now rewrite (adapter_handler_PyError ns w "v1" _ _ Hns).
Qed.

Lemma download_v1_stage_witness :
  download_v1 with_logger tokens_gone standard_url []
  = (Raise (HTTPException 500 "Could not retrieve token from tmate.cc"),
     [ Stdout ("Starting v1 download method for URL: " ++ standard_url);
       Stdout ("Extracting video ID from URL: " ++ standard_url);
       Stdout "Extracted username: @someuser";
       Stdout "Extracted content type: video, video ID: 7123456789012345678";
       Log DEBUG "Making initial request to tmate.cc";
       SessionGet "https://tmate.cc/";
       Log ERROR "Could not retrieve token from tmate.cc";
       Log ERROR "HTTP exception in v1 method: Could not retrieve token from tmate.cc" ]) /\
  fst (download_v1 with_logger json_pages standard_url [])
  = Raise (HTTPException 500
             "Error downloading video (v1): Cannot use css on a Selector of type 'json'").
Proof.
  split.
  - refine (proj1 (proj2 (download_v1_fails_stage_by_stage with_logger
                            tokens_gone standard_url [] "@someuser"
                            "7123456789012345678" _
                            (page 200 "https://tmate.cc/" "landing")
                            eq_refl (extract_standard_url _ _ _)
                            eq_refl eq_refl)
                     [] eq_refl) eq_refl).
  - refine (proj1 (download_v1_fails_stage_by_stage with_logger
                     json_pages standard_url [] "@someuser"
                     "7123456789012345678" _ json_answer
                     eq_refl (extract_standard_url _ _ _) eq_refl eq_refl)
              _ eq_refl).
Defined.

(** ** The form of [download_v2] *)

Lemma assoc_dict_set kv k v key :
  assoc key (dict_set kv k v)
  = if (k =? key)%string then Some v else assoc key kv.
Proof.
  induction kv as [|[k' v'] kv IH]; simpl.
  - reflexivity.
  - destruct (k' =? k)%string eqn:E; simpl.
    + apply String.eqb_eq in E. subst k'. now destruct (k =? key)%string.
    + rewrite IH. destruct (k' =? key)%string eqn:E'; [|reflexivity].
      apply String.eqb_eq in E'. subst k'. rewrite String.eqb_sym in E.
      now rewrite E.
Qed.

Lemma dict_set_keys kv k v :
  NoDup (map fst kv) -> NoDup (map fst (dict_set kv k v)) /\
  forall x, In x (map fst (dict_set kv k v)) -> x = k \/ In x (map fst kv).
Proof.
  induction kv as [|[k' v'] kv IH]; simpl; intros H.
  - split; [constructor; [intros []|constructor]|]. intros x [<-|[]]. now left.
  - inversion H as [|? ? Hn Hd]; subst.
    destruct (k' =? k)%string eqn:E; simpl.
    + split; [exact H|]. intros x Hx. now right.
    + destruct (IH Hd) as [IH1 IH2]. split.
      * constructor; [|exact IH1]. intros Hin.
        destruct (IH2 _ Hin) as [->|Hin']; [|contradiction].
        now rewrite String.eqb_refl in E.
      * intros x [<-|Hx]; [right; now left|].
        destruct (IH2 _ Hx); [now left|right; now right].
Qed.

(** The form that [download_v2] posts is the dict
    [{token_a: url, token_b: token_b_value, 'verify': '1'}] with field names
    scraped from the landing page.  Its keys are distinct and ['verify']
    is ['1'].  The URL is in the form, under [token_a], when [token_a]
    differs from [token_b] and from ['verify']; when the page gives the
    two fields the same name, the form holds the token value under that
    name and the URL is not sent. *)
Theorem form_of_download_v2_can_lose_the_url token_a token_b token_b_value url :
  NoDup (map fst (py_dict [ (token_a, url); (token_b, token_b_value);
                            ("verify", "1") ])) /\
  assoc "verify" (py_dict [ (token_a, url); (token_b, token_b_value);
                            ("verify", "1") ]) = Some "1" /\
  (token_a <> token_b -> token_a <> "verify" ->
   assoc token_a (py_dict [ (token_a, url); (token_b, token_b_value);
                            ("verify", "1") ]) = Some url) /\
  (token_a = token_b -> token_a <> "verify" ->
   py_dict [ (token_a, url); (token_b, token_b_value); ("verify", "1") ]
   = [ (token_a, token_b_value); ("verify", "1") ]).
Proof.
  unfold py_dict. cbn [fold_left fst snd].
  split; [|split; [|split]].
  - apply dict_set_keys. apply dict_set_keys. apply dict_set_keys. constructor.
  - rewrite assoc_dict_set. now rewrite String.eqb_refl.
  - intros Hab Hav. rewrite !assoc_dict_set.
    apply String.eqb_neq in Hab. apply String.eqb_neq in Hav.
    rewrite String.eqb_sym in Hab. rewrite String.eqb_sym in Hav.
    rewrite Hab, Hav. now rewrite String.eqb_refl.
  - intros <- Hav. apply String.eqb_neq in Hav. simpl.
    rewrite String.eqb_refl. simpl. now rewrite Hav.
Qed.


(** ** The API key *)

(** Once the module has loaded, its [API_KEY] is not empty.  Whatever the
    security scheme of the route does with the request: when it raises,
    the endpoint raises the same exception and nothing else runs; when it
    hands over a value other than [API_KEY], the endpoint ends with HTTP
    403 "Could not validate API key" and nothing more is printed, logged
    or requested; when it hands over [API_KEY], the body of
    [download_video] runs as it is.  So a response is returned only for
    the configured key. *)
Theorem only_the_configured_key_reaches_the_pipeline env API_KEY t0 t1 :
  load_API_KEY env t0 = (Return API_KEY, t1) ->
  API_KEY <> EmptyString /\
  (forall ns w scheme url t api_key_header t',
      scheme t = (Return api_key_header, t') ->
      (api_key_header = API_KEY ->
       download_endpoint ns w scheme API_KEY url t
       = download_video ns w url t') /\
      (api_key_header <> API_KEY ->
       download_endpoint ns w scheme API_KEY url t
       = (Raise (HTTPException 403 "Could not validate API key"), t'))) /\
  (forall ns w scheme url t e t',
      scheme t = (Raise e, t') ->
      download_endpoint ns w scheme API_KEY url t = (Raise e, t')) /\
  (forall ns w scheme url t response t',
      download_endpoint ns w scheme API_KEY url t = (Return response, t') ->
      exists t2,
        scheme t = (Return API_KEY, t2) /\
        download_video ns w url t2 = (Return response, t')).
Proof.
  intros H.
  assert (Hne : API_KEY <> EmptyString).
  { unfold load_API_KEY in H. destruct env as [[|c s]|]; simpl in H;
      try discriminate. inversion H. discriminate. }
  split; [exact Hne|]. split; [|split].
  - intros ns w scheme url t h t' Hs. unfold download_endpoint.
    rewrite (bind_Return _ _ _ _ _ Hs). unfold get_api_key. split.
    + intros ->. now rewrite String.eqb_refl.
    + intros Hh. apply String.eqb_neq in Hh. now rewrite Hh.
  - intros ns w scheme url t e t' Hs. unfold download_endpoint.
    now rewrite (bind_Raise _ _ _ _ _ Hs).
  - intros ns w scheme url t response t'. unfold download_endpoint.
    intros E. apply bind_inv_Return in E as (h & t2 & Hs & E).
    unfold get_api_key in E. destruct (h =? API_KEY)%string eqn:Hh.
    + apply String.eqb_eq in Hh. subst h. exists t2. split; [exact Hs|].
      exact E.
    + discriminate E.
Qed.

Lemma configured_key_witness :
  download_endpoint module_bindings offline (ret "Secret") "secret"
    standard_url []
  = (Raise (HTTPException 403 "Could not validate API key"), []) /\
  download_endpoint module_bindings offline
    (raise (HTTPException 403 "Not authenticated")) "secret" standard_url []
  = (Raise (HTTPException 403 "Not authenticated"), []).
Proof.
  pose proof (only_the_configured_key_reaches_the_pipeline
                (Some "secret") "secret" []
                [Stdout "✅ API_KEY cargada correctamente"] eq_refl)
    as (_ & Hgiven & Hraised & _).
  split.
  - refine (proj2 (Hgiven module_bindings offline (ret "Secret") standard_url
                     [] "Secret" [] eq_refl) _).
    discriminate.
  - exact (Hraised module_bindings offline
             (raise (HTTPException 403 "Not authenticated")) standard_url []
             _ [] eq_refl).
Defined.

(** ** Empty links *)

(** With [logger] bound: a link that [download_v2] extracts is never the
    empty string, whereas [download_v1] and [download_v3] take the first
    [href] that their selector finds even when it is empty. *)
Theorem only_download_v2_refuses_an_empty_link ns w doc t :
  name_bound ns "logger" = true ->
  (forall link, fst (v2_find_link ns w doc t) = Return link ->
                truthy link = true) /\
  (forall more, css w v1_link_selector doc = inr (EmptyString :: more) ->
                fst (v1_find_link ns w doc t) = Return EmptyString) /\
  (forall more, css w v3_link_selector doc = inr (EmptyString :: more) ->
                fst (v3_find_link ns w doc t) = Return EmptyString).
Proof.
  intros Hns. split; [|split].
  - intros link. rewrite (v2_find_link_first_candidate ns w doc t Hns).
    destruct (first_candidate (xpath_probe w doc) selectors_to_try)
      as [c l| |msg] eqn:F; simpl; try discriminate.
    intros H. inversion H; subst l.
    apply first_candidate_Found in F as (b & a & _ & Hp & _).
    unfold xpath_probe in Hp.
    destruct (xpath w c doc) as [m|found]; [discriminate|].
    destruct (hd_error found) as [l|]; [|discriminate].
    destruct (truthy l) eqn:Ht; [|discriminate]. now inversion Hp; subst.
  - intros more H. now rewrite (v1_find_link_returns ns w doc t _ more Hns H).
  - intros more H. rewrite (v3_find_link_first_candidate ns w doc t Hns).
    unfold css_probe. simpl. now rewrite H.
Qed.

Lemma empty_link_witness :
  fst (v1_find_link with_logger empty_href "links" []) = Return EmptyString /\
  fst (v3_find_link with_logger empty_href "links" []) = Return EmptyString.
Proof.
  pose proof (only_download_v2_refuses_an_empty_link with_logger empty_href
                "links" [] eq_refl) as (_ & H1 & H3).
  split; [exact (H1 [media_url] eq_refl)|exact (H3 [media_url] eq_refl)].
Defined.

(** ** The caller gets the first response *)

(** The response of the first adapter that returns is what
    [download_video] returns, unchanged and with nothing added to the
    trace: the response of [download_v2] when it returns, and (with
    [logger] bound) the response of [download_v1] when the two adapters
    before it have failed. *)
Theorem download_video_returns_the_first_response ns w url t :
  (forall response t2,
      download_v2 ns w url
        (t ++ [ Stdout ("Received download request for URL: " ++ url);
                Stdout "Trying download method: download_v2" ])%list
      = (Return response, t2) ->
      download_video ns w url t = (Return response, t2)) /\
  (forall e2 t2 e3 t3 response t1,
      name_bound ns "logger" = true ->
      download_v2 ns w url
        (t ++ [ Stdout ("Received download request for URL: " ++ url);
                Stdout "Trying download method: download_v2" ])%list
      = (Raise e2, t2) ->
      download_v3 ns w url
        (t2 ++ [ Log WARNING ("Method download_v2 failed: " ++ str_exn e2);
                 Stdout "Trying download method: download_v3" ])%list
      = (Raise e3, t3) ->
      download_v1 ns w url
        (t3 ++ [ Log WARNING ("Method download_v3 failed: " ++ str_exn e3);
                 Stdout "Trying download method: download_v1" ])%list
      = (Return response, t1) ->
      download_video ns w url t = (Return response, t1)).
Proof.
  split.
  - intros response t2 H2. unfold download_video. rewrite bind_print.
    unfold methods. rewrite <- app_one in H2.
    now rewrite (bind_Return _ _ _ _ _
                   (try_methods_success ns _ _ _ _ _ _ _ _ H2)).
  - intros e2 t2 e3 t3 response t1 Hns H2 H3 H1.
    unfold download_video. rewrite bind_print. unfold methods.
    rewrite <- app_one in H2, H3, H1.
    erewrite bind_Return.
    2:{ rewrite (try_methods_failure ns _ _ _ _ _ _ _ _ Hns H2).
        rewrite (try_methods_failure ns _ _ _ _ _ _ _ _ Hns H3).
        rewrite (try_methods_success ns _ _ _ _ _ _ _ _ H1). reflexivity. }
    reflexivity.
Qed.

Lemma download_video_first_response_witness :
  (exists t, download_video with_logger happy standard_url []
             = (Return happy_response, t)) /\
  (exists t, download_video with_logger only_tmate_up standard_url []
             = (Return happy_response_v1, t)).
Proof.
  split.
  - eexists.
    apply (proj1 (download_video_returns_the_first_response
                    with_logger happy standard_url [])).
    vm_compute. reflexivity.
  - eexists.
    eapply (proj2 (download_video_returns_the_first_response
                     with_logger only_tmate_up standard_url []));
      [reflexivity | vm_compute; reflexivity | vm_compute; reflexivity
      | vm_compute; reflexivity].
Defined.


(** ** What the module as it is still extracts *)

(** In the module as it is ([logger] unbound), with the short link, if
    any, resolved to an ASCII address [final]: [extract_video_id] returns
    exactly when both standard patterns match [final], and then it returns
    their matches; in every other case it raises [NameError], whether or
    not the URL holds a long identifier. *)
Theorem module_as_is_extracts_standard_urls_only w url t final t1 :
  follow_redirect module_bindings w url
    (t ++ [Stdout ("Extracting video ID from URL: " ++ url)])%list
  = (Return final, t1) ->
  is_ascii final = true ->
  fst (extract_video_id module_bindings w url t)
  = match Re.username_pattern final, Re.content_type_pattern final with
    | Some handle, Some (content_type, video_id) =>
        Return (handle, video_id, content_type)
    | _, _ => Raise (NameError "logger")
    end.
Proof.
  intros Hr _. rewrite (extract_video_id_resolved _ _ _ _ _ _ Hr).
  destruct (Re.username_pattern final) as [u|] eqn:Hu;
    destruct (Re.content_type_pattern final) as [[ct id]|] eqn:Hc.
  - now rewrite (match_patterns_standard _ final t1 u ct id Hu Hc).
  - now rewrite (match_patterns_unbound _ final t1 logger_module_unbound
                   (or_intror Hc)).
  - now rewrite (match_patterns_unbound _ final t1 logger_module_unbound
                   (or_introl Hu)).
  - now rewrite (match_patterns_unbound _ final t1 logger_module_unbound
                   (or_introl Hu)).
Qed.

Lemma module_as_is_extraction_witness :
  fst (extract_video_id module_bindings offline query_id_url [])
  = Raise (NameError "logger").
Proof.
  exact (module_as_is_extracts_standard_urls_only offline query_id_url []
           query_id_url _ eq_refl eq_refl).
Defined.

(** ** Where an adapter posts *)

Section OutputAndPages.

Variable P : event -> Prop.
Hypothesis P_Stdout : forall line, P (Stdout line).
Hypothesis P_Log : forall lvl msg, P (Log lvl msg).
Hypothesis P_SessionGet : forall u, P (SessionGet u).

Lemma emits_s_get w u : emits P (s_get w u).
Proof.
  intros t r t' H. unfold s_get in H.
  destruct (session_get w t u); inversion H; exists [SessionGet u];
    (split; [reflexivity|]); now constructor.
Qed.

Lemma emits_s_post w u data :
  P (SessionPost u data) -> emits P (s_post w u data).
Proof.
  intros HP t r t' H. unfold s_post in H.
  destruct (session_post w t u data); inversion H; exists [SessionPost u data];
    (split; [reflexivity|]); now constructor.
Qed.

Lemma emits_content_ r : emits P (content_ r).
Proof.
  unfold content_. destruct (r_content r); [apply emits_raise|apply emits_ret].
Qed.

Lemma emits_css_ w q doc : emits P (css_ w q doc).
Proof.
  unfold css_. destruct (css w q doc); [apply emits_raise|apply emits_ret].
Qed.

Lemma emits_xpath_ w q doc : emits P (xpath_ w q doc).
Proof.
  unfold xpath_. destruct (xpath w q doc); [apply emits_raise|apply emits_ret].
Qed.

Lemma emits_json_ r : emits P (json_ r).
Proof.
  unfold json_. destruct (r_json r); [apply emits_raise|apply emits_ret].
Qed.

Lemma emits_json_get j key : emits P (json_get j key).
Proof.
  unfold json_get. destruct j; first [apply emits_raise|apply emits_ret].
Qed.

Lemma emits_Selector_of_json w v : emits P (Selector_of_json w v).
Proof.
  unfold Selector_of_json.
  destruct v; first [apply emits_raise|apply emits_ret].
Qed.

Lemma emits_if {A : Type} (c : bool) (m1 m2 : M A) :
  emits P m1 -> emits P m2 -> emits P (if c then m1 else m2).
Proof. now destruct c. Qed.

Lemma emits_only_videos ns content_type : emits P (only_videos ns content_type).
Proof.
  unfold only_videos. apply emits_if; [|apply emits_ret].
  apply emits_bind; [apply emits_logger; auto|intros _]. apply emits_raise.
Qed.

Lemma emits_check_video_content ns response :
  emits P (check_video_content ns response).
Proof.
  unfold check_video_content. cbv zeta. apply emits_bind.
  - apply emits_if; [|apply emits_ret].
    apply emits_bind; [apply emits_logger; auto|intros _].
    apply emits_logger; auto.
  - intros _. apply emits_bind; [apply emits_logger; auto|intros _].
    apply emits_ret.
Qed.

Lemma emits_adapter_handler ns w v e : emits P (adapter_handler ns w v e).
Proof.
  unfold adapter_handler.
  destruct e;
    repeat match goal with
      | |- emits _ (bind _ _) => apply emits_bind; [|intros _]
      | |- emits _ (raise _) => apply emits_raise
      | |- emits _ (logger _ _ _) => apply emits_logger; auto
      end.
Qed.

Lemma emits_v1_find_link ns w doc : emits P (v1_find_link ns w doc).
Proof.
  unfold v1_find_link.
  apply emits_bind; [apply emits_css_|intros [|link more]];
    repeat match goal with
      | |- emits _ (bind _ _) => apply emits_bind; [|intros _]
      | |- emits _ (raise _) => apply emits_raise
      | |- emits _ (ret _) => apply emits_ret
      | |- emits _ (logger _ _ _) => apply emits_logger; auto
      end.
Qed.

Lemma emits_try_selectors ns w doc paths download_link :
  emits P (try_selectors ns w doc paths download_link).
Proof.
  revert download_link.
  induction paths as [|p paths IH]; intros download_link; simpl.
  - apply emits_ret.
  - apply emits_bind; [apply emits_xpath_|intros found]. cbv zeta.
    apply emits_if; [|apply IH].
    apply emits_bind; [apply emits_logger; auto|intros _]. apply emits_ret.
Qed.

Lemma emits_v2_find_link ns w doc : emits P (v2_find_link ns w doc).
Proof.
  unfold v2_find_link.
  apply emits_bind; [apply emits_try_selectors|intros v].
  apply emits_bind; [|intros _; apply emits_ret].
  apply emits_if; [|apply emits_ret].
  repeat match goal with
    | |- emits _ (bind _ _) => apply emits_bind; [|intros _]
    | |- emits _ (raise _) => apply emits_raise
    | |- emits _ (logger _ _ _) => apply emits_logger; auto
    end.
Qed.

Lemma emits_v3_find_link ns w doc : emits P (v3_find_link ns w doc).
Proof.
  unfold v3_find_link.
  apply emits_bind; [apply emits_css_|intros found].
  apply emits_bind.
  - destruct found as [|link more]; [|apply emits_ret].
    apply emits_bind; [apply emits_logger; auto|intros _].
    apply emits_bind; [apply emits_css_|intros [|link more]];
      [|apply emits_ret].
    repeat match goal with
      | |- emits _ (bind _ _) => apply emits_bind; [|intro]
      | |- emits _ (raise _) => apply emits_raise
      | |- emits _ (logger _ _ _) => apply emits_logger; auto
      end.
  - intros links. cbv zeta.
    apply emits_bind; [apply emits_logger; auto|intros _]. apply emits_ret.
Qed.

End OutputAndPages.

(** Whatever the namespace and the world, an adapter posts to the action
    address of its own backend and nowhere else, and the only request it
    makes outside its session is the GET that resolves the URL it was
    given. *)
Theorem adapters_post_only_to_their_backend ns w url :
  emits (posts_only_to url "https://tmate.cc/action") (download_v1 ns w url) /\
  emits (posts_only_to url "https://musicaldown.com/download")
    (download_v2 ns w url) /\
  emits (posts_only_to url "https://tiktokio.com/api/v1/tk-htmx")
    (download_v3 ns w url).
Proof.
  split; [|split].
  - unfold download_v1.
    repeat match goal with
      | |- emits _ (bind _ _) => apply emits_bind; [|intro]
      | |- emits _ (try_except _ _) => apply emits_try_except; [|intro]
      | |- emits _ (if _ then _ else _) => apply emits_if
      | |- emits _ (match ?x with _ => _ end) => destruct x
      | |- emits _ (ret _) => apply emits_ret
      | |- emits _ (raise _) => apply emits_raise
      | |- emits _ (print _) => apply emits_print; exact I
      | |- emits _ (logger _ _ _) => apply emits_logger; intros; exact I
      | |- emits _ (s_get _ _) => apply emits_s_get; intros; exact I
      | |- emits _ (s_post _ _ _) => apply emits_s_post; reflexivity
      | |- emits _ (content_ _) => apply emits_content_
      | |- emits _ (css_ _ _ _) => apply emits_css_
      | |- emits _ (xpath_ _ _ _) => apply emits_xpath_
      | |- emits _ (json_ _) => apply emits_json_
      | |- emits _ (json_get _ _) => apply emits_json_get
      | |- emits _ (Selector_of_json _ _) => apply emits_Selector_of_json
      | |- emits _ (only_videos _ _) => apply emits_only_videos; intros; exact I
      | |- emits _ (check_video_content _ _) =>
          apply emits_check_video_content; intros; exact I
      | |- emits _ (v1_find_link _ _ _) =>
          apply emits_v1_find_link; intros; exact I
      | |- emits _ (extract_video_id _ _ _) =>
          apply emits_extract_video_id; intros; simpl; auto
      | |- emits _ (adapter_handler _ _ _ _) =>
          apply emits_adapter_handler; intros; exact I
      | |- emits _ _ => progress cbv zeta
      end.
  - unfold download_v2.
    repeat match goal with
      | |- emits _ (bind _ _) => apply emits_bind; [|intro]
      | |- emits _ (try_except _ _) => apply emits_try_except; [|intro]
      | |- emits _ (if _ then _ else _) => apply emits_if
      | |- emits _ (match ?x with _ => _ end) => destruct x
      | |- emits _ (ret _) => apply emits_ret
      | |- emits _ (raise _) => apply emits_raise
      | |- emits _ (print _) => apply emits_print; exact I
      | |- emits _ (logger _ _ _) => apply emits_logger; intros; exact I
      | |- emits _ (s_get _ _) => apply emits_s_get; intros; exact I
      | |- emits _ (s_post _ _ _) => apply emits_s_post; reflexivity
      | |- emits _ (content_ _) => apply emits_content_
      | |- emits _ (css_ _ _ _) => apply emits_css_
      | |- emits _ (xpath_ _ _ _) => apply emits_xpath_
      | |- emits _ (only_videos _ _) => apply emits_only_videos; intros; exact I
      | |- emits _ (check_video_content _ _) =>
          apply emits_check_video_content; intros; exact I
      | |- emits _ (v2_find_link _ _ _) =>
          apply emits_v2_find_link; intros; exact I
      | |- emits _ (extract_video_id _ _ _) =>
          apply emits_extract_video_id; intros; simpl; auto
      | |- emits _ (adapter_handler _ _ _ _) =>
          apply emits_adapter_handler; intros; exact I
      | |- emits _ _ => progress cbv zeta
      end.
  - unfold download_v3.
    repeat match goal with
      | |- emits _ (bind _ _) => apply emits_bind; [|intro]
      | |- emits _ (try_except _ _) => apply emits_try_except; [|intro]
      | |- emits _ (if _ then _ else _) => apply emits_if
      | |- emits _ (match ?x with _ => _ end) => destruct x
      | |- emits _ (ret _) => apply emits_ret
      | |- emits _ (raise _) => apply emits_raise
      | |- emits _ (print _) => apply emits_print; exact I
      | |- emits _ (logger _ _ _) => apply emits_logger; intros; exact I
      | |- emits _ (s_get _ _) => apply emits_s_get; intros; exact I
      | |- emits _ (s_post _ _ _) => apply emits_s_post; reflexivity
      | |- emits _ (content_ _) => apply emits_content_
      | |- emits _ (css_ _ _ _) => apply emits_css_
      | |- emits _ (xpath_ _ _ _) => apply emits_xpath_
      | |- emits _ (only_videos _ _) => apply emits_only_videos; intros; exact I
      | |- emits _ (check_video_content _ _) =>
          apply emits_check_video_content; intros; exact I
      | |- emits _ (v3_find_link _ _ _) =>
          apply emits_v3_find_link; intros; exact I
      | |- emits _ (extract_video_id _ _ _) =>
          apply emits_extract_video_id; intros; simpl; auto
      | |- emits _ (adapter_handler _ _ _ _) =>
          apply emits_adapter_handler; intros; exact I
      | |- emits _ _ => progress cbv zeta
      end.
Qed.
